(** * Incremental backup and restore of a remote tabular store

    A shallow embedding of the backup / restore engine of
    [backup_supabase.py], [backup_supabase_safe.py] and
    [supabase_backup.py], and the properties of its change detector,
    incremental-reference handling, retention pruning and restore
    write-back.

    Conventions of the embedding:
    - JSON documents (rows, table entries, backup files) are values of
      [json]; Python dicts keep their insertion order (association lists);
    - a Python [str] is a Rocq [string], one character per code point
      below 256; floats do not occur;
    - the remote store is an arbitrary state machine [exec] answering the
      requests of type [op]; every request sent is appended to a trace;
    - an exception is a value [Raise msg]; loops over lists are folds and the
      only unbounded loop (paginated fetch) carries fuel. *)

From stdpp Require Import gmap strings list sorting.
From Stdlib Require Import ZArith String Ascii List Permutation Sorted DecimalString
  OrderedTypeEx.
Import ListNotations.

Local Open Scope string_scope.
Local Open Scope list_scope.
Local Open Scope Z_scope.

(** ** Python strings *)

Module PyStr.

Definition code (c : ascii) : Z := Z.of_N (N_of_ascii c).
Definition chr (n : Z) : ascii := ascii_of_N (Z.to_N n).

Fixpoint codes (s : string) : list Z :=
  match s with
  | EmptyString => []
  | String c s' => code c :: codes s'
  end.

(** [str(n)] for an integer. *)
Definition of_Z (n : Z) : string := NilEmpty.string_of_int (Z.to_int n).

Definition hex_digit (n : Z) : ascii :=
  if n <? 10 then chr (48 + n) else chr (87 + n).

(** Two lower-case hexadecimal digits of a byte. *)
Definition hex2 (n : Z) : string :=
  String (hex_digit (n / 16)) (String (hex_digit (n mod 16)) EmptyString).

Fixpoint concat (l : list string) : string :=
  match l with
  | [] => EmptyString
  | s :: l' => s +:+ concat l'
  end.

(** [sep.join(l)] *)
Fixpoint join (sep : string) (l : list string) : string :=
  match l with
  | [] => EmptyString
  | [s] => s
  | s :: l' => s +:+ sep +:+ join sep l'
  end.

(** [s.startswith(p)], returning the rest of [s] after [p]. *)
Fixpoint strip_prefix (p s : string) : option string :=
  match p, s with
  | EmptyString, _ => Some s
  | String a p', String b s' =>
      if Ascii.eqb a b then strip_prefix p' s' else None
  | String _ _, EmptyString => None
  end.

(** [sub in s] *)
Fixpoint contains (sub s : string) : bool :=
  match strip_prefix sub s with
  | Some _ => true
  | None =>
      match s with
      | EmptyString => false
      | String _ s' => contains sub s'
      end
  end.

(** [s.endswith(p)] *)
Fixpoint ends_with (p s : string) : bool :=
  if String.eqb p s then true
  else match s with
       | EmptyString => false
       | String _ s' => ends_with p s'
       end.

(** [s.replace(old, new)] for a non-empty [old]: occurrences are replaced
    from the left and do not overlap.  The fuel is the length of [s]. *)
Fixpoint replace_fuel (fuel : nat) (old new s : string) : string :=
  match fuel with
  | O => s
  | S fuel' =>
      match strip_prefix old s with
      | Some rest => new +:+ replace_fuel fuel' old new rest
      | None =>
          match s with
          | EmptyString => EmptyString
          | String c s' => String c (replace_fuel fuel' old new s')
          end
      end
  end.

Definition replace (old new s : string) : string :=
  replace_fuel (String.length s) old new s.

(** [s.lower()] on code points below 256. *)
Definition lower_char (c : ascii) : ascii :=
  let n := code c in
  if ((65 <=? n) && (n <=? 90)) || ((192 <=? n) && (n <=? 222) && negb (n =? 215))
  then chr (n + 32) else c.

Fixpoint lower (s : string) : string :=
  match s with
  | EmptyString => EmptyString
  | String c s' => String (lower_char c) (lower s')
  end.

(** [s[:n]] *)
Fixpoint take (n : nat) (s : string) : string :=
  match n, s with
  | S n', String c s' => String c (take n' s')
  | _, _ => EmptyString
  end.

End PyStr.

(** ** MD5 ([hashlib.md5(...).hexdigest()]) *)

Module MD5.

Definition w32 (x : Z) : Z := x mod 2 ^ 32.

Definition rotl32 (x c : Z) : Z :=
  w32 (Z.lor (Z.shiftl x c) (Z.shiftr x (32 - c))).

Definition not32 (x : Z) : Z := Z.lxor x 0xffffffff.

Definition shifts : list Z :=
  [7; 12; 17; 22; 7; 12; 17; 22; 7; 12; 17; 22; 7; 12; 17; 22;
   5; 9; 14; 20; 5; 9; 14; 20; 5; 9; 14; 20; 5; 9; 14; 20;
   4; 11; 16; 23; 4; 11; 16; 23; 4; 11; 16; 23; 4; 11; 16; 23;
   6; 10; 15; 21; 6; 10; 15; 21; 6; 10; 15; 21; 6; 10; 15; 21].

(** [floor(2^32 * abs(sin(i + 1)))] for i = 0 .. 63 *)
Definition sines : list Z :=
  [0xd76aa478; 0xe8c7b756; 0x242070db; 0xc1bdceee;
   0xf57c0faf; 0x4787c62a; 0xa8304613; 0xfd469501;
   0x698098d8; 0x8b44f7af; 0xffff5bb1; 0x895cd7be;
   0x6b901122; 0xfd987193; 0xa679438e; 0x49b40821;
   0xf61e2562; 0xc040b340; 0x265e5a51; 0xe9b6c7aa;
   0xd62f105d; 0x02441453; 0xd8a1e681; 0xe7d3fbc8;
   0x21e1cde6; 0xc33707d6; 0xf4d50d87; 0x455a14ed;
   0xa9e3e905; 0xfcefa3f8; 0x676f02d9; 0x8d2a4c8a;
   0xfffa3942; 0x8771f681; 0x6d9d6122; 0xfde5380c;
   0xa4beea44; 0x4bdecfa9; 0xf6bb4b60; 0xbebfbc70;
   0x289b7ec6; 0xeaa127fa; 0xd4ef3085; 0x04881d05;
   0xd9d4d039; 0xe6db99e5; 0x1fa27cf8; 0xc4ac5665;
   0xf4292244; 0x432aff97; 0xab9423a7; 0xfc93a039;
   0x655b59c3; 0x8f0ccc92; 0xffeff47d; 0x85845dd1;
   0x6fa87e4f; 0xfe2ce6e0; 0xa3014314; 0x4e0811a1;
   0xf7537e82; 0xbd3af235; 0x2ad7d2bb; 0xeb86d391].

Record state := St { sa : Z; sb : Z; sc : Z; sd : Z }.

Definition init : state :=
  St 0x67452301 0xefcdab89 0x98badcfe 0x10325476.

(** One of the 64 operations on the working state, for message words [m]. *)
Definition round (m : list Z) (st : state) (i : Z) : state :=
  let '(St a b c d) := st in
  let '(f, g) :=
    if i <? 16 then (Z.lor (Z.land b c) (Z.land (not32 b) d), i)
    else if i <? 32 then (Z.lor (Z.land d b) (Z.land (not32 d) c), (5 * i + 1) mod 16)
    else if i <? 48 then (Z.lxor (Z.lxor b c) d, (3 * i + 5) mod 16)
    else (Z.lxor c (Z.lor b (not32 d)), (7 * i) mod 16) in
  let f' := w32 (f + a + nth (Z.to_nat i) sines 0 + nth (Z.to_nat g) m 0) in
  St d (w32 (b + rotl32 f' (nth (Z.to_nat i) shifts 0))) b c.

Definition indices : list Z := map Z.of_nat (seq 0 64).

Definition block (st : state) (m : list Z) : state :=
  let '(St a b c d) := fold_left (round m) indices st in
  St (w32 (sa st + a)) (w32 (sb st + b)) (w32 (sc st + c)) (w32 (sd st + d)).

(** Little-endian bytes of a word, and back. *)
Definition le_bytes (n : nat) (x : Z) : list Z :=
  map (fun k => (x / 2 ^ (8 * Z.of_nat k)) mod 256) (seq 0 n).

Fixpoint le_word (bs : list Z) : Z :=
  match bs with
  | [] => 0
  | b :: bs' => b + 256 * le_word bs'
  end.

Definition pad (msg : list Z) : list Z :=
  let len := Z.of_nat (length msg) in
  msg ++ [128] ++ repeat 0 (Z.to_nat ((55 - len) mod 64)) ++ le_bytes 8 (8 * len).

Fixpoint chunks {A} (fuel n : nat) (l : list A) : list (list A) :=
  match fuel, l with
  | S fuel', _ :: _ => firstn n l :: chunks fuel' n (skipn n l)
  | _, _ => []
  end.

Definition words (blk : list Z) : list Z := map le_word (chunks 16 4 blk).

Definition digest (msg : list Z) : state :=
  let p := pad msg in
  fold_left block (map words (chunks (length p) 64 p)) init.

Definition hexdigest (s : string) : string :=
  let '(St a b c d) := digest (PyStr.codes s) in
  PyStr.concat (map PyStr.hex2 (le_bytes 4 a ++ le_bytes 4 b ++ le_bytes 4 c ++ le_bytes 4 d)).

End MD5.

(** ** JSON values and the Python operations used on them *)

Set Warnings "-register-all".

Inductive json : Type :=
| JNull
| JBool (b : bool)
| JInt (n : Z)
| JStr (s : string)
| JList (l : list json)
| JDict (d : list (string * json)).

(** The outcome of a Python expression: a value, or an exception carrying
    its message ([str(e)]). *)
Inductive result (A : Type) : Type :=
| Ok (a : A)
| Raise (msg : string).
Arguments Ok {A} a.
Arguments Raise {A} msg.

#[export] Instance result_ret : MRet result := fun _ a => Ok a.
#[export] Instance result_bind : MBind result := fun _ _ f m =>
  match m with
  | Ok a => f a
  | Raise msg => Raise msg
  end.

Module Py.

Definition dquote : string := String (PyStr.chr 34) EmptyString.
Definition squote : string := String (PyStr.chr 39) EmptyString.
Definition backslash : string := String (PyStr.chr 92) EmptyString.

(** Lookup in a dict kept as an association list (first binding). *)
Fixpoint assoc {A} (d : list (string * A)) (k : string) : option A :=
  match d with
  | [] => None
  | (k', v) :: d' => if String.eqb k' k then Some v else assoc d' k
  end.

(** [d[k] = v]: an existing key keeps its position, a new key goes last. *)
Fixpoint dict_set {A} (d : list (string * A)) (k : string) (v : A) : list (string * A) :=
  match d with
  | [] => [(k, v)]
  | (k', v') :: d' =>
      if String.eqb k' k then (k', v) :: d' else (k', v') :: dict_set d' k v
  end.

(** [k in d] *)
Definition has_key {A} (d : list (string * A)) (k : string) : bool :=
  match assoc d k with Some _ => true | None => false end.

(** [bool(v)] *)
Definition truthy (v : json) : bool :=
  match v with
  | JNull => false
  | JBool b => b
  | JInt n => negb (n =? 0)
  | JStr s => negb (String.eqb s EmptyString)
  | JList l => match l with [] => false | _ => true end
  | JDict d => match d with [] => false | _ => true end
  end.

(** [d.get(k, dflt)] *)
Definition dict_get (d : list (string * json)) (k : string) (dflt : json) : json :=
  match assoc d k with Some v => v | None => dflt end.

(** [v.get(k)]; [None] is JSON [null].  Raises on a value that is not a dict. *)
Definition get (v : json) (k : string) : result json :=
  match v with
  | JDict d => Ok (dict_get d k JNull)
  | _ => Raise "object has no attribute 'get'"
  end.

(** [v.get(k, dflt)] *)
Definition get_default (v : json) (k : string) (dflt : json) : result json :=
  match v with
  | JDict d => Ok (dict_get d k dflt)
  | _ => Raise "object has no attribute 'get'"
  end.

(** [v.items()] *)
Definition items (v : json) : result (list (string * json)) :=
  match v with
  | JDict d => Ok d
  | _ => Raise "object has no attribute 'items'"
  end.

(** [v[k]] for a string key. *)
Definition subscript (v : json) (k : string) : result json :=
  match v with
  | JDict d =>
      match assoc d k with
      | Some x => Ok x
      | None => Raise (squote +:+ k +:+ squote)
      end
  | _ => Raise "indices must be integers or slices, not str"
  end.

(** [isinstance(v, dict) and v.get(k)], as a condition. *)
Definition has_flag (v : json) (k : string) : bool :=
  match v with
  | JDict d => truthy (dict_get d k JNull)
  | _ => false
  end.

Definition is_dict (v : json) : bool :=
  match v with JDict _ => true | _ => false end.

(** [a == b] *)
Fixpoint eq (a b : json) {struct a} : bool :=
  match a, b with
  | JNull, JNull => true
  | JBool x, JBool y => Bool.eqb x y
  | JBool x, JInt y => (if x then 1 else 0) =? y
  | JInt x, JBool y => x =? (if y then 1 else 0)
  | JInt x, JInt y => x =? y
  | JStr x, JStr y => String.eqb x y
  | JList l1, JList l2 =>
      (fix eq_list (l1 l2 : list json) {struct l1} : bool :=
         match l1, l2 with
         | [], [] => true
         | x :: xs, y :: ys => eq x y && eq_list xs ys
         | _, _ => false
         end) l1 l2
  | JDict d1, JDict d2 =>
      Nat.eqb (length d1) (length d2) &&
      (fix eq_items (d : list (string * json)) : bool :=
         match d with
         | [] => true
         | (k, v) :: d' =>
             match assoc d2 k with
             | Some v' => eq v v'
             | None => false
             end && eq_items d'
         end) d1
  | _, _ => false
  end.

(** [a < b]; [None] stands for the [TypeError] of unorderable operands. *)
Fixpoint lt (a b : json) {struct a} : option bool :=
  match a, b with
  | JBool x, JBool y => Some ((if x then 1 else 0) <? (if y then 1 else 0))
  | JBool x, JInt y => Some ((if x then 1 else 0) <? y)
  | JInt x, JBool y => Some (x <? (if y then 1 else 0))
  | JInt x, JInt y => Some (x <? y)
  | JStr x, JStr y => Some (String.ltb x y)
  | JList l1, JList l2 =>
      (fix lt_list (l1 l2 : list json) {struct l1} : option bool :=
         match l1, l2 with
         | [], [] => Some false
         | [], _ :: _ => Some true
         | _ :: _, [] => Some false
         | x :: xs, y :: ys => if eq x y then lt_list xs ys else lt x y
         end) l1 l2
  | _, _ => None
  end.

(** Stable insertion of [x] into a list sorted for [ltb]. *)
Fixpoint insert_by {A} (ltb : A -> A -> bool) (x : A) (l : list A) : list A :=
  match l with
  | [] => [x]
  | y :: l' => if ltb y x then y :: insert_by ltb x l' else x :: y :: l'
  end.

(** A stable sort: elements that do not compare keep their input order. *)
Fixpoint sort_by {A} (ltb : A -> A -> bool) (l : list A) : list A :=
  match l with
  | [] => []
  | x :: l' => insert_by ltb x (sort_by ltb l')
  end.

(** [repr(s)] of a string. *)
Definition repr_char (q : ascii) (c : ascii) : string :=
  let n := PyStr.code c in
  if Ascii.eqb c q || (n =? 92) then backslash +:+ String c EmptyString
  else if n =? 9 then backslash +:+ "t"
  else if n =? 10 then backslash +:+ "n"
  else if n =? 13 then backslash +:+ "r"
  else if (n <? 32) || ((127 <=? n) && (n <=? 160)) || (n =? 173)
       then backslash +:+ "x" +:+ PyStr.hex2 n
  else String c EmptyString.

Fixpoint repr_chars (q : ascii) (s : string) : string :=
  match s with
  | EmptyString => EmptyString
  | String c s' => repr_char q c +:+ repr_chars q s'
  end.

Definition repr_str (s : string) : string :=
  let q := if PyStr.contains squote s && negb (PyStr.contains dquote s)
           then PyStr.chr 34 else PyStr.chr 39 in
  String q EmptyString +:+ repr_chars q s +:+ String q EmptyString.

(** [str(v)] of a list or dict, [repr(v)] of any value. *)
Fixpoint repr (v : json) : string :=
  match v with
  | JNull => "None"
  | JBool b => if b then "True" else "False"
  | JInt n => PyStr.of_Z n
  | JStr s => repr_str s
  | JList l => "[" +:+ PyStr.join ", " (map repr l) +:+ "]"
  | JDict d =>
      "{" +:+ PyStr.join ", " (map (fun kv => repr_str (fst kv) +:+ ": " +:+ repr (snd kv)) d)
          +:+ "}"
  end.

(** [str(v)], also what an f-string substitutes. *)
Definition str (v : json) : string :=
  match v with
  | JStr s => s
  | _ => repr v
  end.

(** JSON string literal with [ensure_ascii=True]. *)
Definition dumps_char (c : ascii) : string :=
  let n := PyStr.code c in
  if n =? 34 then backslash +:+ dquote
  else if n =? 92 then backslash +:+ backslash
  else if n =? 10 then backslash +:+ "n"
  else if n =? 13 then backslash +:+ "r"
  else if n =? 9 then backslash +:+ "t"
  else if n =? 8 then backslash +:+ "b"
  else if n =? 12 then backslash +:+ "f"
  else if (n <? 32) || (126 <? n) then backslash +:+ "u00" +:+ PyStr.hex2 n
  else String c EmptyString.

Fixpoint dumps_chars (s : string) : string :=
  match s with
  | EmptyString => EmptyString
  | String c s' => dumps_char c +:+ dumps_chars s'
  end.

Definition dumps_str (s : string) : string :=
  dquote +:+ dumps_chars s +:+ dquote.

(** [json.dumps(v, sort_keys=True, default=str)]: items of a dict are
    written in the order of their keys. *)
Fixpoint dumps (v : json) : string :=
  match v with
  | JNull => "null"
  | JBool b => if b then "true" else "false"
  | JInt n => PyStr.of_Z n
  | JStr s => dumps_str s
  | JList l => "[" +:+ PyStr.join ", " (map dumps l) +:+ "]"
  | JDict d =>
      "{" +:+ PyStr.join ", "
                (map (fun kv => dumps_str (fst kv) +:+ ": " +:+ snd kv)
                     (sort_by (fun a b => String.ltb (fst a) (fst b))
                              (map (fun kv => (fst kv, dumps (snd kv))) d)))
          +:+ "}"
  end.

(** All ordered pairs of positions [i < j] satisfy [p]. *)
Fixpoint all_pairs {A} (p : A -> A -> bool) (l : list A) : bool :=
  match l with
  | [] => true
  | x :: l' => forallb (p x) l' && all_pairs p l'
  end.

Definition comparable (a b : json) : bool :=
  match lt a b, lt b a with
  | Some _, Some _ => true
  | _, _ => false
  end.

Definition key_ltb {A} (a b : json * A) : bool :=
  match lt (fst a) (fst b) with
  | Some r => r
  | None => false
  end.

(** [sorted(l, key=key)].  The sort is stable and compares keys with [<]
    only; it raises as soon as the key function raises or two keys cannot
    be ordered (for keys that are numbers or strings this is exactly when
    CPython's sort raises). *)
Definition sorted {A} (key : A -> result json) (l : list A) : result (list A) :=
  keyed ← mapM (fun x => k ← key x; mret (k, x)) l;
  if all_pairs (fun a b => comparable (fst a) (fst b)) keyed
  then Ok (map snd (sort_by key_ltb keyed))
  else Raise "'<' not supported between instances".

End Py.

(** ** The remote store, the backup directories and the environment *)

(** Requests of the store client.  The engine sends [Select], [Count],
    [Upsert] and [Update]; [Insert] and [Delete] complete the client's
    interface. *)
Inductive op : Type :=
| Select (table : string) (first last : Z)
| Count (table : string)
| Upsert (table : string) (payload : json)
| Update (table : string) (row : json) (id : json)
| Insert (table : string) (payload : json)
| Delete (table : string) (column : string) (value : json).

(** A file of a backup directory; [content] is what [json.load] gives. *)
Record file : Type := File {
  name : string;
  mtime : Z;
  content : result json
}.

Record disk : Type := Disk {
  backups : list file;          (* BACKUPS_DIR *)
  safety_backups : list file;   (* SAFETY_BACKUPS_DIR *)
  summaries : list string       (* names of the files of SUMMARIES_DIR *)
}.

Record env : Type := Env {
  dotenv : bool;             (* load_env(): the .env file exists *)
  credentials : bool;        (* SUPABASE_URL and a key are set *)
  all_tables : list string;  (* get_all_tables() *)
  writable : bool;           (* files can be written *)
  now : string;              (* datetime.now() as %Y%m%d_%H%M%S *)
  today : string;            (* datetime.now().isoformat() *)
  clock : Z;                 (* modification time of a file written now *)
  summary_writable : bool    (* after its backup file is written, a backup run
                                can read the size of the file and write the
                                summary *)
}.

(** The state a run works on. *)
Record world (St : Type) : Type := World {
  remote : St;         (* state of the remote store *)
  trace : list op;     (* requests sent so far, oldest first *)
  files : disk
}.
Arguments World {St} remote trace files.
Arguments remote {St} w.
Arguments trace {St} w.
Arguments files {St} w.

Module Fs.

Fixpoint find (fs : list file) (n : string) : option file :=
  match fs with
  | [] => None
  | f :: fs' => if String.eqb (name f) n then Some f else find fs' n
  end.

(** [open(path, 'w')] followed by a dump of [v]. *)
Fixpoint write (fs : list file) (n : string) (t : Z) (v : json) : list file :=
  match fs with
  | [] => [File n t (Ok v)]
  | f :: fs' =>
      if String.eqb (name f) n then File n t (Ok v) :: fs' else f :: write fs' n t v
  end.

(** [path.unlink()] *)
Definition unlink (fs : list file) (n : string) : list file :=
  filter (fun f => negb (String.eqb (name f) n)) fs.

Definition remove_name (ns : list string) (n : string) : list string :=
  filter (fun m => negb (String.eqb m n)) ns.

Definition add_name (ns : list string) (n : string) : list string :=
  if existsb (String.eqb n) ns then ns else ns ++ [n].

(** [json.load] of an existing file. *)
Definition load (f : file) : result json := content f.

(** [n in ns] *)
Definition named (ns : list string) (n : string) : bool := existsb (String.eqb n) ns.

(** [sorted(..., key=lambda x: x.stat().st_mtime, reverse=True)]: the sort
    is stable, files of equal age keep the order of the listing. *)
Definition newest_first (fs : list file) : list file :=
  Py.sort_by (fun a b => mtime b <? mtime a) fs.

(** The backup files of a glob pattern, newest first. *)
Definition listed (is_backup_name : string -> bool) (d : disk) : list file :=
  newest_first (filter (fun f => is_backup_name (name f)) (backups d)).

(** The deletion of a backup file and of its summary. *)
Definition delete_with (summary_name : string -> string) (d : disk) (f : file) : disk :=
  Disk (unlink (backups d) (name f)) (safety_backups d)
       (remove_name (summaries d) (summary_name (name f))).

End Fs.

(** ** Functions shared by the three scripts *)

Module Common.

Definition idkey : Type := Z + string.

(** [iter(v)] *)
Definition iter (v : json) : result (list json) :=
  match v with
  | JList l => Ok l
  | JDict d => Ok (map (fun kv => JStr (fst kv)) d)
  | JStr s => Ok (map (fun c => JStr (String c EmptyString)) (list_ascii_of_string s))
  | _ => Raise "object is not iterable"
  end.

(** [len(v)] *)
Definition len (v : json) : result Z :=
  match v with
  | JList l => Ok (Z.of_nat (length l))
  | JDict d => Ok (Z.of_nat (length d))
  | JStr s => Ok (Z.of_nat (String.length s))
  | _ => Raise "object has no len()"
  end.

(** The key of [sorted(data, key=lambda x: x.get('id', str(x)))]. *)
Definition sort_key (x : json) : result json :=
  match x with
  | JDict d => Ok (Py.dict_get d "id" (JStr (Py.str x)))
  | _ => Raise "object has no attribute 'get'"
  end.

(** [calculate_table_hash(data)]: when the sort raises, the data is hashed
    in the order given. *)
Definition sorted_data (data : json) : json :=
  match l ← iter data; Py.sorted sort_key l with
  | Ok l' => JList l'
  | Raise _ => data
  end.

Definition json_str (data : json) : string := Py.dumps (sorted_data data).

Definition calculate_table_hash (data : json) : string :=
  if negb (Py.truthy data) then MD5.hexdigest "empty"
  else MD5.hexdigest (json_str data).

(** The text whose MD5 digest [calculate_table_hash] returns. *)
Definition hashed_text (data : json) : string :=
  if negb (Py.truthy data) then "empty" else json_str data.

(** The sort key of a row when it is a number or a string: the kind of keys
    [sorted] can always order among themselves. *)
Definition scalar_key (x : json) : option idkey :=
  match sort_key x with
  | Ok (JBool b) => Some (inl (if b then 1 else 0))
  | Ok (JInt n) => Some (inl n)
  | Ok (JStr s) => Some (inr s)
  | _ => None
  end.

(** The keys of the rows are all numbers, or all strings. *)
Definition uniform_keys (rows : list json) : Prop :=
  (forall x, In x rows -> exists n, scalar_key x = Some (inl n)) \/
  (forall x, In x rows -> exists s, scalar_key x = Some (inr s)).

(** An order on numbers and strings (numbers first) that agrees with the
    [<] of Python inside each kind. *)
Definition rank (a b : idkey) : bool :=
  match a, b with
  | inl x, inl y => x <? y
  | inr s, inr t => String.ltb s t
  | inl _, inr _ => true
  | inr _, inl _ => false
  end.

(** The number or string a key stands for. *)
Definition key_scalar (k : json) : option idkey :=
  match k with
  | JBool b => Some (inl (if b then 1 else 0))
  | JInt n => Some (inl n)
  | JStr s => Some (inr s)
  | _ => None
  end.

Definition key_of (x : json) : json :=
  match sort_key x with
  | Ok k => k
  | Raise _ => JNull
  end.

(** The rows paired with their keys, as [sorted] handles them. *)
Definition keyed (rows : list json) : list (json * json) :=
  map (fun x => (key_of x, x)) rows.

Definition proj (p : json * json) : idkey :=
  match key_scalar (fst p) with
  | Some k => k
  | None => inl 0
  end.

(** [y] is the row [x] with its columns in another order. *)
Definition reordered (x y : json) : Prop :=
  exists d d', x = JDict d /\ y = JDict d' /\ Permutation d d' /\ NoDup (map fst d).

(** The dict returned by [compare_table_data]. *)
Inductive comparison : Type :=
| NoPrevious
    (* {'changed': True, 'reason': 'no_previous_backup'} *)
| Same (hash : string)
    (* {'changed': False, 'hash': ...} *)
| Differs (hash : string) (added_count removed_count : nat)
          (current_count previous_count : Z).
    (* {'changed': True, 'hash': ..., 'added_count': ..., ...} *)

Definition changed (c : comparison) : bool :=
  match c with
  | Same _ => false
  | _ => true
  end.

Definition added (c : comparison) : option nat :=
  match c with
  | Differs _ a _ _ _ => Some a
  | _ => None
  end.

Definition hash_of (c : comparison) : result string :=
  match c with
  | Same h | Differs h _ _ _ _ => Ok h
  | NoPrevious => Raise "'hash'"
  end.

(** The element an identifier contributes to a Python set: [True] and [1]
    are the same element, lists and dicts cannot be hashed. *)
Definition id_elem (v : json) : result idkey :=
  match v with
  | JBool b => Ok (inl (if b then 1 else 0))
  | JInt n => Ok (inl n)
  | JStr s => Ok (inr s)
  | JNull => Raise "unhashable"          (* not reached: null is not truthy *)
  | JList _ => Raise "unhashable type: 'list'"
  | JDict _ => Raise "unhashable type: 'dict'"
  end.

(** [{row.get('id') for row in rows if row.get('id')}] *)
Fixpoint id_set (rows : list json) : result (gset idkey) :=
  match rows with
  | [] => Ok ∅
  | row :: rows' =>
      v ← Py.get row "id";
      if Py.truthy v
      then k ← id_elem v; s ← id_set rows'; mret ({[ k ]} ∪ s)
      else id_set rows'
  end.

Definition ids (data : json) : result (gset idkey) :=
  rows ← iter data; id_set rows.

(** [compare_table_data(current_data, previous_data)]; [None] is [JNull]. *)
Definition compare_table_data (current_data previous_data : json) : result comparison :=
  match previous_data with
  | JNull => Ok NoPrevious
  | _ =>
      let current_hash := calculate_table_hash current_data in
      let previous_hash := calculate_table_hash previous_data in
      if String.eqb current_hash previous_hash then Ok (Same current_hash)
      else
        current_ids ← ids current_data;
        previous_ids ← ids previous_data;
        current_count ← len current_data;
        previous_count ← len previous_data;
        mret (Differs current_hash
                      (size (current_ids ∖ previous_ids))
                      (size (previous_ids ∖ current_ids))
                      current_count previous_count)
  end.

(** [validate_backup_data(backup_data)] returns [(is_valid, errors,
    warnings)]. *)
Definition critical_tables : list string := ["users"; "packages"; "bookings"].

Definition table_warnings (item : string * json) : list string :=
  let '(table, data) := item in
  if Py.has_flag data "_backup_failed"
  then ["Table '" +:+ table +:+ "' had backup errors"]
  else match data with
       | JList (JDict row :: _) =>
           if negb (Py.has_key row "id") && negb (String.eqb table "room_allotments")
           then ["Table '" +:+ table +:+ "' rows missing 'id' field"]
           else []
       | _ => []
       end.

Definition validate_backup_data (backup_data : json)
  : result (bool * list string * list string) :=
  metadata ← Py.get backup_data "metadata";
  if negb (Py.truthy metadata)
  then mret (false, ["Missing metadata in backup"], [])
  else
    data ← Py.get backup_data "data";
    if negb (Py.truthy data)
    then mret (false, ["Missing data in backup"], [])
    else
      match data with
      | JDict d =>
          let missing :=
            map (fun t => "Critical table '" +:+ t +:+ "' not found in backup")
                (filter (fun t => negb (Py.has_key d t)) critical_tables) in
          mret (true, [], missing ++ concat (map table_warnings d))
      | _ => Raise "object has no attribute 'items'"
      end.

(** Columns never written back (generated or identity columns). *)
Definition excluded_columns : list (string * list string) :=
  [("booking_hajj", ["booking_number"]); ("room_allotments", ["id"])].

Definition columns_to_exclude (table : string) : list string :=
  match Py.assoc excluded_columns table with
  | Some cols => cols
  | None => []
  end.

(** [{k: v for k, v in row.items() if k not in columns_to_exclude}]; a row
    that is not a dict is kept as it is. *)
Definition filter_row (cols : list string) (row : json) : json :=
  match row with
  | JDict d => JDict (filter (fun kv => negb (existsb (String.eqb (fst kv)) cols)) d)
  | _ => row
  end.

(** [[data[i:i + size] for i in range(0, len(data), size)]] *)
Fixpoint batches_fuel {A} (fuel size : nat) (data : list A) : list (list A) :=
  match fuel, data with
  | S fuel', _ :: _ => firstn size data :: batches_fuel fuel' size (skipn size data)
  | _, _ => []
  end.

Definition batches {A} (size : nat) (data : list A) : list (list A) :=
  batches_fuel (length data) size data.

(** The loop that replaces unchanged markers by the entry of the previous
    backup: [backup_data['data'][table] = prev_backup['data'].get(table, [])]. *)
Definition merge_unchanged (prev_backup : json) (data : list (string * json))
  : result (list (string * json)) :=
  mapM (fun item : string * json =>
          if Py.has_flag (snd item) "_unchanged"
          then prev_data ← Py.subscript prev_backup "data";
               v ← Py.get_default prev_data (fst item) (JList []);
               mret (fst item, v)
          else mret item)
       data.

(** What the loop makes of one item, given the data of the previous
    backup. *)
Definition merged_item (pd : list (string * json)) (item : string * json)
  : string * json :=
  if Py.has_flag (snd item) "_unchanged"
  then (fst item, Py.dict_get pd (fst item) (JList []))
  else item.

(** The table names of [metadata['tables']]; names are strings. *)
Definition table_names (tables : json) : result (list string) :=
  l ← iter tables;
  mapM (fun t => match t with
                 | JStr n => Ok n
                 | _ => Raise "table name is not a string"
                 end) l.

(** What the restore loop does with the entry of a table. *)
Inductive action : Type :=
| SkipFailed              (* marked _backup_failed *)
| SkipUnchanged           (* still an _unchanged marker *)
| SkipInvalid             (* not a list *)
| SkipEmpty               (* an empty list *)
| WriteRows (rows : list json).

Definition classify (entry : json) : action :=
  if Py.has_flag entry "_backup_failed" then SkipFailed
  else if Py.has_flag entry "_unchanged" then SkipUnchanged
  else match entry with
       | JList [] => SkipEmpty
       | JList rows => WriteRows rows
       | _ => SkipInvalid
       end.

(** The number of rows the write-back has to write for [table]: those of
    its entry when it is a non-empty list, none for any other entry. *)
Definition rows_to_write (data : json) (table : string) : Z :=
  match Py.get data table with
  | Ok entry =>
      match classify entry with
      | WriteRows rows => Z.of_nat (length rows)
      | _ => 0
      end
  | Raise _ => 0
  end.

(** Counters of a write-back. *)
Record counters : Type := Counters {
  inserted : Z;
  updated : Z;
  errors : Z;
  error_details : list string
}.

(** The restore log, and the third component of what a restore returns. *)
Record restore_log : Type := RestoreLog {
  backup_file : string;
  safety_backup_file : option string;
  before_counts : list (string * json);
  tables_restored : list (string * counters);
  tables_failed : list (string * string);
  total_inserted : Z;
  total_updated : Z;
  total_errors : Z;
  after_counts : list (string * json)
}.

Inductive report : Type :=
| NoReport                                          (* {} *)
| Invalid (errors warnings : list string)           (* {'errors': .., 'warnings': ..} *)
| Crashed (error : string)                          (* {'error': str(e)} *)
| Logged (log : restore_log).

(** The branch taken on the message of a failed single-row upsert. *)
Definition is_duplicate (error_str : string) : bool :=
  PyStr.contains "duplicate" (PyStr.lower error_str) || PyStr.contains "23505" error_str.

Definition is_generated (error_str : string) : bool :=
  PyStr.contains "generated" (PyStr.lower error_str) || PyStr.contains "428C9" error_str.

(** Requests that only read. *)
Definition is_read (o : op) : Prop :=
  match o with
  | Select _ _ _ | Count _ => True
  | _ => False
  end.

Definition is_write (o : op) : bool :=
  match o with
  | Select _ _ _ | Count _ => false
  | _ => true
  end.

Definition is_upsert (o : op) : bool :=
  match o with
  | Upsert _ _ => true
  | _ => false
  end.

(** The writes a restore may send for a table whose rows are [rows]: an
    upsert of a batch of the filtered rows or of one of them, an update of
    one of them by its truthy id. *)
Definition writes_rows (table : string) (rows : list json) (o : op) : Prop :=
  let filtered := map (filter_row (columns_to_exclude table)) rows in
  match o with
  | Upsert t payload =>
      t = table /\
      ((exists batch, payload = JList batch /\ incl batch filtered) \/ In payload filtered)
  | Update t row id =>
      t = table /\
      exists r, In r filtered /\ row = filter_row (columns_to_exclude table) r /\
                Py.get r "id" = Ok id /\ Py.truthy id = true
  | _ => False
  end.

(** The entry of a table in the data of a backup. *)
Definition entry_of (data : list (string * json)) (table : string) : json :=
  Py.dict_get data table JNull.

(** The table a request addresses. *)
Definition target (o : op) : string :=
  match o with
  | Select t _ _ | Count t | Upsert t _ | Update t _ _ | Insert t _ | Delete t _ _ => t
  end.

(** The requests a restore of [data] may send: reads, and upserts and
    updates of the rows of a table whose entry is a non-empty list. *)
Definition restore_request (data : list (string * json)) (o : op) : Prop :=
  match o with
  | Select _ _ _ | Count _ => True
  | Upsert t _ | Update t _ _ =>
      exists entry rows,
        In (t, entry) data /\ entry = JList rows /\ rows <> [] /\ writes_rows t rows o
  | Insert _ _ | Delete _ _ _ => False
  end.

(** The entries a restore skips: empty lists and the two markers. *)
Definition skipped (entry : json) : Prop :=
  entry = JList [] \/ Py.has_flag entry "_unchanged" = true \/
  Py.has_flag entry "_backup_failed" = true.

(** Requests that read rows of one of [tables]. *)
Definition selects_from (tables : list string) (o : op) : Prop :=
  match o with
  | Select t _ _ => In t tables
  | _ => False
  end.

(** The rows a request carries. *)
Definition payload_rows (o : op) : list json :=
  match o with
  | Upsert _ (JList rows) | Insert _ (JList rows) => rows
  | Upsert _ row | Insert _ row | Update _ row _ => [row]
  | Select _ _ _ | Count _ | Delete _ _ _ => []
  end.

(** [col in row] for a row that is a dict. *)
Definition has_column (col : string) (row : json) : bool :=
  match row with
  | JDict d => Py.has_key d col
  | _ => false
  end.

(** The matches of [re.finditer(r'CREATE TABLE public\.([a-zA-Z0-9_]+)',
    schema_text)]: the group of each match, from left to right; a match
    takes the longest run of name characters and the search goes on after
    it.  The fuel is the length of the text. *)
Definition is_name_char (c : ascii) : bool :=
  let n := PyStr.code c in
  ((97 <=? n) && (n <=? 122)) || ((65 <=? n) && (n <=? 90)) ||
  ((48 <=? n) && (n <=? 57)) || (n =? 95).

Fixpoint span_name (s : string) : string * string :=
  match s with
  | EmptyString => (EmptyString, EmptyString)
  | String c s' =>
      if is_name_char c
      then let '(name, rest) := span_name s' in (String c name, rest)
      else (EmptyString, s)
  end.

Fixpoint create_tables_fuel (fuel : nat) (s : string) : list string :=
  match fuel, s with
  | S fuel', String _ s' =>
      match PyStr.strip_prefix "CREATE TABLE public." s with
      | Some after =>
          match span_name after with
          | (EmptyString, _) => create_tables_fuel fuel' s'
          | (name, rest) => name :: create_tables_fuel fuel' rest
          end
      | None => create_tables_fuel fuel' s'
      end
  | _, _ => []
  end.

Definition create_tables (schema_text : string) : list string :=
  create_tables_fuel (String.length schema_text) schema_text.

(** [if name not in table_names: table_names.append(name)] *)
Definition add_table (table_names : list string) (name : string) : list string :=
  if existsb (String.eqb name) table_names then table_names else table_names ++ [name].

(** The table names of a schema text, each once, in the order of their first
    [CREATE TABLE]. *)
Definition schema_tables (schema_text : string) : list string :=
  fold_left add_table (create_tables schema_text) [].

Section Client.

Context {St : Type} (exec : op -> St -> result json * St).

(** The store after a sequence of requests. *)
Definition run (ops : list op) (s : St) : St :=
  fold_left (fun s o => snd (exec o s)) ops s.

(** From [w] to [w'] the requests sent all satisfy [good], and the store
    changed through them only. *)
Definition sends (good : op -> Prop) (w w' : world St) : Prop :=
  exists ops, Forall good ops /\ trace w' = trace w ++ ops /\
              remote w' = run ops (remote w).

(** [client.table(...)....execute()] *)
Definition request (o : op) (w : world St) : result json * world St :=
  let '(r, s) := exec o (remote w) in
  (r, World s (trace w ++ [o]) (files w)).

(** The store answers the requests for the pages of [table_name], from row
    [start] on, with the lists [pages] one after the other, and goes from
    state [s] to state [s']. *)
Fixpoint serves (table_name : string) (page_size start : Z) (pages : list (list json))
         (s s' : St) : Prop :=
  match pages with
  | [] => s' = s
  | page :: pages' =>
      exists s1,
        exec (Select table_name start (start + page_size - 1)) s = (Ok (JList page), s1) /\
        serves table_name page_size (start + page_size) pages' s1 s'
  end.

(** The requests for [n] consecutive pages from row [start] on. *)
Fixpoint page_requests (table_name : string) (page_size start : Z) (n : nat) : list op :=
  match n with
  | O => []
  | S n' =>
      Select table_name start (start + page_size - 1)
      :: page_requests table_name page_size (start + page_size) n'
  end.

(** [fetch_table_data(client, table_name, page_size)]: any exception raised
    inside the loop ends it and the rows collected so far are returned. *)
Fixpoint fetch_pages (fuel : nat) (table_name : string) (page_size start : Z)
         (data : list json) (w : world St) : option (list json * world St) :=
  match fuel with
  | O => None
  | S fuel' =>
      let '(r, w1) := request (Select table_name start (start + page_size - 1)) w in
      match r with
      | Raise _ => Some (data, w1)
      | Ok rows =>
          if negb (Py.truthy rows) then Some (data, w1)
          else
            match len rows, iter rows with
            | Ok n, Ok items =>
                if n =? 0 then Some (data, w1)
                else if n <? page_size then Some (data ++ items, w1)
                else fetch_pages fuel' table_name page_size (start + page_size)
                                 (data ++ items) w1
            | _, _ => Some (data, w1)
            end
      end
  end.

Definition fetch_table_data (fuel : nat) (table_name : string) (w : world St)
  : option (list json * world St) :=
  fetch_pages fuel table_name 1000 0 [] w.

(** [get_table_row_counts(client, tables)]: a failed count is recorded as 0. *)
Definition get_table_row_counts (tables : list string) (w : world St)
  : list (string * json) * world St :=
  fold_left
    (fun acc table =>
       let '(r, w1) := request (Count table) (snd acc) in
       let count := match r with Ok n => n | Raise _ => JInt 0 end in
       (Py.dict_set (fst acc) table count, w1))
    tables ([], w).

Definition no_counts : counters := Counters 0 0 0 [].

(** The rows accounted for by the counters. *)
Definition total (c : counters) : Z := inserted c + updated c + errors c.

Definition add_counts (a b : counters) : counters :=
  Counters (inserted a + inserted b) (updated a + updated b)
           (errors a + errors b) (error_details a ++ error_details b).

Definition count_inserted (n : Z) (c : counters) : counters :=
  Counters (inserted c + n) (updated c) (errors c) (error_details c).

Definition count_updated (c : counters) : counters :=
  Counters (inserted c) (updated c + 1) (errors c) (error_details c).

(** [errors += 1], with or without [error_details.append(str(e)[:200])]. *)
Definition count_error (detail : option string) (c : counters) : counters :=
  Counters (inserted c) (updated c) (errors c + 1)
           (match detail with
            | Some e => error_details c ++ [PyStr.take 200 e]
            | None => error_details c
            end).

(** The fallback for one row of a batch whose bulk upsert raised: upsert
    the row alone; on a duplicate-key error update it by its id; count an
    error otherwise. *)
Definition restore_row (table : string) (cols : list string)
           (acc : counters * world St) (row : json) : counters * world St :=
  let '(c, w) := acc in
  let '(r, w1) := request (Upsert table row) w in
  match r with
  | Ok _ => (count_inserted 1 c, w1)
  | Raise error_str =>
      if is_duplicate error_str then
        match Py.get row "id" with
        | Ok row_id =>
            if Py.truthy row_id then
              let '(r2, w2) := request (Update table (filter_row cols row) row_id) w1 in
              match r2 with
              | Ok _ => (count_updated c, w2)
              | Raise _ => (count_error (Some error_str) c, w2)
              end
            else (count_error (Some error_str) c, w1)
        | Raise _ => (count_error (Some error_str) c, w1)
        end
      else if is_generated error_str then (count_error None c, w1)
      else (count_error (Some error_str) c, w1)
  end.

(** One batch: a bulk upsert of the filtered rows, and the row-by-row
    fallback when it raises. *)
Definition restore_batch (table : string) (cols : list string)
           (acc : counters * world St) (batch : list json) : counters * world St :=
  let '(c, w) := acc in
  let filtered_batch := map (filter_row cols) batch in
  let '(r, w1) := request (Upsert table (JList filtered_batch)) w in
  match r with
  | Ok _ => (count_inserted (Z.of_nat (length filtered_batch)) c, w1)
  | Raise _ => fold_left (restore_row table cols) filtered_batch (c, w1)
  end.

(** The loop [for i in range(0, len(data), batch_size)] over one table. *)
Definition restore_rows (table : string) (batch_size : nat) (data : list json)
           (w : world St) : counters * world St :=
  fold_left (restore_batch table (columns_to_exclude table))
            (batches batch_size data) (no_counts, w).

End Client.

End Common.

(** ** backup_supabase.py *)

Module BackupSupabase.
Import Common.

(** [get_all_tables()]: the tables of [query.sql], looked for beside the
    script and then one directory up ([None]: no such file); the default
    list when neither exists. *)
Definition default_tables : list string :=
  ["booking_hajj"; "booking_hajj_members"; "booking_hajj_payments";
   "booking_participants"; "booking_payments"; "booking_status_history";
   "bookings"; "detail_packages"; "packages"; "room_prices"; "room_types";
   "users"; "inquiries"; "hajj_packages"; "hajj_package_prices";
   "hajj_hotels"; "hajj_package_hotels"; "room_allotments"].

Definition get_all_tables (query_sql parent_query_sql : option string) : list string :=
  match (match query_sql with Some _ => query_sql | None => parent_query_sql end) with
  | None => default_tables
  | Some schema_text => schema_tables schema_text
  end.

(** [BACKUPS_DIR.glob('supabase_backup_*.json')] *)
Definition is_backup_name (n : string) : bool :=
  match PyStr.strip_prefix "supabase_backup_" n with
  | Some rest => PyStr.ends_with ".json" rest
  | None => false
  end.

Definition backup_files (d : disk) : list file := Fs.listed is_backup_name d.

(** [get_latest_backup()]; [None] is [JNull]. *)
Definition get_latest_backup (d : disk) : json :=
  match backup_files d with
  | [] => JNull
  | f :: _ =>
      match Fs.load f with
      | Ok v => v
      | Raise _ => JNull
      end
  end.

Definition summary_name (backup_name : string) : string :=
  PyStr.replace "supabase_backup_" "backup_summary_" backup_name.

Definition delete_backup : disk -> file -> disk := Fs.delete_with summary_name.

(** [cleanup_old_backups(keep_count)]: the files after the first
    [keep_count], newest first, are deleted with their summaries. *)
Definition cleanup_old_backups (keep_count : nat) (d : disk) : disk :=
  let files := backup_files d in
  if (keep_count <? length files)%nat
  then fold_left delete_backup (skipn keep_count files) d
  else d.

Definition default_keep_count : nat := 288.

Definition failed_entry (error_msg : string) : json :=
  JDict [("_error", JStr error_msg); ("_backup_failed", JBool true)].

Definition unchanged_entry (reference hash : json) : json :=
  JDict [("_unchanged", JBool true); ("_reference_backup", reference); ("_hash", hash)].

(** The comparison baseline of a table: its entry in the previous backup,
    followed once through an unchanged marker. *)
Definition referenced_data (d : disk) (table : string) (previous_data : json) : json :=
  let ref_timestamp := Py.dict_get
                         (match previous_data with JDict m => m | _ => [] end)
                         "_reference_backup" JNull in
  if Py.truthy ref_timestamp then
    match Fs.find (backups d) ("supabase_backup_" +:+ Py.str ref_timestamp +:+ ".json") with
    | Some f =>
        match (ref_backup ← Fs.load f;
               ref_data ← Py.subscript ref_backup "data";
               Py.get ref_data table) with
        | Ok v => if Py.has_flag v "_unchanged" then JNull else v
        | Raise _ => JNull
        end
    | None => JNull
    end
  else JNull.

Definition previous_data_of (d : disk) (previous_backup : json) (force_full : bool)
           (table : string) : result json :=
  if Py.truthy previous_backup && negb force_full then
    prev ← Py.subscript previous_backup "data";
    previous_data ← Py.get prev table;
    if Py.is_dict previous_data then
      if Py.has_flag previous_data "_backup_failed" then mret JNull
      else if Py.has_flag previous_data "_unchanged"
           then mret (referenced_data d table previous_data)
           else mret previous_data
    else mret previous_data
  else mret JNull.

(** What the loop of [create_backup] accumulates. *)
Record progress : Type := Progress {
  data : list (string * json);    (* backup_data['data'] *)
  total_rows : Z;
  successful_tables : Z;
  failed_tables : list string;
  unchanged_tables : list string;
  changed_tables : list string
}.

Definition no_progress : progress := Progress [] 0 0 [] [] [].

(** The counters of a run over [tables] add up: every table is counted as
    successful, failed or unchanged, and has an entry. *)
Definition accounted (tables : list string) (p : progress) : Prop :=
  successful_tables p + Z.of_nat (length (failed_tables p))
  + Z.of_nat (length (unchanged_tables p)) = Z.of_nat (length tables) /\
  (forall t, Py.has_key (data p) t = true <-> In t tables) /\
  incl (failed_tables p) tables /\
  incl (unchanged_tables p) tables /\
  incl (changed_tables p) tables /\
  Z.of_nat (length (changed_tables p)) <= successful_tables p /\
  0 <= total_rows p.

(** The body of the [try] for one table, after the fetch. *)
Definition table_step (d : disk) (previous_backup prev_timestamp : json)
           (force_full : bool) (table : string) (current_data : list json)
           (p : progress) : result progress :=
  let row_count := Z.of_nat (length current_data) in
  previous_data ← previous_data_of d previous_backup force_full table;
  comparison ← compare_table_data (JList current_data) previous_data;
  if negb (changed comparison) && negb force_full then
    hash ← hash_of comparison;
    mret (Progress (Py.dict_set (data p) table (unchanged_entry prev_timestamp (JStr hash)))
                   (total_rows p) (successful_tables p) (failed_tables p)
                   (unchanged_tables p ++ [table]) (changed_tables p))
  else if 0 <? row_count then
    mret (Progress (Py.dict_set (data p) table (JList current_data))
                   (total_rows p + row_count) (successful_tables p + 1) (failed_tables p)
                   (unchanged_tables p) (changed_tables p ++ [table]))
  else
    mret (Progress (Py.dict_set (data p) table (JList []))
                   (total_rows p) (successful_tables p + 1) (failed_tables p)
                   (unchanged_tables p) (changed_tables p)).

(** The [except] of the loop: the table is marked as failed. *)
Definition table_failed (table error_msg : string) (p : progress) : progress :=
  Progress (Py.dict_set (data p) table (failed_entry error_msg))
           (total_rows p) (successful_tables p) (failed_tables p ++ [table])
           (unchanged_tables p) (changed_tables p).

Definition strs (l : list string) : json := JList (map JStr l).

Section Client.

Context {St : Type} (exec : op -> St -> result json * St).

(** The loop [for table in tables] of [create_backup]. *)
Fixpoint backup_tables (fuel : nat) (previous_backup prev_timestamp : json)
         (force_full : bool) (tables : list string) (p : progress) (w : world St)
  : option (progress * world St) :=
  match tables with
  | [] => Some (p, w)
  | table :: tables' =>
      match fetch_table_data exec fuel table w with
      | None => None
      | Some (current_data, w1) =>
          let p1 :=
            match table_step (files w1) previous_backup prev_timestamp force_full
                             table current_data p with
            | Ok p' => p'
            | Raise error_msg => table_failed table error_msg p
            end in
          backup_tables fuel previous_backup prev_timestamp force_full tables' p1 w1
      end
  end.

Definition backup_document (e : env) (previous_backup prev_timestamp : json)
           (p : progress) : json :=
  JDict
    [("metadata",
      JDict [("backup_date", JStr (today e));
             ("timestamp", JStr (now e));
             ("backup_type",
              JStr (if Py.truthy previous_backup then "incremental" else "full"));
             ("previous_backup", prev_timestamp);
             ("total_tables", JInt (Z.of_nat (length (all_tables e))));
             ("tables", strs (all_tables e));
             ("total_rows", JInt (total_rows p));
             ("successful_tables", JInt (successful_tables p));
             ("failed_tables", strs (failed_tables p));
             ("failed_count", JInt (Z.of_nat (length (failed_tables p))));
             ("unchanged_tables", strs (unchanged_tables p));
             ("changed_tables", strs (changed_tables p));
             ("unchanged_count", JInt (Z.of_nat (length (unchanged_tables p))));
             ("changed_count", JInt (Z.of_nat (length (changed_tables p))))]);
     ("data", JDict (data p))].

(** [create_backup(force_full)]: [Some (ok, w)] once the run has ended,
    [None] when a fetch has not ended within the fuel.  An exception outside
    the loop over the tables (no credentials, a previous backup without
    timestamp, a file that cannot be written) makes the run return [False].
    The files are written in the order of the source: the backup file
    first, then the summary, then the pruning; a run that fails on the
    summary has written its backup file and pruned nothing. *)
Definition create_backup (fuel : nat) (e : env) (force_full : bool) (w : world St)
  : option (bool * world St) :=
  if negb (dotenv e) then Some (false, w)
  else if negb (credentials e) then Some (false, w)
  else
    let previous_backup := if force_full then JNull else get_latest_backup (files w) in
    match (if Py.truthy previous_backup
           then m ← Py.subscript previous_backup "metadata"; Py.subscript m "timestamp"
           else mret JNull) with
    | Raise _ => Some (false, w)
    | Ok prev_timestamp =>
        match backup_tables fuel previous_backup prev_timestamp force_full
                            (all_tables e) no_progress w with
        | None => None
        | Some (p, w1) =>
            if negb (writable e) then Some (false, w1) else
            let d := files w1 in
            let backup_filename := "supabase_backup_" +:+ now e +:+ ".json" in
            let d1 :=
              Disk (Fs.write (backups d) backup_filename (clock e)
                             (backup_document e previous_backup prev_timestamp p))
                   (safety_backups d)
                   (summaries d) in
            if negb (summary_writable e)
            then Some (false, World (remote w1) (trace w1) d1) else
            let d2 :=
              Disk (backups d1) (safety_backups d1)
                   (Fs.add_name (summaries d1) ("backup_summary_" +:+ now e +:+ ".json")) in
            Some (true, World (remote w1) (trace w1)
                              (cleanup_old_backups 288 d2))
        end
    end.

(** [restore_backup(backup_file)]: the part inside the [try], up to the
    entries the write-back loop works on. *)
Definition effective_data (d : disk) (backup_data : json)
  : result (list (string * json)) :=
  metadata ← Py.subscript backup_data "metadata";
  _ ← Py.subscript metadata "backup_date";
  backup_type ← Py.get metadata "backup_type";
  if Py.eq backup_type (JStr "incremental") then
    previous_timestamp ← Py.get metadata "previous_backup";
    if Py.truthy previous_timestamp then
      match Fs.find (backups d)
                    ("supabase_backup_" +:+ Py.str previous_timestamp +:+ ".json") with
      | Some f =>
          prev_backup ← Fs.load f;
          data ← Py.subscript backup_data "data";
          entries ← Py.items data;
          merge_unchanged prev_backup entries
      | None => data ← Py.subscript backup_data "data"; Py.items data
      end
    else data ← Py.subscript backup_data "data"; Py.items data
  else data ← Py.subscript backup_data "data"; Py.items data.

(** The entries the write-back of [backup_file] works on (none when they
    cannot be obtained). *)
Definition restore_entries (d : disk) (backup_file : string) : list (string * json) :=
  match Fs.find (backups d) backup_file with
  | Some f =>
      match (backup_data ← Fs.load f; effective_data d backup_data) with
      | Ok entries => entries
      | Raise _ => []
      end
  | None => []
  end.

(** One turn of the loop [for table, data in backup_data['data'].items()]. *)
Definition restore_entry (acc : Z * list string * world St) (item : string * json)
  : Z * list string * world St :=
  let '(restored_tables, failed_tables, w) := acc in
  let '(table, entry) := item in
  match classify entry with
  | SkipFailed | SkipInvalid => (restored_tables, failed_tables ++ [table], w)
  | SkipUnchanged | SkipEmpty => (restored_tables, failed_tables, w)
  | WriteRows rows =>
      let '(_, w1) := restore_rows exec table 100 rows w in
      (restored_tables + 1, failed_tables, w1)
  end.

Definition restore_backup (e : env) (backup_file : string) (w : world St)
  : bool * world St :=
  match Fs.find (backups (files w)) backup_file with
  | None => (false, w)
  | Some f =>
      if negb (dotenv e) then (false, w)
      else if negb (credentials e) then (false, w)
      else
        match (backup_data ← Fs.load f; effective_data (files w) backup_data) with
        | Raise _ => (false, w)
        | Ok entries =>
            let '(_, _, w1) := fold_left restore_entry entries (0, [], w) in
            (true, w1)
        end
  end.

End Client.

End BackupSupabase.

(** ** backup_supabase_safe.py *)

Module BackupSupabaseSafe.
Import Common.

Section Client.

Context {St : Type} (exec : op -> St -> result json * St).

(** The loop [for table in tables] of [create_safety_backup]: every table
    is fetched and stored in full. *)
Fixpoint safety_tables (fuel : nat) (tables : list string) (data : list (string * json))
         (total_rows : Z) (w : world St) : option (list (string * json) * Z * world St) :=
  match tables with
  | [] => Some (data, total_rows, w)
  | table :: tables' =>
      match fetch_table_data exec fuel table w with
      | None => None
      | Some (table_data, w1) =>
          safety_tables fuel tables' (Py.dict_set data table (JList table_data))
                        (total_rows + Z.of_nat (length table_data)) w1
      end
  end.

Definition safety_document (e : env) (data : list (string * json)) (total_rows : Z) : json :=
  JDict
    [("metadata",
      JDict [("backup_date", JStr (today e));
             ("timestamp", JStr (now e));
             ("backup_type", JStr "safety");
             ("purpose", JStr "pre_restore_snapshot");
             ("total_tables", JInt (Z.of_nat (length (all_tables e))));
             ("tables", BackupSupabase.strs (all_tables e));
             ("total_rows", JInt total_rows);
             ("successful_tables", JInt (Z.of_nat (length (all_tables e))));
             ("failed_tables", JList [])]);
     ("data", JDict data)].

(** [create_safety_backup()]: the name of the file written, or [None] when
    an exception was caught (no credentials, a file that cannot be
    written). *)
Definition create_safety_backup (fuel : nat) (e : env) (w : world St)
  : option (option string * world St) :=
  if negb (dotenv e) then Some (None, w)
  else if negb (credentials e) then Some (None, w)
  else
    match safety_tables fuel (all_tables e) [] 0 w with
    | None => None
    | Some (data, total_rows, w1) =>
        if negb (writable e) then Some (None, w1) else
        let safety_backup_filename := "safety_backup_" +:+ now e +:+ ".json" in
        let d := files w1 in
        Some (Some safety_backup_filename,
              World (remote w1) (trace w1)
                    (Disk (backups d)
                          (Fs.write (safety_backups d) safety_backup_filename (clock e)
                                    (safety_document e data total_rows))
                          (summaries d)))
    end.

(** The incremental step of [restore_backup_safe]. *)
Definition effective_data (d : disk) (backup_data : json) : result json :=
  metadata ← Py.subscript backup_data "metadata";
  backup_type ← Py.get metadata "backup_type";
  if Py.eq backup_type (JStr "incremental") then
    previous_timestamp ← Py.get metadata "previous_backup";
    if Py.truthy previous_timestamp then
      match Fs.find (backups d)
                    ("supabase_backup_" +:+ Py.str previous_timestamp +:+ ".json") with
      | Some f =>
          prev_backup ← Fs.load f;
          data ← Py.subscript backup_data "data";
          entries ← Py.items data;
          merged ← merge_unchanged prev_backup entries;
          mret (JDict merged)
      | None => Py.subscript backup_data "data"
      end
    else Py.subscript backup_data "data"
  else Py.subscript backup_data "data".

(** One turn of the loop [for table in tables]. *)
Definition restore_table (data : json) (acc : restore_log * world St) (table : string)
  : result (restore_log * world St) :=
  let '(log, w) := acc in
  entry ← Py.get data table;
  match classify entry with
  | SkipFailed =>
      mret (RestoreLog (backup_file log) (safety_backup_file log) (before_counts log)
                       (tables_restored log) (tables_failed log ++ [(table, "backup_failed")])
                       (total_inserted log) (total_updated log) (total_errors log)
                       (after_counts log), w)
  | SkipInvalid =>
      mret (RestoreLog (backup_file log) (safety_backup_file log) (before_counts log)
                       (tables_restored log) (tables_failed log ++ [(table, "invalid_format")])
                       (total_inserted log) (total_updated log) (total_errors log)
                       (after_counts log), w)
  | SkipUnchanged | SkipEmpty => mret (log, w)
  | WriteRows rows =>
      let '(c, w1) := restore_rows exec table 100 rows w in
      let c' := Counters (inserted c) (updated c) (errors c)
                         (if errors c =? 0 then [] else firstn 5 (error_details c)) in
      mret (RestoreLog (backup_file log) (safety_backup_file log) (before_counts log)
                       (Py.dict_set (tables_restored log) table c') (tables_failed log)
                       (total_inserted log + inserted c) (total_updated log + updated c)
                       (total_errors log + errors c) (after_counts log), w1)
  end.

Fixpoint restore_tables (data : json) (tables : list string) (acc : restore_log * world St)
  : result (restore_log * world St) * world St :=
  match tables with
  | [] => (Ok acc, snd acc)
  | table :: tables' =>
      match restore_table data acc table with
      | Ok acc' => restore_tables data tables' acc'
      | Raise msg => (Raise msg, snd acc)
      end
  end.

(** The comparison [after < expected * 0.9] of the verification, made for
    every restored table, needs the count of the table to be a number; its
    outcome only feeds the log. *)
Definition compared (after : list (string * json)) (restored : list (string * counters))
  : bool :=
  forallb (fun r => match Py.dict_get after (fst r) (JInt 0) with
                    | JInt _ | JBool _ => true
                    | _ => false
                    end)
          restored.

(** [restore_backup_safe] from the [try] on: load, validate, record the
    counts, merge the previous backup, write back, count again and compare,
    save the log. *)
Definition restore_steps (e : env) (f : file) (safety : option string) (w : world St)
  : bool * report * world St :=
  if negb (credentials e)
  then (false, Crashed "SUPABASE_URL and SUPABASE_SERVICE_ROLE_KEY/ANON_KEY must be set in .env", w)
  else
    match (backup_data ← Fs.load f;
           v ← validate_backup_data backup_data;
           mret (backup_data, v)) with
    | Raise msg => (false, Crashed msg, w)
    | Ok (backup_data, (false, errs, warns)) => (false, Invalid errs warns, w)
    | Ok (backup_data, (true, _, _)) =>
        match (metadata ← Py.subscript backup_data "metadata";
               tables ← Py.subscript metadata "tables";
               table_names tables) with
        | Raise msg => (false, Crashed msg, w)
        | Ok tables =>
            let '(before, w1) := get_table_row_counts exec tables w in
            match effective_data (files w1) backup_data with
            | Raise msg => (false, Crashed msg, w1)
            | Ok data =>
                match restore_tables data tables
                        (RestoreLog (name f) safety before [] [] 0 0 0 [], w1) with
                | (Raise msg, w2) => (false, Crashed msg, w2)
                | (Ok (log, _), w2) =>
                    let '(after, w3) := get_table_row_counts exec tables w2 in
                    let d := files w3 in
                    if negb (compared after (tables_restored log))
                    then (false, Crashed "'<' not supported between instances", w3)
                    else if negb (writable e)
                    then (false, Crashed "[Errno 13] Permission denied", w3)
                    else
                    (true,
                     Logged (RestoreLog (backup_file log) (safety_backup_file log)
                                        (before_counts log) (tables_restored log)
                                        (tables_failed log) (total_inserted log)
                                        (total_updated log) (total_errors log) after),
                     World (remote w3) (trace w3)
                           (Disk (backups d) (safety_backups d)
                                 (Fs.add_name (summaries d)
                                              ("restore_log_" +:+ now e +:+ ".json"))))
                end
            end
        end
    end.

(** [restore_backup_safe(backup_file, skip_safety_backup)] returns
    [(success, safety_backup_file, restore_log)]. *)
Definition restore_backup_safe (fuel : nat) (e : env) (backup_file : string)
           (skip_safety_backup : bool) (w : world St)
  : option (bool * option string * report * world St) :=
  match Fs.find (backups (files w)) backup_file with
  | None => Some (false, None, NoReport, w)
  | Some f =>
      if negb (dotenv e) then Some (false, None, NoReport, w)
      else if skip_safety_backup then
        let '(ok, r, w1) := restore_steps e f None w in Some (ok, None, r, w1)
      else
        match create_safety_backup fuel e w with
        | None => None
        | Some (None, w1) => Some (false, None, NoReport, w1)
        | Some (Some safety_backup_file, w1) =>
            let '(ok, r, w2) := restore_steps e f (Some safety_backup_file) w1 in
            Some (ok, Some safety_backup_file, r, w2)
        end
  end.

(** [rollback_from_safety_backup(safety_backup_file)]; [confirm] is what
    the operator types at the prompt. *)
Definition rollback_from_safety_backup (fuel : nat) (e : env)
           (safety_backup_file confirm : string) (w : world St)
  : option (bool * world St) :=
  match Fs.find (safety_backups (files w)) safety_backup_file with
  | None => Some (false, w)
  | Some _ =>
      if negb (String.eqb confirm "ROLLBACK") then Some (false, w)
      else
        match create_safety_backup fuel e w with
        | None => None
        | Some (pre_rollback_backup, w1) =>
            match restore_backup_safe fuel e safety_backup_file true w1 with
            | None => None
            | Some (success, _, _, w2) => Some (success, w2)
            end
        end
  end.

End Client.

End BackupSupabaseSafe.

(** ** supabase_backup.py

    The all-in-one script.  Its write-back is embedded in the sequential
    mode ([max_workers = 1]); with more workers the same batches are handed
    to a thread pool. *)

Module SupabaseBackup.
Import Common.

Definition DEFAULT_MAX_WORKERS_BACKUP : Z := 5.
Definition DEFAULT_MAX_WORKERS_RESTORE : Z := 3.
Definition DEFAULT_BATCH_SIZE : nat := 100.

(** [BACKUPS_DIR.glob('supabase_backup_*.json*')] *)
Definition is_backup_name (n : string) : bool :=
  match PyStr.strip_prefix "supabase_backup_" n with
  | Some rest => PyStr.contains ".json" rest
  | None => false
  end.

Definition backup_files (d : disk) : list file := Fs.listed is_backup_name d.

Definition summary_name (backup_name : string) : string :=
  PyStr.replace ".gz" EmptyString
    (PyStr.replace "supabase_backup_" "backup_summary_" backup_name).

Definition delete_backup : disk -> file -> disk := Fs.delete_with summary_name.

(** [cleanup_old_backups(keep_count)] *)
Definition cleanup_old_backups (keep_count : nat) (d : disk) : disk :=
  let files := backup_files d in
  if (keep_count <? length files)%nat
  then fold_left delete_backup (skipn keep_count files) d
  else d.

Definition default_keep_count : nat := 288.

(** A backup file, plain or compressed. *)
Definition find_backup (d : disk) (n : string) : option file :=
  match Fs.find (backups d) n with
  | Some f => Some f
  | None => Fs.find (backups d) (n +:+ ".gz")
  end.

(** A restore task carries rows of a table whose entry is a non-empty
    list, with the columns excluded for that table. *)
Definition task_ok (entries : list (string * json))
           (task : string * list json * list string) : Prop :=
  let '(table, batch, cols) := task in
  cols = columns_to_exclude table /\
  exists entry rows, In (table, entry) entries /\ classify entry = WriteRows rows /\
                     incl batch rows.

(** [get_all_tables()]: as in [backup_supabase.py], but a schema without
    tables falls back to the default list, which is longer here. *)
Definition default_tables : list string :=
  ["booking_hajj"; "booking_hajj_members"; "booking_hajj_payments";
   "booking_participants"; "booking_payments"; "booking_status_history";
   "bookings"; "detail_packages"; "excluded_items"; "faqs";
   "flight_details"; "form_visitors"; "hajj_hotels"; "hajj_package_hotels";
   "hajj_package_prices"; "hajj_packages"; "heartbeat"; "hotel_details";
   "included_items"; "inquiries"; "itineraries"; "package_pembayaran";
   "package_room_price_rooms"; "package_room_prices"; "packages";
   "room_allotments"; "room_prices"; "room_types"; "users"].

Definition get_all_tables (query_sql parent_query_sql : option string) : list string :=
  match (match query_sql with Some _ => query_sql | None => parent_query_sql end) with
  | None => default_tables
  | Some schema_text =>
      match schema_tables schema_text with
      | [] => default_tables
      | table_names => table_names
      end
  end.

(** [get_latest_backup()]; [None] is [JNull]. *)
Definition get_latest_backup (d : disk) : json :=
  match backup_files d with
  | [] => JNull
  | f :: _ =>
      match Fs.load f with
      | Ok v => v
      | Raise _ => JNull
      end
  end.

(** The comparison baseline of a table whose previous entry is an unchanged
    marker: the entry of the backup the marker refers to, plain or
    compressed. *)
Definition referenced_data (d : disk) (table : string) (previous_data : json) : json :=
  let ref_timestamp := Py.dict_get
                         (match previous_data with JDict m => m | _ => [] end)
                         "_reference_backup" JNull in
  if Py.truthy ref_timestamp then
    match find_backup d ("supabase_backup_" +:+ Py.str ref_timestamp +:+ ".json") with
    | Some f =>
        match (ref_backup ← Fs.load f;
               ref_data ← Py.subscript ref_backup "data";
               Py.get ref_data table) with
        | Ok v => if Py.has_flag v "_unchanged" then JNull else v
        | Raise _ => JNull
        end
    | None => JNull
    end
  else JNull.

Definition previous_data_of (d : disk) (previous_backup : json) (force_full : bool)
           (table : string) : result json :=
  if Py.truthy previous_backup && negb force_full then
    prev ← Py.subscript previous_backup "data";
    previous_data ← Py.get prev table;
    if Py.is_dict previous_data then
      if Py.has_flag previous_data "_backup_failed" then mret JNull
      else if Py.has_flag previous_data "_unchanged"
           then mret (referenced_data d table previous_data)
           else mret previous_data
    else mret previous_data
  else mret JNull.

(** The body of the [try] of the sequential loop of [create_backup] for one
    table, after the fetch. *)
Definition table_step (d : disk) (previous_backup prev_timestamp : json)
           (force_full : bool) (table : string) (current_data : list json)
           (p : BackupSupabase.progress) : result BackupSupabase.progress :=
  let row_count := Z.of_nat (length current_data) in
  previous_data ← previous_data_of d previous_backup force_full table;
  comparison ← compare_table_data (JList current_data) previous_data;
  if negb (changed comparison) && negb force_full then
    hash ← hash_of comparison;
    mret (BackupSupabase.Progress
            (Py.dict_set (BackupSupabase.data p) table
                         (BackupSupabase.unchanged_entry prev_timestamp (JStr hash)))
            (BackupSupabase.total_rows p) (BackupSupabase.successful_tables p)
            (BackupSupabase.failed_tables p)
            (BackupSupabase.unchanged_tables p ++ [table])
            (BackupSupabase.changed_tables p))
  else if 0 <? row_count then
    mret (BackupSupabase.Progress
            (Py.dict_set (BackupSupabase.data p) table (JList current_data))
            (BackupSupabase.total_rows p + row_count)
            (BackupSupabase.successful_tables p + 1)
            (BackupSupabase.failed_tables p)
            (BackupSupabase.unchanged_tables p)
            (BackupSupabase.changed_tables p ++ [table]))
  else
    mret (BackupSupabase.Progress
            (Py.dict_set (BackupSupabase.data p) table (JList []))
            (BackupSupabase.total_rows p)
            (BackupSupabase.successful_tables p + 1)
            (BackupSupabase.failed_tables p)
            (BackupSupabase.unchanged_tables p)
            (BackupSupabase.changed_tables p)).

(** The dict returned by [fetch_table_with_progress]. *)
Record fetched : Type := Fetched {
  result_table : string;
  result_success : bool;
  result_data : json;
  result_row_count : Z;
  result_comparison : option comparison;   (* [None] is Python's [None] *)
  result_error : json
}.

(** The body of the loop [for future in as_completed(future_to_table)] of
    [create_backup] for one completed worker: [table] is the table the
    worker was started for and [r] the dict it returned. *)
Definition collect (previous_backup : json) (force_full : bool)
           (p : BackupSupabase.progress) (future : string * fetched)
  : BackupSupabase.progress :=
  let '(table, r) := future in
  if negb (result_success r) then
    BackupSupabase.Progress
      (Py.dict_set (BackupSupabase.data p) (result_table r)
                   (JDict [("_error", result_error r); ("_backup_failed", JBool true)]))
      (BackupSupabase.total_rows p) (BackupSupabase.successful_tables p)
      (BackupSupabase.failed_tables p ++ [result_table r])
      (BackupSupabase.unchanged_tables p) (BackupSupabase.changed_tables p)
  else
    match result_comparison r with
    | None => BackupSupabase.table_failed table "'NoneType' object is not subscriptable" p
    | Some comparison =>
        if negb (changed comparison) && negb force_full then
          let p1 :=
            BackupSupabase.Progress
              (BackupSupabase.data p) (BackupSupabase.total_rows p)
              (BackupSupabase.successful_tables p) (BackupSupabase.failed_tables p)
              (BackupSupabase.unchanged_tables p ++ [result_table r])
              (BackupSupabase.changed_tables p) in
          match (m ← Py.subscript previous_backup "metadata";
                 reference ← Py.subscript m "timestamp";
                 hash ← hash_of comparison;
                 mret (BackupSupabase.unchanged_entry reference (JStr hash))) with
          | Ok entry =>
              BackupSupabase.Progress
                (Py.dict_set (BackupSupabase.data p1) (result_table r) entry)
                (BackupSupabase.total_rows p1) (BackupSupabase.successful_tables p1)
                (BackupSupabase.failed_tables p1) (BackupSupabase.unchanged_tables p1)
                (BackupSupabase.changed_tables p1)
          | Raise error_msg => BackupSupabase.table_failed table error_msg p1
          end
        else if 0 <? result_row_count r then
          BackupSupabase.Progress
            (Py.dict_set (BackupSupabase.data p) (result_table r) (result_data r))
            (BackupSupabase.total_rows p + result_row_count r)
            (BackupSupabase.successful_tables p + 1)
            (BackupSupabase.failed_tables p)
            (BackupSupabase.unchanged_tables p)
            (BackupSupabase.changed_tables p ++ [result_table r])
        else
          BackupSupabase.Progress
            (Py.dict_set (BackupSupabase.data p) (result_table r) (JList []))
            (BackupSupabase.total_rows p)
            (BackupSupabase.successful_tables p + 1)
            (BackupSupabase.failed_tables p)
            (BackupSupabase.unchanged_tables p)
            (BackupSupabase.changed_tables p)
    end.

(** Two states of a run that differ in the order of their entries only. *)
Definition same_backup (p p' : BackupSupabase.progress) : Prop :=
  BackupSupabase.total_rows p = BackupSupabase.total_rows p' /\
  BackupSupabase.successful_tables p = BackupSupabase.successful_tables p' /\
  Permutation (BackupSupabase.failed_tables p) (BackupSupabase.failed_tables p') /\
  Permutation (BackupSupabase.unchanged_tables p) (BackupSupabase.unchanged_tables p') /\
  Permutation (BackupSupabase.changed_tables p) (BackupSupabase.changed_tables p') /\
  forall t, Py.assoc (BackupSupabase.data p) t = Py.assoc (BackupSupabase.data p') t.

Section Client.

Context {St : Type} (exec : op -> St -> result json * St).

(** [create_safety_backup()]: always a full, compressed snapshot. *)
Definition create_safety_backup (fuel : nat) (e : env) (w : world St)
  : option (option string * world St) :=
  if negb (dotenv e) then Some (None, w)
  else if negb (credentials e) then Some (None, w)
  else
    match BackupSupabaseSafe.safety_tables exec fuel (all_tables e) [] 0 w with
    | None => None
    | Some (data, total_rows, w1) =>
        if negb (writable e) then Some (None, w1) else
        let safety_backup_filename := "safety_backup_" +:+ now e +:+ ".json.gz" in
        let d := files w1 in
        Some (Some safety_backup_filename,
              World (remote w1) (trace w1)
                    (Disk (backups d)
                          (Fs.write (safety_backups d) safety_backup_filename (clock e)
                                    (BackupSupabaseSafe.safety_document e data total_rows))
                          (summaries d)))
    end.

(** [restore_table_batch(client, table, batch, columns_to_exclude)] *)
Definition restore_table_batch (table : string) (batch : list json) (cols : list string)
           (w : world St) : counters * world St :=
  let '(c, w1) := restore_batch exec table cols (no_counts, w) batch in
  (Counters (inserted c) (updated c) (errors c) (firstn 5 (error_details c)), w1).

(** The incremental step of [restore_backup]: a previous backup that cannot
    be read leaves the entries as they are. *)
Definition effective_data (d : disk) (backup_data : json) : result json :=
  metadata ← Py.subscript backup_data "metadata";
  backup_type ← Py.get metadata "backup_type";
  data ← Py.subscript backup_data "data";
  if Py.eq backup_type (JStr "incremental") then
    previous_timestamp ← Py.get metadata "previous_backup";
    if Py.truthy previous_timestamp then
      match find_backup d ("supabase_backup_" +:+ Py.str previous_timestamp +:+ ".json") with
      | Some f =>
          match (prev_backup ← Fs.load f;
                 entries ← Py.items data;
                 merge_unchanged prev_backup entries) with
          | Ok merged => mret (JDict merged)
          | Raise _ => mret data
          end
      | None => mret data
      end
    else mret data
  else mret data.

(** The entries the write-back of [backup_file] works on (none when they
    cannot be obtained). *)
Definition restore_entries (d : disk) (backup_file : string) : list (string * json) :=
  match find_backup d backup_file with
  | Some f =>
      match (backup_data ← Fs.load f; effective_data d backup_data) with
      | Ok (JDict entries) => entries
      | _ => []
      end
  | None => []
  end.

(** The restore tasks of one table: its batches, or nothing when the table
    is skipped. *)
Definition table_tasks (data : json) (table : string)
  : result (list (string * string) * list (string * list json * list string)) :=
  entry ← Py.get data table;
  match classify entry with
  | SkipFailed => mret ([(table, "backup_failed")], [])
  | SkipUnchanged => mret ([], [])
  | SkipInvalid => _ ← len entry; mret ([], [])
  | SkipEmpty => mret ([], [])
  | WriteRows rows =>
      mret ([], map (fun batch => (table, batch, columns_to_exclude table))
                    (batches DEFAULT_BATCH_SIZE rows))
  end.

Definition restore_tasks (data : json) (tables : list string)
  : result (list (string * string) * list (string * list json * list string)) :=
  l ← mapM (table_tasks data) tables;
  mret (concat (map fst l), concat (map snd l)).

(** The sequential loop over the restore tasks; [table_results] is keyed by
    table in the order of the first task of each table. *)
Definition run_task (acc : list (string * counters) * world St)
           (task : string * list json * list string)
  : list (string * counters) * world St :=
  let '(table_results, w) := acc in
  let '(table, batch, cols) := task in
  let '(c, w1) := restore_table_batch table batch cols w in
  let before := match Py.assoc table_results table with
                | Some c0 => c0
                | None => no_counts
                end in
  (Py.dict_set table_results table (add_counts before c), w1).

Definition sum_counts (f : counters -> Z) (results : list (string * counters)) : Z :=
  fold_left (fun n r => n + f (snd r)) results 0.

(** [restore_backup] from the [try] on. *)
Definition restore_steps (e : env) (backup_file : string) (f : file)
           (safety : option string) (w : world St) : bool * report * world St :=
  if negb (credentials e) then (false, NoReport, w)
  else
    match (backup_data ← Fs.load f;
           metadata ← Py.subscript backup_data "metadata";
           _ ← Py.subscript metadata "backup_date";
           _ ← Py.get metadata "backup_type";
           v ← validate_backup_data backup_data;
           mret (backup_data, v)) with
    | Raise msg => (false, Crashed msg, w)
    | Ok (backup_data, (false, errs, warns)) => (false, Invalid errs warns, w)
    | Ok (backup_data, (true, _, _)) =>
        match (metadata ← Py.subscript backup_data "metadata";
               tables ← Py.subscript metadata "tables";
               table_names tables) with
        | Raise msg => (false, Crashed msg, w)
        | Ok tables =>
            let '(before, w1) := get_table_row_counts exec tables w in
            match (data ← effective_data (files w1) backup_data;
                   restore_tasks data tables) with
            | Raise msg => (false, Crashed msg, w1)
            | Ok (failed, tasks) =>
                let '(table_results, w2) := fold_left run_task tasks ([], w1) in
                let '(after, w3) := get_table_row_counts exec tables w2 in
                let d := files w3 in
                if negb (writable e)
                then (false, Crashed "[Errno 13] Permission denied", w3)
                else
                (true,
                 Logged (RestoreLog backup_file safety before table_results failed
                                    (sum_counts inserted table_results)
                                    (sum_counts updated table_results)
                                    (sum_counts errors table_results) after),
                 World (remote w3) (trace w3)
                       (Disk (backups d) (safety_backups d)
                             (Fs.add_name (summaries d)
                                          ("restore_log_" +:+ now e +:+ ".json"))))
            end
        end
    end.

(** [restore_backup(backup_file, skip_safety_backup, max_workers=1)] returns
    [(success, safety_backup_file, restore_log)]. *)
Definition restore_backup (fuel : nat) (e : env) (backup_file : string)
           (skip_safety_backup : bool) (w : world St)
  : option (bool * option string * report * world St) :=
  match find_backup (files w) backup_file with
  | None => Some (false, None, NoReport, w)
  | Some f =>
      if negb (dotenv e) then Some (false, None, NoReport, w)
      else if skip_safety_backup then
        let '(ok, r, w1) := restore_steps e backup_file f None w in Some (ok, None, r, w1)
      else
        match create_safety_backup fuel e w with
        | None => None
        | Some (None, w1) => Some (false, None, NoReport, w1)
        | Some (Some safety_backup_file, w1) =>
            let '(ok, r, w2) := restore_steps e backup_file f (Some safety_backup_file) w1 in
            Some (ok, Some safety_backup_file, r, w2)
        end
  end.

(** [fetch_table_with_progress(client, table, previous_backup, force_full)]:
    the worker of the multithreaded mode, for one table. *)
Definition fetch_table_with_progress (fuel : nat) (previous_backup : json)
           (force_full : bool) (table : string) (w : world St)
  : option (fetched * world St) :=
  match fetch_table_data exec fuel table w with
  | None => None
  | Some (current_data, w1) =>
      let row_count := Z.of_nat (length current_data) in
      match (previous_data ← previous_data_of (files w1) previous_backup force_full table;
             compare_table_data (JList current_data) previous_data) with
      | Ok comparison =>
          Some (Fetched table true (JList current_data) row_count (Some comparison) JNull,
                w1)
      | Raise error_msg =>
          Some (Fetched table false JNull 0 None (JStr error_msg), w1)
      end
  end.

(** The sequential loop [for table in tables] of [create_backup]
    ([max_workers = 1]). *)
Fixpoint backup_tables (fuel : nat) (previous_backup prev_timestamp : json)
         (force_full : bool) (tables : list string) (p : BackupSupabase.progress)
         (w : world St) : option (BackupSupabase.progress * world St) :=
  match tables with
  | [] => Some (p, w)
  | table :: tables' =>
      match fetch_table_data exec fuel table w with
      | None => None
      | Some (current_data, w1) =>
          let p1 :=
            match table_step (files w1) previous_backup prev_timestamp force_full
                             table current_data p with
            | Ok p' => p'
            | Raise error_msg => BackupSupabase.table_failed table error_msg p
            end in
          backup_tables fuel previous_backup prev_timestamp force_full tables' p1 w1
      end
  end.

Definition backup_document (e : env) (compress : bool)
           (previous_backup prev_timestamp : json) (p : BackupSupabase.progress) : json :=
  JDict
    [("metadata",
      JDict [("backup_date", JStr (today e));
             ("timestamp", JStr (now e));
             ("backup_type",
              JStr (if Py.truthy previous_backup then "incremental" else "full"));
             ("previous_backup", prev_timestamp);
             ("total_tables", JInt (Z.of_nat (length (all_tables e))));
             ("tables", BackupSupabase.strs (all_tables e));
             ("optimized", JBool false);
             ("max_workers", JNull);
             ("compressed", JBool compress);
             ("total_rows", JInt (BackupSupabase.total_rows p));
             ("successful_tables", JInt (BackupSupabase.successful_tables p));
             ("failed_tables", BackupSupabase.strs (BackupSupabase.failed_tables p));
             ("failed_count",
              JInt (Z.of_nat (length (BackupSupabase.failed_tables p))));
             ("unchanged_tables", BackupSupabase.strs (BackupSupabase.unchanged_tables p));
             ("changed_tables", BackupSupabase.strs (BackupSupabase.changed_tables p));
             ("unchanged_count",
              JInt (Z.of_nat (length (BackupSupabase.unchanged_tables p))));
             ("changed_count",
              JInt (Z.of_nat (length (BackupSupabase.changed_tables p))))]);
     ("data", JDict (BackupSupabase.data p))].

(** [create_backup(force_full, max_workers=1, compress)]: the sequential
    mode.  [Some (ok, w)] once the run has ended, [None] when a fetch has not
    ended within the fuel.  As in [backup_supabase.py], the backup file is
    written before the summary, and the pruning comes last. *)
Definition create_backup (fuel : nat) (e : env) (force_full compress : bool)
           (w : world St) : option (bool * world St) :=
  if negb (dotenv e) then Some (false, w)
  else if negb (credentials e) then Some (false, w)
  else
    let previous_backup := if force_full then JNull else get_latest_backup (files w) in
    match (if Py.truthy previous_backup
           then m ← Py.subscript previous_backup "metadata"; Py.subscript m "timestamp"
           else mret JNull) with
    | Raise _ => Some (false, w)
    | Ok prev_timestamp =>
        match backup_tables fuel previous_backup prev_timestamp force_full
                            (all_tables e) BackupSupabase.no_progress w with
        | None => None
        | Some (p, w1) =>
            if negb (writable e) then Some (false, w1) else
            let d := files w1 in
            let backup_filename :=
              "supabase_backup_" +:+ now e +:+ ".json" +:+
              (if compress then ".gz" else EmptyString) in
            let d1 :=
              Disk (Fs.write (backups d) backup_filename (clock e)
                             (backup_document e compress previous_backup prev_timestamp p))
                   (safety_backups d)
                   (summaries d) in
            if negb (summary_writable e)
            then Some (false, World (remote w1) (trace w1) d1) else
            let d2 :=
              Disk (backups d1) (safety_backups d1)
                   (Fs.add_name (summaries d1) ("backup_summary_" +:+ now e +:+ ".json")) in
            Some (true, World (remote w1) (trace w1) (cleanup_old_backups 288 d2))
        end
    end.

(** [rollback_from_safety_backup(safety_backup_file)]; [confirm] is what
    the operator types at the prompt.  The restore it calls is embedded in
    its sequential mode. *)
Definition rollback_from_safety_backup (fuel : nat) (e : env)
           (safety_backup_file confirm : string) (w : world St)
  : option (bool * world St) :=
  match Fs.find (safety_backups (files w)) safety_backup_file with
  | None => Some (false, w)
  | Some _ =>
      if negb (String.eqb confirm "ROLLBACK") then Some (false, w)
      else
        match create_safety_backup fuel e w with
        | None => None
        | Some (pre_rollback_backup, w1) =>
            match restore_backup fuel e safety_backup_file true w1 with
            | None => None
            | Some (success, _, _, w2) => Some (success, w2)
            end
        end
  end.

End Client.

End SupabaseBackup.

(** ** A small remote store

    Tables of rows keyed by ['id'], with the requests of [op]; [fails] tells
    which requests raise, and with which message.  It serves as the concrete
    store of the examples. *)

Module Store.

Definition state : Type := list (string * list json).

Definition rows_of (s : state) (table : string) : list json :=
  match Py.assoc s table with
  | Some rows => rows
  | None => []
  end.

Definition row_id (row : json) : json :=
  match row with
  | JDict d => Py.dict_get d "id" JNull
  | _ => JNull
  end.

Definition same_id (id : json) (row : json) : bool := Py.eq (row_id row) id.

(** Insert the row, or replace the row that has its id. *)
Definition upsert_row (rows : list json) (row : json) : list json :=
  if existsb (same_id (row_id row)) rows
  then map (fun r => if same_id (row_id row) r then row else r) rows
  else rows ++ [row].

Definition apply (o : op) (s : state) : result json * state :=
  match o with
  | Select table first last =>
      (Ok (JList (firstn (Z.to_nat (last - first + 1))
                         (skipn (Z.to_nat first) (rows_of s table)))), s)
  | Count table => (Ok (JInt (Z.of_nat (length (rows_of s table)))), s)
  | Upsert table (JList rows) =>
      (Ok JNull, Py.dict_set s table (fold_left upsert_row rows (rows_of s table)))
  | Upsert table row =>
      (Ok JNull, Py.dict_set s table (upsert_row (rows_of s table) row))
  | Update table row id =>
      (Ok JNull,
       Py.dict_set s table (map (fun r => if same_id id r then row else r) (rows_of s table)))
  | Insert table (JList rows) => (Ok JNull, Py.dict_set s table (rows_of s table ++ rows))
  | Insert table row => (Ok JNull, Py.dict_set s table (rows_of s table ++ [row]))
  | Delete table column value =>
      (Ok JNull,
       Py.dict_set s table
         (filter (fun r => negb (Py.eq (match r with
                                        | JDict d => Py.dict_get d column JNull
                                        | _ => JNull
                                        end) value))
                 (rows_of s table)))
  end.

Definition exec (fails : op -> option string) (o : op) (s : state) : result json * state :=
  match fails o with
  | Some msg => (Raise msg, s)
  | None => apply o s
  end.

Definition reliable (o : op) : option string := None.

End Store.

(** ** Example runs *)

Module Example.

Definition user (n : Z) (who : string) : json :=
  JDict [("id", JInt n); ("name", JStr who)].

Definition users : list json := [user 1 "ani"; user 2 "budi"; user 3 "citra"].

Definition order : json := JDict [("id", JInt 7); ("user_id", JInt 1)].

(** A store with three users and no order, and the same with one order. *)
Definition store0 : Store.state := [("users", users); ("orders", [])].
Definition store1 : Store.state := [("users", users); ("orders", [order])].

Definition clean (s : Store.state) (d : disk) : world Store.state := World s [] d.

(** Three runs, five minutes apart. *)
Definition at_ (stamp iso : string) (t : Z) : env :=
  Env true true ["users"; "orders"] true stamp iso t true.

Definition run1 : env := at_ "20240101_000000" "2024-01-01T00:00:00" 100.
Definition run2 : env := at_ "20240101_000500" "2024-01-01T00:05:00" 400.
Definition run3 : env := at_ "20240101_001000" "2024-01-01T00:10:00" 700.

(** A run whose directories cannot be written. *)
Definition read_only : env :=
  Env true true ["users"; "orders"] false "20240101_002000" "2024-01-01T00:20:00" 1300
      false.

(** A run that can write its backup file but not the summary. *)
Definition no_summary : env :=
  Env true true ["users"; "orders"] true "20240101_000500" "2024-01-01T00:05:00" 400
      false.

Definition exec : op -> Store.state -> result json * Store.state :=
  Store.exec Store.reliable.

(** The files left by a backup run, the files before when it did not end. *)
Definition backed_up (e : env) (s : Store.state) (d : disk) : disk :=
  match BackupSupabase.create_backup exec 5 e false (clean s d) with
  | Some (_, w) => files w
  | None => d
  end.

(** A full backup, then a run after one order was added, then a run with
    nothing changed. *)
Definition disk1 : disk := backed_up run1 store0 (Disk [] [] []).
Definition disk2 : disk := backed_up run2 store1 disk1.
Definition disk3 : disk := backed_up run3 store1 disk2.

Definition backup1 : string := "supabase_backup_20240101_000000.json".
Definition backup2 : string := "supabase_backup_20240101_000500.json".
Definition backup3 : string := "supabase_backup_20240101_001000.json".

(** The entry of a table in a backup file, as stored. *)
Definition stored_entry (d : disk) (backup_file table : string) : result json :=
  match Fs.find (backups d) backup_file with
  | Some f => v ← Fs.load f; data ← Py.subscript v "data"; Py.get data table
  | None => Raise "No such file"
  end.

Definition marker (reference hash : string) : json :=
  BackupSupabase.unchanged_entry (JStr reference) (JStr hash).

(** Two snapshots whose markers for [users] refer to each other. *)
Definition snapshot (stamp previous : string) (entry : json) : json :=
  JDict [("metadata",
          JDict [("backup_date", JStr "2024-01-01T00:00:00");
                 ("timestamp", JStr stamp);
                 ("backup_type", JStr "incremental");
                 ("previous_backup", JStr previous);
                 ("tables", JList [JStr "users"])]);
         ("data", JDict [("users", entry)])].

Definition cyclic : disk :=
  Disk [File "supabase_backup_A.json" 100 (Ok (snapshot "A" "B" (marker "B" "h")));
        File "supabase_backup_B.json" 200 (Ok (snapshot "B" "A" (marker "A" "h")))]
       [] [].

(** A store whose requests on [users] cannot be read. *)
Definition users_down (o : op) : option string :=
  match o with
  | Select t _ _ => if String.eqb t "users" then Some "connection reset" else None
  | _ => None
  end.

(** The directories after the first run, with a safety backup where
    [create_safety_backup] writes it. *)
Definition safety_file : string := "safety_backup_20240101_000300.json".

Definition rescue : disk :=
  Disk (backups disk1)
       [File safety_file 300
             (Ok (BackupSupabaseSafe.safety_document
                    (at_ "20240101_000300" "2024-01-01T00:03:00" 300)
                    [("users", JList users); ("orders", JList [])] 3))]
       (summaries disk1).

(** The directories after the first run, with a newer backup file that
    cannot be read. *)
Definition torn : disk :=
  Disk (File backup2 400 (Raise "Expecting value") :: backups disk1)
       [] (summaries disk1).

(** A store whose rows cannot be counted. *)
Definition counts_down (o : op) : option string :=
  match o with
  | Count _ => Some "timeout"
  | _ => None
  end.

(** A backup with its metadata and an empty data section. *)
Definition no_data : json :=
  JDict [("metadata",
          JDict [("backup_date", JStr "2024-01-01T00:00:00");
                 ("timestamp", JStr "20240101_000000");
                 ("backup_type", JStr "full");
                 ("tables", JList [])]);
         ("data", JDict [])].

(** A store whose [users] cannot be read from the third row on. *)
Definition second_page_down (o : op) : option string :=
  match o with
  | Select t first _ =>
      if String.eqb t "users" && (2 <=? first) then Some "connection reset" else None
  | _ => None
  end.

(** A store that refuses every upsert as a duplicate. *)
Definition duplicates (o : op) : option string :=
  match o with
  | Upsert _ _ => Some "duplicate key value violates unique constraint (23505)"
  | _ => None
  end.

(** A backup whose data section is present and empty. *)
Definition no_tables : json :=
  JDict [("metadata", JDict [("timestamp", JStr "20240101_000000"); ("tables", JList [])]);
         ("data", JDict [])].

Definition row_a : json := JDict [("id", JInt 2); ("name", JStr "b")].
Definition row_b : json := JDict [("id", JInt 1); ("name", JStr "a")].

End Example.


(** * Properties *)

(** ** Stable sorting *)

Section SortBy.

Context {A : Type} (ltb : A -> A -> bool).

Let le (a b : A) : Prop := ltb b a = false.

Lemma insert_by_perm (x : A) (l : list A) :
  Permutation (x :: l) (Py.insert_by ltb x l).
Proof.
  induction l as [|y l IH]; simpl; [reflexivity|].
  destruct (ltb y x); [|reflexivity].
  rewrite perm_swap. now constructor.
Qed.

Lemma sort_by_perm (l : list A) : Permutation l (Py.sort_by ltb l).
Proof.
  induction l as [|x l IH]; simpl; [constructor|].
  rewrite <- insert_by_perm. now constructor.
Qed.

Lemma sort_by_ext (ltb' : A -> A -> bool) (l : list A) :
  (forall a b, In a l -> In b l -> ltb a b = ltb' a b) ->
  Py.sort_by ltb l = Py.sort_by ltb' l.
Proof.
  induction l as [|x l IH]; intros H; simpl; [reflexivity|].
  rewrite <- IH by (intros; apply H; now right).
  assert (Hin : forall y, In y (Py.sort_by ltb l) -> In y l).
  { intros y Hy. eapply Permutation_in; [symmetry; apply sort_by_perm|exact Hy]. }
  revert Hin. generalize (Py.sort_by ltb l) as s.
  induction s as [|y s IHs]; intros Hin; simpl; [reflexivity|].
  rewrite <- (H y x) by (first [right; apply Hin; now left | now left]).
  destruct (ltb y x); [|reflexivity].
  f_equal. apply IHs. intros z Hz. apply Hin. now right.
Qed.

Hypothesis ltb_asym : forall a b, ltb a b = true -> ltb b a = false.
Hypothesis le_trans : forall a b c, le a b -> le b c -> le a c.

Lemma insert_by_sorted (x : A) (l : list A) :
  Sorted le l -> Sorted le (Py.insert_by ltb x l).
Proof.
  induction l as [|y l IH]; intros Hs; simpl.
  - repeat constructor.
  - destruct (ltb y x) eqn:Hyx.
    + inversion Hs as [|? ? Hl Hhd]; subst.
      constructor; [now apply IH|].
      destruct l as [|z l]; simpl.
      * constructor. now apply ltb_asym.
      * destruct (ltb z x); constructor.
        -- now inversion Hhd.
        -- now apply ltb_asym.
    + constructor; [exact Hs|]. constructor. exact Hyx.
Qed.

Lemma sort_by_sorted (l : list A) : Sorted le (Py.sort_by ltb l).
Proof.
  induction l as [|x l IH]; simpl; [constructor|].
  now apply insert_by_sorted.
Qed.

(** Two runs of the sort on permuted inputs agree as soon as elements that
    tie are equal. *)
Lemma sort_by_permutation (l l' : list A) :
  Permutation l l' ->
  (forall a b, In a l -> In b l -> le a b -> le b a -> a = b) ->
  Py.sort_by ltb l = Py.sort_by ltb l'.
Proof.
  intros Hp Htie.
  assert (Htr : Transitive le) by (intros a b c; apply le_trans).
  apply (Sorted_unique_strong le).
  - intros a b Ha Hb. apply Htie.
    + apply list_elem_of_In in Ha.
      eapply Permutation_in; [symmetry; apply sort_by_perm|exact Ha].
    + apply list_elem_of_In in Hb.
      eapply Permutation_in; [symmetry; exact Hp|].
      eapply Permutation_in; [symmetry; apply sort_by_perm|exact Hb].
  - apply sort_by_sorted.
  - apply sort_by_sorted.
  - rewrite <- !sort_by_perm. exact Hp.
Qed.

End SortBy.

Section SortFilter.

Context {A : Type} (ltb : A -> A -> bool).

Hypothesis ltb_asym : forall a b, ltb a b = true -> ltb b a = false.
Hypothesis le_trans :
  forall a b c, ltb b a = false -> ltb c b = false -> ltb c a = false.

Lemma insert_by_filter_out (P : A -> bool) (x : A) (l : list A) :
  P x = false -> filter P (Py.insert_by ltb x l) = filter P l.
Proof.
  intros Hx. induction l as [|y l IH]; simpl.
  - now rewrite Hx.
  - destruct (ltb y x); simpl.
    + now rewrite IH.
    + now rewrite Hx.
Qed.

Lemma insert_by_front (x : A) (l : list A) :
  (forall z, In z l -> ltb z x = false) -> Py.insert_by ltb x l = x :: l.
Proof.
  destruct l as [|y l]; simpl; [reflexivity|].
  intros H. now rewrite (H y) by now left.
Qed.

Lemma insert_by_filter_in (P : A -> bool) (x : A) (l : list A) :
  P x = true -> Sorted (fun a b => ltb b a = false) l ->
  filter P (Py.insert_by ltb x l) = Py.insert_by ltb x (filter P l).
Proof.
  intros Hx Hs. induction l as [|y l IH]; simpl.
  - now rewrite Hx.
  - assert (Hs' : Sorted (fun a b => ltb b a = false) l) by now inversion Hs.
    destruct (ltb y x) eqn:Hyx; simpl.
    + destruct (P y); simpl; rewrite (IH Hs'); [now rewrite Hyx|reflexivity].
    + rewrite Hx. destruct (P y); simpl; [now rewrite Hyx|].
      symmetry. apply insert_by_front.
      intros z Hz. apply filter_In in Hz as [Hz _].
      apply Sorted_StronglySorted in Hs.
      * inversion Hs as [|? ? _ Hall]; subst.
        rewrite Forall_forall in Hall. eapply le_trans; [exact Hyx|].
        apply Hall. exact Hz.
      * intros a b c Hab Hbc. eapply le_trans; eassumption.
Qed.

(** Filtering commutes with the stable sort. *)
Lemma sort_by_filter (P : A -> bool) (l : list A) :
  Py.sort_by ltb (filter P l) = filter P (Py.sort_by ltb l).
Proof.
  induction l as [|x l IH]; simpl; [reflexivity|].
  destruct (P x) eqn:Hx; simpl.
  - rewrite IH. symmetry. apply insert_by_filter_in; [exact Hx|].
    now apply sort_by_sorted.
  - rewrite IH. symmetry. now apply insert_by_filter_out.
Qed.

End SortFilter.

Lemma filter_twice {A} (f g : A -> bool) (l : list A) :
  filter f (filter g l) = filter (fun x => g x && f x) l.
Proof.
  induction l as [|x l IH]; simpl; [reflexivity|].
  destruct (g x); simpl; [destruct (f x)|]; now rewrite IH.
Qed.

Lemma filter_none {A} (f : A -> bool) (l : list A) :
  (forall x, In x l -> f x = false) -> filter f l = [].
Proof.
  induction l as [|x l IH]; intros H; simpl; [reflexivity|].
  rewrite (H x) by now left. apply IH. intros; apply H; now right.
Qed.

Lemma NoDup_app_disjoint {A} (l k : list A) (x : A) :
  NoDup (l ++ k) -> In x l -> In x k -> False.
Proof.
  induction l as [|y l IH]; simpl; intros H Hl Hk; [contradiction|].
  inversion H as [|? ? Hy Hn]; subst. destruct Hl as [->|Hl].
  - apply Hy, in_or_app. now right.
  - now apply IH.
Qed.

(** ** The content fingerprint *)

Section Fingerprint.

Import Common.

Lemma string_ltb_asym (s t : string) : String.ltb s t = true -> String.ltb t s = false.
Proof.
  unfold String.ltb. rewrite (String.compare_antisym t s).
  now destruct (String.compare s t).
Qed.

Lemma string_ltb_lt (s t : string) : String.ltb s t = true <-> String_as_OT.lt s t.
Proof.
  rewrite <- String_as_OT.cmp_lt. unfold String.ltb, String_as_OT.cmp.
  destruct (String.compare s t); split; congruence.
Qed.

Lemma string_le_trans (a b c : string) :
  String.ltb b a = false -> String.ltb c b = false -> String.ltb c a = false.
Proof.
  intros Hba Hcb. destruct (String.ltb c a) eqn:Hca; [|reflexivity].
  exfalso. apply string_ltb_lt in Hca.
  destruct (String.compare b a) eqn:Hc.
  - apply String.compare_eq_iff in Hc. subst b.
    apply string_ltb_lt in Hca. congruence.
  - unfold String.ltb in Hba. now rewrite Hc in Hba.
  - assert (Hab : String_as_OT.lt a b).
    { apply String_as_OT.cmp_lt. unfold String_as_OT.cmp.
      rewrite String.compare_antisym, Hc. reflexivity. }
    pose proof (String_as_OT.lt_trans _ _ _ Hca Hab) as Hcb'.
    apply string_ltb_lt in Hcb'. congruence.
Qed.

Lemma string_tie (s t : string) :
  String.ltb s t = false -> String.ltb t s = false -> s = t.
Proof.
  unfold String.ltb. rewrite (String.compare_antisym t s).
  destruct (String.compare s t) eqn:Hc; try discriminate.
  intros _ _. now apply String.compare_eq_iff.
Qed.

Lemma rank_asym (a b : idkey) : rank a b = true -> rank b a = false.
Proof.
  destruct a, b; simpl; try congruence.
  - intros H. apply Z.ltb_lt in H. apply Z.ltb_ge. lia.
  - apply string_ltb_asym.
Qed.

Lemma rank_le_trans (a b c : idkey) :
  rank b a = false -> rank c b = false -> rank c a = false.
Proof.
  destruct a, b, c; simpl; try congruence.
  - rewrite !Z.ltb_ge. lia.
  - apply string_le_trans.
Qed.

Lemma rank_tie (a b : idkey) : rank a b = false -> rank b a = false -> a = b.
Proof.
  destruct a, b; simpl; try congruence.
  - rewrite !Z.ltb_ge. intros. f_equal. lia.
  - intros. f_equal. now apply string_tie.
Qed.

Lemma scalar_key_sort_key (x : json) (k : idkey) :
  scalar_key x = Some k -> sort_key x = Ok (key_of x) /\ key_scalar (key_of x) = Some k.
Proof.
  unfold scalar_key, key_of. destruct (sort_key x) as [j|]; [|discriminate].
  destruct j; try discriminate; simpl; auto.
Qed.

Lemma lt_scalar (a b : json) (x y : idkey) :
  key_scalar a = Some x -> key_scalar b = Some y ->
  (exists n m, x = inl n /\ y = inl m) \/ (exists s t, x = inr s /\ y = inr t) ->
  Py.lt a b = Some (rank x y).
Proof.
  intros Ha Hb [(n & m & -> & ->)|(s & t & -> & ->)];
    destruct a, b; simpl in *; try discriminate;
    repeat match goal with H : Some _ = Some _ |- _ => injection H as H; subst end;
    try reflexivity.
Qed.

Lemma mapM_ok {A B} (f : A -> result B) (g : A -> B) (l : list A) :
  (forall x, In x l -> f x = Ok (g x)) -> mapM f l = Ok (map g l).
Proof.
  induction l as [|x l IH]; intros H; simpl; [reflexivity|].
  rewrite (H x) by now left. simpl.
  rewrite IH by (intros; apply H; now right). reflexivity.
Qed.

Lemma all_pairs_true {A} (p : A -> A -> bool) (l : list A) :
  (forall a b, In a l -> In b l -> p a b = true) -> Py.all_pairs p l = true.
Proof.
  induction l as [|x l IH]; intros H; simpl; [reflexivity|].
  apply andb_true_intro. split.
  - apply forallb_forall. intros y Hy. apply H; [now left|now right].
  - apply IH. intros; apply H; now right.
Qed.

Lemma uniform_keys_pairs (rows : list json) (x y : json) :
  uniform_keys rows -> In x rows -> In y rows ->
  exists a b, scalar_key x = Some a /\ scalar_key y = Some b /\
    ((exists n m, a = inl n /\ b = inl m) \/ (exists s t, a = inr s /\ b = inr t)).
Proof.
  intros [H|H] Hx Hy; destruct (H x Hx) as [a Ha]; destruct (H y Hy) as [b Hb];
    eexists _, _; (split; [exact Ha|split; [exact Hb|]]); eauto.
Qed.

Lemma sorted_uniform (rows : list json) :
  uniform_keys rows ->
  Py.sorted sort_key rows
  = Ok (map snd (Py.sort_by (fun a b => rank (proj a) (proj b)) (keyed rows))).
Proof.
  intros Hu. unfold Py.sorted.
  rewrite (mapM_ok _ (fun x => (key_of x, x))).
  2:{ intros x Hx. destruct (uniform_keys_pairs rows x x Hu Hx Hx) as (a & _ & Ha & _).
      apply scalar_key_sort_key in Ha as [-> _]. reflexivity. }
  simpl. fold (keyed rows).
  rewrite all_pairs_true.
  2:{ intros a b Ha Hb. apply in_map_iff in Ha as (x & <- & Hx).
      apply in_map_iff in Hb as (y & <- & Hy). simpl.
      destruct (uniform_keys_pairs rows x y Hu Hx Hy) as (kx & ky & Hkx & Hky & Hk).
      apply scalar_key_sort_key in Hkx as [_ Hkx].
      apply scalar_key_sort_key in Hky as [_ Hky].
      unfold Py.comparable.
      rewrite (lt_scalar _ _ _ _ Hkx Hky Hk).
      rewrite (lt_scalar _ _ _ _ Hky Hkx); [reflexivity|].
      destruct Hk as [(n & m & -> & ->)|(s & t & -> & ->)]; eauto. }
  do 2 f_equal. apply sort_by_ext.
  intros a b Ha Hb. apply in_map_iff in Ha as (x & <- & Hx).
  apply in_map_iff in Hb as (y & <- & Hy).
  destruct (uniform_keys_pairs rows x y Hu Hx Hy) as (kx & ky & Hkx & Hky & Hk).
  apply scalar_key_sort_key in Hkx as [_ Hkx].
  apply scalar_key_sort_key in Hky as [_ Hky].
  unfold Py.key_ltb, proj. simpl.
  rewrite (lt_scalar _ _ _ _ Hkx Hky Hk), Hkx, Hky. reflexivity.
Qed.

Lemma uniform_keys_perm (rows rows' : list json) :
  Permutation rows rows' -> uniform_keys rows -> uniform_keys rows'.
Proof.
  intros Hp [H|H]; [left|right]; intros x Hx; apply H;
    eapply Permutation_in; try exact Hx; now symmetry.
Qed.

Lemma sorted_data_permutation (rows rows' : list json) :
  Permutation rows rows' ->
  uniform_keys rows ->
  (forall x y, In x rows -> In y rows -> scalar_key x = scalar_key y -> x = y) ->
  sorted_data (JList rows) = sorted_data (JList rows').
Proof.
  intros Hp Hu Htie. unfold sorted_data. simpl.
  rewrite (sorted_uniform rows Hu).
  rewrite (sorted_uniform rows' (uniform_keys_perm _ _ Hp Hu)).
  do 2 f_equal.
  apply sort_by_permutation.
  - intros a b. apply rank_asym.
  - intros a b c Hab Hbc. eapply rank_le_trans; eassumption.
  - unfold keyed. now apply Permutation_map.
  - intros a b Ha Hb Hab Hba.
    apply in_map_iff in Ha as (x & <- & Hx).
    apply in_map_iff in Hb as (y & <- & Hy).
    destruct (uniform_keys_pairs rows x y Hu Hx Hy) as (kx & ky & Hkx & Hky & Hk).
    assert (x = y) as ->; [|reflexivity].
    apply Htie; try assumption.
    rewrite Hkx, Hky. f_equal.
    apply scalar_key_sort_key in Hkx as [_ Hkx].
    apply scalar_key_sort_key in Hky as [_ Hky].
    unfold proj in Hab, Hba. simpl in Hab, Hba. rewrite Hkx, Hky in Hab, Hba.
    now apply rank_tie.
Qed.

End Fingerprint.

(** C3 (as amended).  The fingerprint does not depend on the order of the
    rows when their sort keys (the ['id'], or the text of the row when it
    has none) are all numbers or all strings, and rows that share a key
    are identical. *)
Theorem calculate_table_hash_permutation (rows rows' : list json) :
  Permutation rows rows' ->
  Common.uniform_keys rows ->
  (forall x y, In x rows -> In y rows ->
               Common.scalar_key x = Common.scalar_key y -> x = y) ->
  Common.calculate_table_hash (JList rows) = Common.calculate_table_hash (JList rows').
Proof.
  intros Hp Hu Htie. unfold Common.calculate_table_hash, Common.json_str.
  rewrite (sorted_data_permutation rows rows' Hp Hu Htie).
  destruct rows as [|x rows].
  - apply Permutation_nil in Hp. subst. reflexivity.
  - destruct rows' as [|y rows'].
    + symmetry in Hp. apply Permutation_nil in Hp. discriminate.
    + reflexivity.
Qed.

Lemma calculate_table_hash_permutation_witness :
  Common.calculate_table_hash (JList [Example.row_a; Example.row_b])
  = Common.calculate_table_hash (JList [Example.row_b; Example.row_a]).
Proof.
  apply calculate_table_hash_permutation.
  - apply perm_swap.
  - left. intros x [<-|[<-|[]]]; eexists; reflexivity.
  - intros x y [<-|[<-|[]]] [<-|[<-|[]]]; try reflexivity; discriminate.
Defined.

(** C3, as stated, fails: with an integer and a string identifier the sort
    raises, the rows are hashed in the order given, and the two orders give
    two fingerprints. *)
Lemma calculate_table_hash_mixed_ids :
  Permutation [JDict [("id", JInt 1)]; JDict [("id", JStr "a")]]
              [JDict [("id", JStr "a")]; JDict [("id", JInt 1)]] /\
  Common.calculate_table_hash (JList [JDict [("id", JInt 1)]; JDict [("id", JStr "a")]])
  <> Common.calculate_table_hash (JList [JDict [("id", JStr "a")]; JDict [("id", JInt 1)]]).
Proof.
  split; [apply perm_swap|]. vm_compute. discriminate.
Qed.

(** ** Change detection *)

Section ChangeDetection.

Import Common.

Lemma id_set_insert (R1 R2 : list json) (new v : json) (k : idkey) (S : gset idkey) :
  id_set (R1 ++ R2) = Ok S ->
  Py.get new "id" = Ok v -> Py.truthy v = true -> id_elem v = Ok k ->
  id_set (R1 ++ new :: R2) = Ok ({[ k ]} ∪ S).
Proof.
  intros HS Hget Htr Hk. revert S HS.
  induction R1 as [|row R1 IH]; intros S HS; simpl in *.
  - rewrite Hget. simpl. rewrite Htr, Hk. simpl. rewrite HS. reflexivity.
  - destruct (Py.get row "id") as [v0|]; simpl in *; [|discriminate].
    destruct (Py.truthy v0).
    + destruct (id_elem v0) as [k0|]; simpl in *; [|discriminate].
      destruct (id_set (R1 ++ R2)) as [S0|] eqn:HS0; simpl in *; [|discriminate].
      injection HS as <-. rewrite (IH S0 eq_refl). simpl.
      f_equal. set_solver.
    + now apply IH.
Qed.

Lemma size_added (k : idkey) (S : gset idkey) :
  k ∉ S -> size (({[ k ]} ∪ S) ∖ S) = 1%nat /\ size (S ∖ ({[ k ]} ∪ S)) = 0%nat.
Proof.
  intros Hk. split.
  - replace (({[ k ]} ∪ S) ∖ S) with ({[ k ]} : gset idkey) by set_solver.
    apply size_singleton.
  - replace (S ∖ ({[ k ]} ∪ S)) with (∅ : gset idkey) by set_solver.
    apply size_empty.
Qed.

(** The text that is hashed grows with every row: its length is the sum
    over the rows of the length of their serialisation and of a separator,
    whatever the order the sort leaves them in. *)
Lemma string_length_app (a b : string) :
  String.length (a +:+ b) = (String.length a + String.length b)%nat.
Proof. induction a as [|c a IH]; simpl; [reflexivity|]. now rewrite IH. Qed.

Lemma join_length_cons (x : string) (l : list string) :
  (String.length (PyStr.join ", " (x :: l)) + 2)%nat
  = (String.length x + 2 + list_sum (map (fun x => (String.length x + 2)%nat) l))%nat.
Proof.
  revert x. induction l as [|y l IH]; intros x.
  - simpl. lia.
  - change (PyStr.join ", " (x :: y :: l)) with (x +:+ ", " +:+ PyStr.join ", " (y :: l)).
    rewrite !string_length_app. pose proof (IH y) as H.
    simpl map. simpl list_sum. change (String.length ", ") with 2%nat. lia.
Qed.

Lemma join_length (l : list string) :
  l <> [] ->
  (String.length (PyStr.join ", " l) + 2)%nat
  = list_sum (map (fun x => (String.length x + 2)%nat) l).
Proof.
  destruct l as [|x l]; [congruence|]. intros _. rewrite join_length_cons. reflexivity.
Qed.

Lemma list_sum_perm (l l' : list nat) : Permutation l l' -> list_sum l = list_sum l'.
Proof. induction 1; simpl; lia. Qed.

Lemma dumps_list_length (l : list json) :
  l <> [] ->
  String.length (Py.dumps (JList l))
  = list_sum (map (fun x => (String.length (Py.dumps x) + 2)%nat) l).
Proof.
  intros Hne.
  change (Py.dumps (JList l)) with ("[" +:+ PyStr.join ", " (map Py.dumps l) +:+ "]").
  rewrite !string_length_app.
  assert (Hm : map Py.dumps l <> []) by (destruct l; [congruence|discriminate]).
  pose proof (join_length (map Py.dumps l) Hm) as H.
  rewrite map_map in H. simpl String.length. lia.
Qed.

Lemma keyed_rows {A} (key : A -> result json) (l : list A) (keyed : list (json * A)) :
  mapM (fun x => k ← key x; mret (k, x)) l = Ok keyed -> map snd keyed = l.
Proof.
  revert keyed. induction l as [|x l IH]; intros keyed; simpl.
  - now intros [= <-].
  - destruct (key x) as [kx|]; simpl; [|discriminate].
    destruct (mapM (fun x => k ← key x; mret (k, x)) l) as [rest|]; simpl;
      [|discriminate].
    intros [= <-]. simpl. now rewrite (IH rest eq_refl).
Qed.

Lemma sorted_perm {A} (key : A -> result json) (l l' : list A) :
  Py.sorted key l = Ok l' -> Permutation l l'.
Proof.
  unfold Py.sorted.
  destruct (mapM (fun x => k ← key x; mret (k, x)) l) as [keyed|] eqn:E; simpl;
    [|discriminate].
  destruct (Py.all_pairs _ keyed); [|discriminate].
  intros [= <-]. rewrite <- (keyed_rows key l keyed E).
  apply Permutation_map, sort_by_perm.
Qed.

Lemma sorted_data_rows (l : list json) :
  exists l', sorted_data (JList l) = JList l' /\ Permutation l l'.
Proof.
  unfold sorted_data. simpl.
  destruct (Py.sorted sort_key l) as [l'|] eqn:E.
  - exists l'. split; [reflexivity|]. now apply sorted_perm in E.
  - now exists l.
Qed.

Lemma hashed_text_length (l : list json) :
  l <> [] ->
  String.length (hashed_text (JList l))
  = list_sum (map (fun x => (String.length (Py.dumps x) + 2)%nat) l).
Proof.
  intros Hne. unfold hashed_text, json_str.
  destruct l as [|x l]; [congruence|]. simpl negb. cbv iota.
  destruct (sorted_data_rows (x :: l)) as (l' & -> & Hp).
  rewrite dumps_list_length.
  - apply list_sum_perm, Permutation_map. now symmetry.
  - intros ->. apply Permutation_sym, Permutation_nil in Hp. discriminate.
Qed.

Lemma hashed_text_grows (R1 R2 : list json) (new : json) :
  hashed_text (JList (R1 ++ new :: R2)) <> hashed_text (JList (R1 ++ R2)).
Proof.
  intros H.
  destruct (R1 ++ R2) as [|y R] eqn:E.
  - apply app_eq_nil in E as [-> ->]. change ([] ++ [new]) with [new] in H. revert H.
    unfold hashed_text, json_str. simpl negb. cbv iota.
    destruct (sorted_data_rows [new]) as (l' & -> & _).
    change (Py.dumps (JList l')) with ("[" +:+ PyStr.join ", " (map Py.dumps l') +:+ "]").
    discriminate.
  - apply (f_equal String.length) in H.
    rewrite !hashed_text_length in H; [|discriminate|now destruct R1].
    rewrite <- E in H. rewrite !map_app, !list_sum_app in H. simpl in H. lia.
Qed.

End ChangeDetection.

(** C4 (as amended).  A table compared with itself is unchanged.  The text
    hashed for a table with one more row differs from the text hashed
    without it; so, short of a collision of MD5 on these two texts, the
    table with the new row is reported changed, with one added and no
    removed identifier when the identifiers can be put in a set and the
    identifier of the new row is truthy and not among the others. *)
Theorem compare_table_data_classifies
        (rows R1 R2 : list json) (new v : json) (k : Common.idkey) (S : gset Common.idkey) :
  Common.compare_table_data (JList rows) (JList rows)
  = Ok (Common.Same (Common.calculate_table_hash (JList rows))) /\
  Common.hashed_text (JList (R1 ++ new :: R2)) <> Common.hashed_text (JList (R1 ++ R2)) /\
  (Common.id_set (R1 ++ R2) = Ok S ->
   Py.get new "id" = Ok v -> Py.truthy v = true -> Common.id_elem v = Ok k ->
   k ∉ S ->
   (MD5.hexdigest (Common.hashed_text (JList (R1 ++ new :: R2)))
    = MD5.hexdigest (Common.hashed_text (JList (R1 ++ R2))) ->
    Common.hashed_text (JList (R1 ++ new :: R2))
    = Common.hashed_text (JList (R1 ++ R2))) ->
   Common.compare_table_data (JList (R1 ++ new :: R2)) (JList (R1 ++ R2))
   = Ok (Common.Differs (Common.calculate_table_hash (JList (R1 ++ new :: R2)))
                        1 0
                        (Z.of_nat (length (R1 ++ new :: R2)))
                        (Z.of_nat (length (R1 ++ R2))))).
Proof.
  split; [|split].
  - unfold Common.compare_table_data. now rewrite String.eqb_refl.
  - apply hashed_text_grows.
  - intros HS Hget Htr Hk Hfresh Hmd5.
    assert (Hneq : Common.calculate_table_hash (JList (R1 ++ new :: R2))
                   <> Common.calculate_table_hash (JList (R1 ++ R2))).
    { intros H. apply (hashed_text_grows R1 R2 new), Hmd5.
      unfold Common.calculate_table_hash, Common.hashed_text in *.
      destruct (negb (Py.truthy (JList (R1 ++ new :: R2))));
        destruct (negb (Py.truthy (JList (R1 ++ R2)))); exact H. }
    unfold Common.compare_table_data.
    apply String.eqb_neq in Hneq. rewrite Hneq.
    unfold Common.ids. simpl.
    rewrite (id_set_insert R1 R2 new v k S HS Hget Htr Hk), HS. simpl.
    destruct (size_added k S Hfresh) as [-> ->]. reflexivity.
Qed.

Lemma compare_table_data_classifies_witness :
  Common.compare_table_data
    (JList ([JDict [("id", JInt 1)]] ++ JDict [("id", JInt 5)] :: []))
    (JList ([JDict [("id", JInt 1)]] ++ []))
  = Ok (Common.Differs
          (Common.calculate_table_hash
             (JList ([JDict [("id", JInt 1)]] ++ JDict [("id", JInt 5)] :: [])))
          1 0 2 1).
Proof.
  apply (proj2 (proj2 (compare_table_data_classifies
                  [] [JDict [("id", JInt 1)]] [] (JDict [("id", JInt 5)]) (JInt 5)
                  (inl 5) ({[ inl 1 ]} ∪ ∅)))).
  - reflexivity.
  - reflexivity.
  - reflexivity.
  - reflexivity.
  - set_solver.
  - intros H. vm_compute in H. discriminate.
Defined.

(** C4, as stated, fails: a new row whose identifier is 0 is not counted. *)
Lemma compare_table_data_zero_id :
  Common.compare_table_data (JList [JDict [("id", JInt 0)]]) (JList [])
  = Ok (Common.Differs "3db54f344a9676b034fd5e85c35aec0f" 0 0 1 0).
Proof. vm_compute. reflexivity. Qed.

(** ** Requests sent by the engine *)

Section Requests.

Import Common.

Context {St : Type} (exec : op -> St -> result json * St).

Lemma run_app (ops ops' : list op) (s : St) :
  run exec (ops ++ ops') s = run exec ops' (run exec ops s).
Proof. unfold run. apply fold_left_app. Qed.

Lemma sends_refl (good : op -> Prop) (w : world St) : sends exec good w w.
Proof. exists []. split; [constructor|]. now rewrite app_nil_r. Qed.

Lemma sends_trans (good : op -> Prop) (w1 w2 w3 : world St) :
  sends exec good w1 w2 -> sends exec good w2 w3 -> sends exec good w1 w3.
Proof.
  intros (o1 & F1 & T1 & R1) (o2 & F2 & T2 & R2).
  exists (o1 ++ o2). split; [now apply Forall_app|].
  split.
  - now rewrite T2, T1, app_assoc.
  - now rewrite R2, R1, run_app.
Qed.

Lemma sends_weaken (good good' : op -> Prop) (w w' : world St) :
  (forall o, good o -> good' o) -> sends exec good w w' -> sends exec good' w w'.
Proof.
  intros H (ops & F & T & R). exists ops. split; [|now split].
  eapply Forall_impl; [|exact F]. exact H.
Qed.

Lemma sends_request (good : op -> Prop) (o : op) (w : world St) :
  good o -> sends exec good w (snd (request exec o w)).
Proof.
  intros H. exists [o]. unfold request.
  destruct (exec o (remote w)) as [r s] eqn:E. simpl.
  split; [now repeat constructor|]. split; [reflexivity|].
  unfold run. simpl. now rewrite E.
Qed.

Lemma sends_files_eq (good : op -> Prop) (w w' : world St) :
  sends exec good w (World (remote w') (trace w') (files w)) <-> sends exec good w w'.
Proof. unfold sends. simpl. reflexivity. Qed.

Lemma request_files (o : op) (w : world St) :
  files (snd (request exec o w)) = files w.
Proof. unfold request. now destruct (exec o (remote w)). Qed.

(** A loop sends what its turns send. *)
Lemma sends_fold {A B} (good : op -> Prop) (f : B * world St -> A -> B * world St)
      (l : list A) (acc : B * world St) :
  (forall a x, In x l -> sends exec good (snd a) (snd (f a x))) ->
  sends exec good (snd acc) (snd (fold_left f l acc)).
Proof.
  revert acc. induction l as [|x l IH]; intros acc H; simpl; [apply sends_refl|].
  eapply sends_trans; [apply H; now left|].
  apply IH. intros; apply H; now right.
Qed.

Lemma files_fold {A B} (f : B * world St -> A -> B * world St)
      (l : list A) (acc : B * world St) :
  (forall a x, files (snd (f a x)) = files (snd a)) ->
  files (snd (fold_left f l acc)) = files (snd acc).
Proof.
  revert acc. induction l as [|x l IH]; intros acc H; simpl; [reflexivity|].
  now rewrite IH, H.
Qed.

(** The paginated fetch only reads and leaves the files alone. *)
Lemma fetch_pages_sends (fuel : nat) (table : string) (page_size start : Z)
      (data data' : list json) (w w' : world St) :
  fetch_pages exec fuel table page_size start data w = Some (data', w') ->
  sends exec is_read w w' /\ files w' = files w.
Proof.
  revert start data w. induction fuel as [|fuel IH]; intros start data w; simpl;
    [discriminate|].
  pose proof (sends_request is_read (Select table start (start + page_size - 1)) w I) as Hs.
  pose proof (request_files (Select table start (start + page_size - 1)) w) as Hf.
  destruct (request exec (Select table start (start + page_size - 1)) w) as [r w1].
  simpl in Hs, Hf.
  destruct r as [rows|msg].
  - destruct (negb (Py.truthy rows)); [intros [= <- <-]; now split|].
    destruct (len rows) as [n|]; [|intros [= <- <-]; now split].
    destruct (iter rows) as [items|]; [|intros [= <- <-]; now split].
    destruct (n =? 0); [intros [= <- <-]; now split|].
    destruct (n <? page_size); [intros [= <- <-]; now split|].
    intros H. apply IH in H as [H1 H2]. split.
    + eapply sends_trans; eassumption.
    + congruence.
  - intros [= <- <-]. now split.
Qed.

Lemma get_table_row_counts_sends (tables : list string) (w : world St) :
  sends exec is_read w (snd (get_table_row_counts exec tables w)) /\
  files (snd (get_table_row_counts exec tables w)) = files w.
Proof.
  unfold get_table_row_counts. split.
  - apply (sends_fold is_read _ tables ([], w)).
    intros a x _.
    pose proof (sends_request is_read (Count x) (snd a) I) as Hs.
    destruct (request exec (Count x) (snd a)). exact Hs.
  - apply (files_fold _ tables ([], w)).
    intros a x.
    pose proof (request_files (Count x) (snd a)) as Hf.
    destruct (request exec (Count x) (snd a)). exact Hf.
Qed.

Lemma safety_tables_sends (fuel : nat) (tables : list string)
      (data data' : list (string * json)) (n n' : Z) (w w' : world St) :
  BackupSupabaseSafe.safety_tables exec fuel tables data n w = Some (data', n', w') ->
  sends exec is_read w w' /\ files w' = files w.
Proof.
  revert data n w. induction tables as [|t tables IH]; intros data n w; simpl.
  - intros [= <- <- <-]. split; [apply sends_refl|reflexivity].
  - unfold fetch_table_data.
    destruct (fetch_pages exec fuel t 1000 0 [] w) as [[rows w1]|] eqn:E; [|discriminate].
    apply fetch_pages_sends in E as [E1 E2].
    intros H. apply IH in H as [H1 H2]. split.
    + eapply sends_trans; eassumption.
    + congruence.
Qed.

End Requests.

(** ** Write-back *)

Section WriteBack.

Import Common.

Context {St : Type} (exec : op -> St -> result json * St).



Lemma batches_fuel_spec {A} (n : nat) (fuel : nat) (data : list A) :
  (0 < n)%nat -> (length data <= fuel)%nat ->
  concat (batches_fuel fuel n data) = data /\
  Forall (fun b => (0 < length b <= n)%nat /\ incl b data) (batches_fuel fuel n data).
Proof.
  intros Hn. revert data. induction fuel as [|fuel IH]; intros data Hlen.
  - destruct data; [|simpl in Hlen; lia]. simpl. split; constructor.
  - destruct data as [|x data]; [simpl; split; constructor|].
    change (batches_fuel (S fuel) n (x :: data))
      with (firstn n (x :: data) :: batches_fuel fuel n (skipn n (x :: data))).
    assert (Hsk : (length (skipn n (x :: data)) <= fuel)%nat).
    { rewrite length_skipn. simpl in *. lia. }
    destruct (IH _ Hsk) as [Hc Hf]. split.
    + simpl concat. rewrite Hc. apply firstn_skipn.
    + constructor.
      * split.
        -- rewrite length_firstn. simpl length. lia.
        -- intros y Hy. rewrite <- (firstn_skipn n (x :: data)).
           apply in_or_app. now left.
      * eapply Forall_impl; [|exact Hf]. intros b [Hb Hi]. split; [exact Hb|].
        intros y Hy. rewrite <- (firstn_skipn n (x :: data)).
        apply in_or_app. right. now apply Hi.
Qed.

Lemma batches_spec {A} (n : nat) (data : list A) :
  (0 < n)%nat ->
  concat (batches n data) = data /\
  Forall (fun b => (0 < length b <= n)%nat /\ incl b data) (batches n data).
Proof. intros Hn. now apply batches_fuel_spec. Qed.

Lemma restore_row_total (table : string) (cols : list string)
      (acc : counters * world St) (row : json) :
  Common.total (fst (restore_row exec table cols acc row)) = Common.total (fst acc) + 1.
Proof.
  destruct acc as [c w]. unfold restore_row.
  destruct (request exec (Upsert table row) w) as [[v|msg] w1].
  - unfold Common.total. simpl. lia.
  - destruct (is_duplicate msg).
    + destruct (Py.get row "id") as [id|]; [|unfold Common.total; simpl; lia].
      destruct (Py.truthy id); [|unfold Common.total; simpl; lia].
      destruct (request exec (Update table (filter_row cols row) id) w1) as [[v|m] w2];
        unfold Common.total; simpl; lia.
    + destruct (is_generated msg); unfold Common.total; simpl; lia.
Qed.

Lemma restore_row_fold_total (table : string) (cols : list string)
      (rows : list json) (acc : counters * world St) :
  Common.total (fst (fold_left (restore_row exec table cols) rows acc))
  = Common.total (fst acc) + Z.of_nat (length rows).
Proof.
  revert acc. induction rows as [|r rows IH]; intros acc; simpl fold_left.
  - simpl. lia.
  - rewrite IH, restore_row_total. simpl length. lia.
Qed.

Lemma restore_batch_total (table : string) (cols : list string)
      (acc : counters * world St) (batch : list json) :
  Common.total (fst (restore_batch exec table cols acc batch))
  = Common.total (fst acc) + Z.of_nat (length batch).
Proof.
  destruct acc as [c w]. unfold restore_batch.
  destruct (request exec (Upsert table (JList (map (filter_row cols) batch))) w)
    as [[v|msg] w1].
  - unfold Common.total. simpl. rewrite length_map. lia.
  - rewrite restore_row_fold_total. simpl. now rewrite length_map.
Qed.

Lemma restore_rows_total (table : string) (n : nat) (data : list json) (w : world St) :
  (0 < n)%nat ->
  Common.total (fst (restore_rows exec table n data w)) = Z.of_nat (length data).
Proof.
  intros Hn. unfold restore_rows.
  destruct (batches_spec n data Hn) as [Hc _].
  rewrite <- Hc at 2.
  generalize (batches n data) as bs. intros bs.
  assert (H : forall acc,
             Common.total (fst (fold_left (restore_batch exec table (columns_to_exclude table)) bs acc))
             = Common.total (fst acc) + Z.of_nat (length (concat bs))).
  { induction bs as [|b bs IH]; intros acc; simpl fold_left.
    - simpl. lia.
    - rewrite IH, restore_batch_total. simpl concat. rewrite length_app. lia. }
  rewrite H. unfold Common.total. simpl. lia.
Qed.

(** The requests of the write-back of a table are writes of its rows. *)
Lemma restore_row_sends (table : string) (rows : list json)
      (acc : counters * world St) (row : json) :
  In row (map (filter_row (columns_to_exclude table)) rows) ->
  sends exec (writes_rows table rows) (snd acc)
        (snd (restore_row exec table (columns_to_exclude table) acc row)) /\
  files (snd (restore_row exec table (columns_to_exclude table) acc row)) = files (snd acc).
Proof.
  intros Hin. destruct acc as [c w]. unfold restore_row.
  assert (Hg : writes_rows table rows (Upsert table row)).
  { simpl. split; [reflexivity|now right]. }
  pose proof (sends_request exec _ _ w Hg) as Hs.
  pose proof (request_files exec (Upsert table row) w) as Hf.
  destruct (request exec (Upsert table row) w) as [[v|msg] w1]; simpl in Hs, Hf;
    [now split|].
  destruct (is_duplicate msg); [|destruct (is_generated msg); now split].
  destruct (Py.get row "id") as [id|] eqn:Hid; [|now split].
  destruct (Py.truthy id) eqn:Htr; [|now split].
  assert (Hg2 : writes_rows table rows
                  (Update table (filter_row (columns_to_exclude table) row) id)).
  { simpl. split; [reflexivity|]. exists row. auto. }
  pose proof (sends_request exec _ _ w1 Hg2) as Hs2.
  pose proof (request_files exec
                (Update table (filter_row (columns_to_exclude table) row) id) w1) as Hf2.
  destruct (request exec (Update table (filter_row (columns_to_exclude table) row) id) w1)
    as [[v|m] w2]; simpl in *; (split; [eapply sends_trans; eassumption|congruence]).
Qed.

Lemma restore_batch_sends (table : string) (rows : list json)
      (acc : counters * world St) (batch : list json) :
  incl batch rows ->
  sends exec (writes_rows table rows) (snd acc)
        (snd (restore_batch exec table (columns_to_exclude table) acc batch)) /\
  files (snd (restore_batch exec table (columns_to_exclude table) acc batch))
  = files (snd acc).
Proof.
  intros Hincl. destruct acc as [c w]. unfold restore_batch.
  set (filtered := map (filter_row (columns_to_exclude table)) batch).
  assert (Hi : incl filtered (map (filter_row (columns_to_exclude table)) rows)).
  { intros y Hy. apply in_map_iff in Hy as (x & <- & Hx). apply in_map. now apply Hincl. }
  assert (Hg : writes_rows table rows (Upsert table (JList filtered))).
  { simpl. split; [reflexivity|]. left. now exists filtered. }
  pose proof (sends_request exec _ _ w Hg) as Hs.
  pose proof (request_files exec (Upsert table (JList filtered)) w) as Hf.
  destruct (request exec (Upsert table (JList filtered)) w) as [[v|msg] w1];
    simpl in Hs, Hf; [now split|].
  split.
  - eapply sends_trans; [exact Hs|].
    apply (sends_fold exec _ _ filtered (c, w1)).
    intros a x Hx. apply restore_row_sends. now apply Hi.
  - transitivity (files w1); [|exact Hf].
    assert (H : forall l a, incl l filtered ->
              files (snd (fold_left (restore_row exec table (columns_to_exclude table)) l a))
              = files (snd a)).
    { induction l as [|x l IH]; intros a Hl; simpl; [reflexivity|].
      rewrite IH by (intros z Hz; apply Hl; now right).
      apply (restore_row_sends table rows). apply Hi, Hl. now left. }
    now apply (H filtered (c, w1)).
Qed.

Lemma restore_batches_sends (table : string) (rows : list json)
      (bs : list (list json)) (acc : counters * world St) :
  Forall (fun b => incl b rows) bs ->
  sends exec (writes_rows table rows) (snd acc)
        (snd (fold_left (restore_batch exec table (columns_to_exclude table)) bs acc)) /\
  files (snd (fold_left (restore_batch exec table (columns_to_exclude table)) bs acc))
  = files (snd acc).
Proof.
  revert acc. induction bs as [|b bs IH]; intros acc Hf; simpl fold_left.
  - split; [apply sends_refl|reflexivity].
  - inversion Hf as [|? ? Hb Hf']; subst.
    destruct (restore_batch_sends table rows acc b Hb) as [H1 H2].
    destruct (IH (restore_batch exec table (columns_to_exclude table) acc b) Hf')
      as [H3 H4].
    split; [eapply sends_trans; eassumption|congruence].
Qed.

Lemma restore_rows_sends (table : string) (n : nat) (rows : list json) (w : world St) :
  (0 < n)%nat ->
  sends exec (writes_rows table rows) w (snd (restore_rows exec table n rows w)) /\
  files (snd (restore_rows exec table n rows w)) = files w.
Proof.
  intros Hn. unfold restore_rows.
  apply (restore_batches_sends table rows (batches n rows) (no_counts, w)).
  destruct (batches_spec n rows Hn) as [_ Hf].
  eapply Forall_impl; [|exact Hf]. now intros b [_ Hb].
Qed.

End WriteBack.

Section Escalation.

Import Common.

Context {St : Type} (exec : op -> St -> result json * St).

Lemma request_eq (o : op) (w : world St) :
  request exec o w
  = (fst (exec o (remote w)), World (snd (exec o (remote w))) (trace w ++ [o]) (files w)).
Proof. unfold request. now destruct (exec o (remote w)). Qed.

Lemma restore_row_upserts (table : string) (cols : list string)
      (acc : counters * world St) (row : json) :
  exists ops,
    trace (snd (restore_row exec table cols acc row)) = trace (snd acc) ++ ops /\
    filter is_upsert ops = [Upsert table row].
Proof.
  destruct acc as [c w]. unfold restore_row. rewrite request_eq.
  destruct (exec (Upsert table row) (remote w)) as [[v|msg] s1]; simpl;
    [now exists [Upsert table row]|].
  destruct (is_duplicate msg);
    [|destruct (is_generated msg); now exists [Upsert table row]].
  destruct (Py.get row "id") as [id|]; [|now exists [Upsert table row]].
  destruct (Py.truthy id); [|now exists [Upsert table row]].
  rewrite request_eq. simpl.
  exists [Upsert table row; Update table (filter_row cols row) id].
  destruct (exec (Update table (filter_row cols row) id) s1) as [[v|m] s2]; simpl;
    now rewrite <- app_assoc.
Qed.

Lemma restore_row_fold_upserts (table : string) (cols : list string)
      (rows : list json) (acc : counters * world St) :
  exists ops,
    trace (snd (fold_left (restore_row exec table cols) rows acc))
    = trace (snd acc) ++ ops /\
    filter is_upsert ops = map (Upsert table) rows.
Proof.
  revert acc. induction rows as [|r rows IH]; intros acc; simpl fold_left.
  - exists []. now rewrite app_nil_r.
  - destruct (restore_row_upserts table cols acc r) as (o1 & T1 & F1).
    destruct (IH (restore_row exec table cols acc r)) as (o2 & T2 & F2).
    exists (o1 ++ o2). split.
    + now rewrite T2, T1, app_assoc.
    + rewrite filter_app, F1, F2. reflexivity.
Qed.

End Escalation.




(** ** Restore *)

Section Restore.

Import Common.

Context {St : Type} (exec : op -> St -> result json * St).

Lemma sends_preserves (good : op -> Prop) (P : St -> Prop) (w w' : world St) :
  sends exec good w w' ->
  (forall o s, good o -> P s -> P (snd (exec o s))) ->
  P (remote w) -> P (remote w').
Proof.
  intros (ops & F & _ & R) H. rewrite R. clear R.
  generalize (remote w) as s. induction F as [|o ops Ho F IH]; intros s Hs; simpl.
  - exact Hs.
  - apply IH. now apply H.
Qed.

Lemma sends_ops (good : op -> Prop) (w w' : world St) :
  sends exec good w w' ->
  exists ops, trace w' = trace w ++ ops /\ remote w' = run exec ops (remote w) /\
              forall o, In o ops -> good o.
Proof.
  intros (ops & F & T & R). exists ops. repeat split; try assumption.
  now apply Forall_forall.
Qed.

Lemma classify_write (entry : json) (rows : list json) :
  classify entry = WriteRows rows -> entry = JList rows /\ rows <> [].
Proof.
  unfold classify.
  destruct (Py.has_flag entry "_backup_failed"); [discriminate|].
  destruct (Py.has_flag entry "_unchanged"); [discriminate|].
  destruct entry as [| | | |l|]; try discriminate.
  destruct l; [discriminate|]. intros [= <-]. split; [reflexivity|discriminate].
Qed.

Lemma writes_rows_request (data : list (string * json)) (table : string)
      (entry : json) (rows : list json) (o : op) :
  In (table, entry) data -> classify entry = WriteRows rows ->
  writes_rows table rows o -> restore_request data o.
Proof.
  intros Hin Hc Hw. apply classify_write in Hc as [-> Hne].
  destruct o; simpl in Hw |- *; try contradiction;
    destruct Hw as [-> Hw]; exists (JList rows), rows; simpl; auto.
Qed.

Lemma is_read_request (data : list (string * json)) (o : op) :
  is_read o -> restore_request data o.
Proof. destruct o; simpl; tauto. Qed.

(** A request that writes never addresses a table whose entries are all
    skipped. *)
Lemma restore_request_skipped (data : list (string * json)) (o : op) :
  restore_request data o ->
  (forall entry, In (target o, entry) data -> skipped entry) ->
  is_write o = false.
Proof.
  destruct o; simpl; try reflexivity; try contradiction;
    intros (entry & rows & Hin & -> & Hne & _) Hs;
    destruct (Hs _ Hin) as [H|[H|H]]; try discriminate; congruence.
Qed.

Lemma assoc_In {A} (d : list (string * A)) (k : string) (v : A) :
  Py.assoc d k = Some v -> In (k, v) d.
Proof.
  induction d as [|[k' v'] d IH]; simpl; [discriminate|].
  destruct (String.eqb k' k) eqn:E.
  - apply String.eqb_eq in E. subst. intros [= <-]. now left.
  - intros H. right. now apply IH.
Qed.

(** *** backup_supabase.py *)

Lemma restore_entry_sends (data : list (string * json))
      (acc : Z * list string * world St) (item : string * json) :
  In item data ->
  sends exec (restore_request data) (snd acc)
        (snd (BackupSupabase.restore_entry exec acc item)).
Proof.
  intros Hin. destruct acc as [[n failed] w]. destruct item as [table entry].
  unfold BackupSupabase.restore_entry.
  destruct (classify entry) as [| | | |rows] eqn:Hc; try apply sends_refl.
  destruct (restore_rows_sends exec table 100 rows w) as [Hs _]; [lia|].
  destruct (restore_rows exec table 100 rows w) as [c w1]. simpl in *.
  eapply sends_weaken; [|exact Hs].
  intros o. now apply writes_rows_request with (entry := entry).
Qed.

Lemma backup_supabase_restore_sends (e : env) (backup_file : string) (w : world St) :
  sends exec (restore_request (BackupSupabase.restore_entries (files w) backup_file))
        w (snd (BackupSupabase.restore_backup exec e backup_file w)).
Proof.
  unfold BackupSupabase.restore_backup, BackupSupabase.restore_entries.
  destruct (Fs.find (backups (files w)) backup_file) as [f|]; [|apply sends_refl].
  destruct (negb (dotenv e)); [apply sends_refl|].
  destruct (negb (credentials e)); [apply sends_refl|].
  destruct (backup_data ← Fs.load f; BackupSupabase.effective_data (files w) backup_data)
    as [entries|msg]; [|apply sends_refl].
  pose proof (sends_fold exec (restore_request entries)
                (BackupSupabase.restore_entry exec) entries (0, [], w)) as H.
  destruct (fold_left (BackupSupabase.restore_entry exec) entries (0, [], w))
    as [[n failed] w1].
  apply H. intros a x Hx. now apply restore_entry_sends.
Qed.

(** *** the safety backup *)

Lemma create_safety_backup_safe_sends (fuel : nat) (e : env) (w w1 : world St)
      (r : option string) :
  BackupSupabaseSafe.create_safety_backup exec fuel e w = Some (r, w1) ->
  sends exec is_read w w1 /\ backups (files w1) = backups (files w).
Proof.
  unfold BackupSupabaseSafe.create_safety_backup.
  destruct (negb (dotenv e)); [intros [= <- <-]; split; [apply sends_refl|reflexivity]|].
  destruct (negb (credentials e));
    [intros [= <- <-]; split; [apply sends_refl|reflexivity]|].
  destruct (BackupSupabaseSafe.safety_tables exec fuel (all_tables e) [] 0 w)
    as [[[data n] w2]|] eqn:E; [|discriminate].
  apply safety_tables_sends in E as [E1 E2].
  destruct (negb (writable e)); intros [= <- <-]; simpl; [now rewrite E2|].
  split; [exact E1|now rewrite E2].
Qed.

Lemma create_safety_backup_sends (fuel : nat) (e : env) (w w1 : world St)
      (r : option string) :
  SupabaseBackup.create_safety_backup exec fuel e w = Some (r, w1) ->
  sends exec is_read w w1 /\ backups (files w1) = backups (files w).
Proof.
  unfold SupabaseBackup.create_safety_backup.
  destruct (negb (dotenv e)); [intros [= <- <-]; split; [apply sends_refl|reflexivity]|].
  destruct (negb (credentials e));
    [intros [= <- <-]; split; [apply sends_refl|reflexivity]|].
  destruct (BackupSupabaseSafe.safety_tables exec fuel (all_tables e) [] 0 w)
    as [[[data n] w2]|] eqn:E; [|discriminate].
  apply safety_tables_sends in E as [E1 E2].
  destruct (negb (writable e)); intros [= <- <-]; simpl; [now rewrite E2|].
  split; [exact E1|now rewrite E2].
Qed.

End Restore.

Section RestoreAllInOne.

Import Common.

Context {St : Type} (exec : op -> St -> result json * St).

Lemma mapM_result_Forall2 {A B} (f : A -> result B) (l : list A) (k : list B) :
  mapM f l = Ok k -> Forall2 (fun x y => f x = Ok y) l k.
Proof.
  revert k. induction l as [|x l IH]; intros k; simpl.
  - intros [= <-]. constructor.
  - destruct (f x) as [y|] eqn:E; simpl; [|discriminate].
    destruct (mapM f l) as [k'|]; simpl; [|discriminate].
    intros [= <-]. constructor; [exact E|now apply IH].
Qed.

Lemma table_tasks_ok (data : json) (table : string)
      (failed : list (string * string)) (tasks : list (string * list json * list string)) :
  SupabaseBackup.table_tasks data table = Ok (failed, tasks) ->
  tasks = [] \/ exists entries, data = JDict entries /\ Forall (SupabaseBackup.task_ok entries) tasks.
Proof.
  unfold SupabaseBackup.table_tasks.
  destruct data as [| | | | |entries]; simpl; try discriminate.
  destruct (classify (Py.dict_get entries table JNull)) as [| | | |rows] eqn:Hc; simpl;
    try (intros [= <- <-]; now left).
  - destruct (len (Py.dict_get entries table JNull)); simpl; [|discriminate].
    intros [= <- <-]. now left.
  - intros [= <- <-]. right. exists entries. split; [reflexivity|].
    apply Forall_forall. intros task Ht. apply in_map_iff in Ht as (batch & <- & Hb).
    split; [reflexivity|].
    exists (Py.dict_get entries table JNull), rows. repeat split; try assumption.
    + unfold Py.dict_get in *. destruct (Py.assoc entries table) eqn:Ha.
      * now apply assoc_In.
      * discriminate.
    + destruct (batches_spec SupabaseBackup.DEFAULT_BATCH_SIZE rows) as [_ Hf];
        [unfold SupabaseBackup.DEFAULT_BATCH_SIZE; lia|].
      rewrite Forall_forall in Hf. now apply Hf.
Qed.

Lemma restore_tasks_ok (data : json) (tables : list string)
      (failed : list (string * string)) (tasks : list (string * list json * list string)) :
  SupabaseBackup.restore_tasks data tables = Ok (failed, tasks) ->
  tasks = [] \/ exists entries, data = JDict entries /\ Forall (SupabaseBackup.task_ok entries) tasks.
Proof.
  unfold SupabaseBackup.restore_tasks.
  destruct (mapM (SupabaseBackup.table_tasks data) tables) as [l|] eqn:E; simpl;
    [|discriminate].
  intros [= <- <-]. apply mapM_result_Forall2 in E.
  destruct data as [| | | | |entries];
    try (left; induction E as [|t p ts l Ht E IH]; [reflexivity|];
         simpl; rewrite IH; destruct p as [fl tk];
         apply table_tasks_ok in Ht as [->|(? & ? & _)]; [reflexivity|discriminate]).
  right. exists entries. split; [reflexivity|].
  induction E as [|t p ts l Ht E IH]; simpl; [constructor|].
  apply Forall_app. split; [|exact IH].
  destruct p as [fl tk]. apply table_tasks_ok in Ht as [->|(en & [= <-] & Hf)];
    [constructor|exact Hf].
Qed.

Lemma run_task_sends (entries : list (string * json))
      (acc : list (string * counters) * world St)
      (task : string * list json * list string) :
  SupabaseBackup.task_ok entries task ->
  sends exec (restore_request entries) (snd acc) (snd (SupabaseBackup.run_task exec acc task)) /\
  files (snd (SupabaseBackup.run_task exec acc task)) = files (snd acc).
Proof.
  destruct acc as [results w]. destruct task as [[table batch] cols].
  intros (-> & entry & rows & Hin & Hc & Hb).
  unfold SupabaseBackup.run_task, SupabaseBackup.restore_table_batch.
  destruct (restore_batch_sends exec table rows (no_counts, w) batch Hb) as [Hs Hf].
  destruct (restore_batch exec table (columns_to_exclude table) (no_counts, w) batch)
    as [c w1]. simpl in *. split; [|exact Hf].
  eapply sends_weaken; [|exact Hs].
  intros o. now apply writes_rows_request with (entry := entry).
Qed.

Lemma run_tasks_sends (entries : list (string * json))
      (tasks : list (string * list json * list string))
      (acc : list (string * counters) * world St) :
  Forall (SupabaseBackup.task_ok entries) tasks ->
  sends exec (restore_request entries) (snd acc)
        (snd (fold_left (SupabaseBackup.run_task exec) tasks acc)) /\
  files (snd (fold_left (SupabaseBackup.run_task exec) tasks acc)) = files (snd acc).
Proof.
  revert acc. induction tasks as [|t tasks IH]; intros acc Hf; simpl fold_left.
  - split; [apply sends_refl|reflexivity].
  - inversion Hf as [|? ? Ht Hf']; subst.
    destruct (run_task_sends entries acc t Ht) as [H1 H2].
    destruct (IH (SupabaseBackup.run_task exec acc t) Hf') as [H3 H4].
    split; [eapply sends_trans; eassumption|congruence].
Qed.

Lemma bind_Ok {A B} (m : result A) (f : A -> result B) (y : B) :
  (x ← m; f x) = Ok y -> exists x, m = Ok x /\ f x = Ok y.
Proof. destruct m as [x|]; simpl; [|discriminate]. intros H. now exists x. Qed.

Lemma restore_steps_sends (e : env) (backup_file : string) (f : file)
      (safety : option string) (w : world St) :
  SupabaseBackup.find_backup (files w) backup_file = Some f ->
  sends exec (restore_request (SupabaseBackup.restore_entries (files w) backup_file))
        w (snd (SupabaseBackup.restore_steps exec e backup_file f safety w)).
Proof.
  intros Hfind.
  remember (SupabaseBackup.restore_entries (files w) backup_file) as entries eqn:Hen.
  unfold SupabaseBackup.restore_steps.
  destruct (negb (credentials e)); [apply sends_refl|].
  match goal with
  | |- context [match ?X with Ok _ => _ | Raise _ => _ end] =>
      destruct X as [[backup_data [[valid errs] warns]]|] eqn:E1
  end; [|apply sends_refl].
  destruct valid; [|apply sends_refl].
  match goal with
  | |- context [match ?X with Ok _ => _ | Raise _ => _ end] =>
      destruct X as [tables|] eqn:E2
  end; [|apply sends_refl].
  destruct (get_table_row_counts_sends exec tables w) as [Hc Hcf].
  destruct (get_table_row_counts exec tables w) as [before w1]. simpl in Hc, Hcf.
  rewrite Hcf.
  assert (Hr : sends exec (restore_request entries) w w1).
  { eapply sends_weaken; [|exact Hc]. apply is_read_request. }
  match goal with
  | |- context [match ?X with Ok _ => _ | Raise _ => _ end] =>
      destruct X as [[failed tasks]|] eqn:E3
  end; [|exact Hr].
  apply bind_Ok in E3 as (data & Hd & Ht).
  assert (Hok : Forall (SupabaseBackup.task_ok entries) tasks).
  { apply restore_tasks_ok in Ht as [->|(en & -> & Hf)]; [constructor|].
    apply bind_Ok in E1 as (bd & Hl & E1).
    assert (bd = backup_data) as ->.
    { repeat (apply bind_Ok in E1 as (? & _ & E1)). now injection E1. }
    unfold SupabaseBackup.restore_entries in Hen. rewrite Hfind, Hl in Hen.
    simpl in Hen. rewrite Hd in Hen. now subst. }
  destruct (run_tasks_sends entries tasks ([], w1) Hok) as [Hs Hsf].
  destruct (fold_left (SupabaseBackup.run_task exec) tasks ([], w1)) as [results w2].
  simpl in Hs, Hsf.
  destruct (get_table_row_counts_sends exec tables w2) as [Ha Haf].
  destruct (get_table_row_counts exec tables w2) as [after w3]. simpl in *.
  assert (Hall : sends exec (restore_request entries) w w3).
  { eapply sends_trans; [exact Hr|]. eapply sends_trans; [exact Hs|].
    eapply sends_weaken; [|exact Ha]. apply is_read_request. }
  now destruct (negb (writable e)).
Qed.

Lemma restore_entries_backups (d d' : disk) (backup_file : string) :
  backups d' = backups d ->
  SupabaseBackup.restore_entries d' backup_file = SupabaseBackup.restore_entries d backup_file.
Proof.
  intros H. unfold SupabaseBackup.restore_entries, SupabaseBackup.find_backup,
    SupabaseBackup.effective_data, SupabaseBackup.find_backup. now rewrite H.
Qed.

Lemma restore_backup_sends (fuel : nat) (e : env) (backup_file : string) (skip : bool)
      (w w' : world St) (ok : bool) (safety : option string) (r : Common.report) :
  SupabaseBackup.restore_backup exec fuel e backup_file skip w = Some (ok, safety, r, w') ->
  sends exec (restore_request (SupabaseBackup.restore_entries (files w) backup_file)) w w'.
Proof.
  unfold SupabaseBackup.restore_backup.
  destruct (SupabaseBackup.find_backup (files w) backup_file) as [f|] eqn:Hfind;
    [|intros [= <- <- <- <-]; apply sends_refl].
  destruct (negb (dotenv e)); [intros [= <- <- <- <-]; apply sends_refl|].
  destruct skip.
  - pose proof (restore_steps_sends e backup_file f None w Hfind) as Hs.
    destruct (SupabaseBackup.restore_steps exec e backup_file f None w) as [[ok' r'] w1].
    intros [= <- <- <- <-]. exact Hs.
  - destruct (SupabaseBackup.create_safety_backup exec fuel e w) as [[[s|] w1]|] eqn:Hsafe;
      [| |discriminate].
    + apply create_safety_backup_sends in Hsafe as [Hs1 Hb].
      assert (Hfind1 : SupabaseBackup.find_backup (files w1) backup_file = Some f).
      { unfold SupabaseBackup.find_backup in *. now rewrite Hb. }
      pose proof (restore_steps_sends e backup_file f (Some s) w1 Hfind1) as Hs.
      rewrite (restore_entries_backups _ _ _ Hb) in Hs.
      destruct (SupabaseBackup.restore_steps exec e backup_file f (Some s) w1)
        as [[ok' r'] w2].
      intros [= <- <- <- <-]. simpl in Hs.
      eapply sends_trans; [|exact Hs].
      eapply sends_weaken; [|exact Hs1]. apply is_read_request.
    + apply create_safety_backup_sends in Hsafe as [Hs1 _].
      intros [= <- <- <- <-].
      eapply sends_weaken; [|exact Hs1]. apply is_read_request.
Qed.

End RestoreAllInOne.



(** ** Restore without a safety backup *)

(** C6.  When the safety backup cannot be created and the caller has not
    asked to skip it, the restore returns failure at once, with no safety
    file and an empty log, and nothing but the reads of the attempted safety
    backup has been sent to the store. *)
Theorem restore_needs_safety_backup {St : Type} (exec : op -> St -> result json * St)
        (fuel : nat) (e : env) (backup_file : string) (w w1 : world St) :
  (BackupSupabaseSafe.create_safety_backup exec fuel e w = Some (None, w1) ->
   exists w',
     BackupSupabaseSafe.restore_backup_safe exec fuel e backup_file false w
     = Some (false, None, Common.NoReport, w') /\
     Common.sends exec Common.is_read w w') /\
  (SupabaseBackup.create_safety_backup exec fuel e w = Some (None, w1) ->
   exists w',
     SupabaseBackup.restore_backup exec fuel e backup_file false w
     = Some (false, None, Common.NoReport, w') /\
     Common.sends exec Common.is_read w w').
Proof.
  split; intros H.
  - unfold BackupSupabaseSafe.restore_backup_safe.
    destruct (Fs.find (backups (files w)) backup_file);
      [|eexists; split; [reflexivity|apply sends_refl]].
    destruct (negb (dotenv e)); [eexists; split; [reflexivity|apply sends_refl]|].
    rewrite H. eexists; split; [reflexivity|].
    now apply create_safety_backup_safe_sends in H as [H _].
  - unfold SupabaseBackup.restore_backup.
    destruct (SupabaseBackup.find_backup (files w) backup_file);
      [|eexists; split; [reflexivity|apply sends_refl]].
    destruct (negb (dotenv e)); [eexists; split; [reflexivity|apply sends_refl]|].
    rewrite H. eexists; split; [reflexivity|].
    now apply create_safety_backup_sends in H as [H _].
Qed.

Lemma restore_needs_safety_backup_witness :
  exists w',
    BackupSupabaseSafe.restore_backup_safe
      Example.exec 5 Example.read_only Example.backup1 false
      (Example.clean Example.store1 Example.disk1)
    = Some (false, None, Common.NoReport, w') /\
    Common.sends Example.exec Common.is_read
                 (Example.clean Example.store1 Example.disk1) w'.
Proof.
  eapply (proj1 (restore_needs_safety_backup
                   Example.exec 5 Example.read_only Example.backup1
                   (Example.clean Example.store1 Example.disk1) _)).
  reflexivity.
Defined.

(** ** Validation *)

Section Validation.

Import Common.

Lemma validate_missing_metadata (d : list (string * json)) :
  Py.truthy (Py.dict_get d "metadata" JNull) = false ->
  validate_backup_data (JDict d) = Ok (false, ["Missing metadata in backup"], []).
Proof. intros H. unfold validate_backup_data. simpl. now rewrite H. Qed.

Lemma validate_missing_data (d : list (string * json)) :
  Py.truthy (Py.dict_get d "metadata" JNull) = true ->
  Py.truthy (Py.dict_get d "data" JNull) = false ->
  validate_backup_data (JDict d) = Ok (false, ["Missing data in backup"], []).
Proof. intros H1 H2. unfold validate_backup_data. simpl. now rewrite H1, H2. Qed.

Lemma validate_present (d : list (string * json)) (valid : bool)
      (errs warns : list string) :
  Py.truthy (Py.dict_get d "metadata" JNull) = true ->
  Py.truthy (Py.dict_get d "data" JNull) = true ->
  validate_backup_data (JDict d) = Ok (valid, errs, warns) ->
  valid = true /\ errs = [].
Proof.
  intros H1 H2. unfold validate_backup_data. simpl. rewrite H1, H2. simpl.
  destruct (Py.dict_get d "data" JNull); simpl; try discriminate.
  intros [= <- <- <-]. now split.
Qed.

End Validation.

Section Proceeds.

Import Common.

Context {St : Type} (exec : op -> St -> result json * St).

Lemma restore_steps_proceeds (e : env) (f : file) (safety : option string)
      (w : world St) (backup_data : json) (warns : list string) :
  Fs.load f = Ok backup_data ->
  validate_backup_data backup_data = Ok (true, [], warns) ->
  forall errs' warns',
    snd (fst (BackupSupabaseSafe.restore_steps exec e f safety w)) <> Invalid errs' warns'.
Proof.
  intros Hl Hv errs' warns'. unfold BackupSupabaseSafe.restore_steps.
  destruct (negb (credentials e)); [simpl; discriminate|].
  rewrite Hl. simpl. rewrite Hv. simpl.
  match goal with
  | |- context [match ?X with Ok _ => _ | Raise _ => _ end] => destruct X as [tables|]
  end; [|simpl; discriminate].
  destruct (get_table_row_counts exec tables w) as [before w1].
  destruct (BackupSupabaseSafe.effective_data (files w1) backup_data) as [data|];
    [|simpl; discriminate].
  destruct (BackupSupabaseSafe.restore_tables exec data tables
              (RestoreLog (name f) safety before [] [] 0 0 0 [], w1))
    as [[[log w2']|] w2]; [|simpl; discriminate].
  destruct (get_table_row_counts exec tables w2) as [after w3].
  destruct (negb (BackupSupabaseSafe.compared after (tables_restored log)));
    [simpl; discriminate|].
  destruct (negb (writable e)); simpl; discriminate.
Qed.

End Proceeds.

Section Warnings.

Import Common.

Lemma validate_warnings (d entries : list (string * json)) :
  Py.truthy (Py.dict_get d "metadata" JNull) = true ->
  Py.dict_get d "data" JNull = JDict entries -> entries <> [] ->
  validate_backup_data (JDict d)
  = Ok (true, [],
        map (fun t => "Critical table '" +:+ t +:+ "' not found in backup")
            (filter (fun t => negb (Py.has_key entries t)) critical_tables)
        ++ concat (map table_warnings entries)).
Proof.
  intros Hm Hd Hne. unfold validate_backup_data. simpl. rewrite Hm, Hd. simpl.
  destruct entries; [contradiction|reflexivity].
Qed.

End Warnings.




(** ** Retention *)

Section Prune.

Context (is_backup : string -> bool) (summary_name : string -> string).

Lemma named_In (ns : list string) (n : string) : Fs.named ns n = true <-> In n ns.
Proof.
  unfold Fs.named. rewrite existsb_exists. split.
  - intros (m & Hm & E). apply String.eqb_eq in E. now subst.
  - intros H. exists n. split; [exact H|apply String.eqb_refl].
Qed.

Lemma fold_delete (l : list file) (d : disk) :
  fold_left (Fs.delete_with summary_name) l d
  = Disk (filter (fun f => negb (Fs.named (map name l) (name f))) (backups d))
         (safety_backups d)
         (filter (fun n => negb (Fs.named (map (fun f => summary_name (name f)) l) n))
                 (summaries d)).
Proof.
  revert d. induction l as [|x l IH]; intros d; simpl.
  - destruct d as [b s m]. simpl. f_equal; symmetry.
    + apply forallb_filter_id. now apply forallb_forall.
    + apply forallb_filter_id. now apply forallb_forall.
  - rewrite IH. unfold Fs.delete_with, Fs.unlink, Fs.remove_name. simpl. f_equal.
    + rewrite filter_twice. apply filter_ext. intros f. unfold Fs.named. simpl.
      now rewrite negb_orb, (String.eqb_sym (name f) (name x)).
    + rewrite filter_twice. apply filter_ext. intros n. unfold Fs.named. simpl.
      now rewrite negb_orb, (String.eqb_sym n (summary_name (name x))).
Qed.

Lemma newest_first_sorted (l : list file) :
  StronglySorted (fun a b => mtime b <= mtime a) (Fs.newest_first l).
Proof.
  apply Sorted_StronglySorted; [intros a b c ? ?; lia|].
  unfold Fs.newest_first.
  assert (H : Sorted (fun a b : file => (mtime a <? mtime b) = false)
                     (Py.sort_by (fun a b : file => mtime b <? mtime a) l)).
  { apply (sort_by_sorted (fun a b : file => mtime b <? mtime a)).
    intros a b H. apply Z.ltb_lt in H. apply Z.ltb_ge. lia. }
  induction H as [|a l0 Hs IH Hd]; constructor; [exact IH|].
  destruct Hd as [|b l1 Hb]; constructor. now apply Z.ltb_ge in Hb.
Qed.

Lemma prune_spec (n : nat) (d : disk) :
  NoDup (map name (backups d)) ->
  (n < length (Fs.listed is_backup d))%nat ->
  let d' := fold_left (Fs.delete_with summary_name) (skipn n (Fs.listed is_backup d)) d in
  Fs.listed is_backup d' = firstn n (Fs.listed is_backup d) /\
  length (Fs.listed is_backup d') = n /\
  (forall a b, In a (Fs.listed is_backup d') -> In b (skipn n (Fs.listed is_backup d)) -> mtime b <= mtime a) /\
  (forall b, In b (skipn n (Fs.listed is_backup d)) ->
             Fs.find (backups d') (name b) = None /\
             ~ In (summary_name (name b)) (summaries d')).
Proof.
  intros Hnd Hlen d'.
  assert (Hd' : d' = fold_left (Fs.delete_with summary_name) (skipn n (Fs.listed is_backup d)) d) by reflexivity.
  rewrite fold_delete in Hd'.
  set (gone := map name (skipn n (Fs.listed is_backup d))) in *.
  assert (Hperm : Permutation (filter (fun f => is_backup (name f)) (backups d)) (Fs.listed is_backup d)).
  { apply sort_by_perm. }
  assert (Hnd' : NoDup (map name (Fs.listed is_backup d))).
  { eapply Permutation_NoDup; [apply Permutation_map, Hperm|].
    rewrite <- filter_map_swap with (f := is_backup) (g := name) at 1.
    now apply NoDup_filter. }
  assert (Hkeep : filter (fun f => negb (Fs.named gone (name f))) (Fs.listed is_backup d)
                  = firstn n (Fs.listed is_backup d)).
  { rewrite <- (firstn_skipn n (Fs.listed is_backup d)) at 1.
    rewrite <- (firstn_skipn n (Fs.listed is_backup d)) in Hnd'.
    rewrite map_app in Hnd'.
    assert (Hk1 : filter (fun f => negb (Fs.named gone (name f))) (firstn n (Fs.listed is_backup d))
                  = firstn n (Fs.listed is_backup d)).
    { apply forallb_filter_id, forallb_forall. intros f Hf.
      apply negb_true_iff, Bool.not_true_iff_false. intros Hn. apply named_In in Hn.
      apply (NoDup_app_disjoint _ _ (name f) Hnd'); [now apply in_map|exact Hn]. }
    assert (Hk2 : filter (fun f => negb (Fs.named gone (name f))) (skipn n (Fs.listed is_backup d)) = []).
    { apply filter_none. intros f Hf. apply negb_false_iff, named_In. now apply in_map. }
    now rewrite filter_app, Hk1, Hk2, app_nil_r. }
  assert (Hlisted : Fs.listed is_backup d' = firstn n (Fs.listed is_backup d)).
  { rewrite <- Hkeep. rewrite Hd'. unfold Fs.listed at 1. simpl.
    rewrite filter_twice.
    rewrite (filter_ext (fun f => negb (Fs.named gone (name f)) && is_backup (name f))
               (fun f => is_backup (name f) && negb (Fs.named gone (name f))))
      by (intros; apply andb_comm).
    rewrite <- filter_twice.
    unfold Fs.newest_first.
    rewrite sort_by_filter; [reflexivity| |].
    - intros a b H. apply Z.ltb_lt in H. apply Z.ltb_ge. lia.
    - intros a b c. rewrite !Z.ltb_ge. lia. }
  repeat split.
  - exact Hlisted.
  - rewrite Hlisted, length_firstn. lia.
  - intros a b Ha Hb. rewrite Hlisted in Ha.
    pose proof (newest_first_sorted
                  (filter (fun f => is_backup (name f)) (backups d))) as Hs.
    fold (Fs.listed is_backup d) in Hs. rewrite <- (firstn_skipn n (Fs.listed is_backup d)) in Hs.
    apply (StronglySorted_app_1_elem_of _ _ _ a b Hs); now apply list_elem_of_In.
  - destruct (Fs.find (backups d') (name b)) as [f|] eqn:Hf; [|reflexivity].
    exfalso. rewrite Hd' in Hf. simpl in Hf.
    assert (Hfind : forall l x, Fs.find l (name b) = Some x -> In x l /\ name x = name b).
    { induction l as [|y l IH]; simpl; [discriminate|].
      destruct (String.eqb (name y) (name b)) eqn:E.
      - intros x [= <-]. apply String.eqb_eq in E. auto.
      - intros x Hx. destruct (IH x Hx). auto. }
    apply Hfind in Hf as [Hin Hname]. apply filter_In in Hin as [_ Hneg].
    apply negb_true_iff, Bool.not_true_iff_false in Hneg. apply Hneg.
    apply named_In. rewrite Hname. now apply in_map.
  - rewrite Hd'. simpl. intros Hin. apply filter_In in Hin as [_ Hneg].
    apply negb_true_iff, Bool.not_true_iff_false in Hneg. apply Hneg.
    apply named_In. now apply (in_map (fun f => summary_name (name f))).
Qed.

End Prune.

(** C9 (as amended).  When more than [keep_count] backup files exist (file
    names being unique), pruning leaves exactly the [keep_count] newest of
    them, every deleted file being at most as recent as every file kept;
    the deleted files and their summaries are gone; the default count is
    288, a day of runs five minutes apart.  Pruning goes by age alone. *)
Theorem retention_keeps_newest (d : disk) (keep_count : nat) :
  NoDup (map name (backups d)) ->
  ((keep_count < length (BackupSupabase.backup_files d))%nat ->
   let d' := BackupSupabase.cleanup_old_backups keep_count d in
   let dropped := skipn keep_count (BackupSupabase.backup_files d) in
   BackupSupabase.backup_files d' = firstn keep_count (BackupSupabase.backup_files d) /\
   length (BackupSupabase.backup_files d') = keep_count /\
   (forall a b, In a (BackupSupabase.backup_files d') -> In b dropped ->
                mtime b <= mtime a) /\
   (forall b, In b dropped ->
              Fs.find (backups d') (name b) = None /\
              ~ In (BackupSupabase.summary_name (name b)) (summaries d'))) /\
  ((keep_count < length (SupabaseBackup.backup_files d))%nat ->
   let d' := SupabaseBackup.cleanup_old_backups keep_count d in
   let dropped := skipn keep_count (SupabaseBackup.backup_files d) in
   SupabaseBackup.backup_files d' = firstn keep_count (SupabaseBackup.backup_files d) /\
   length (SupabaseBackup.backup_files d') = keep_count /\
   (forall a b, In a (SupabaseBackup.backup_files d') -> In b dropped ->
                mtime b <= mtime a) /\
   (forall b, In b dropped ->
              Fs.find (backups d') (name b) = None /\
              ~ In (SupabaseBackup.summary_name (name b)) (summaries d'))) /\
  BackupSupabase.default_keep_count = 288%nat /\
  SupabaseBackup.default_keep_count = 288%nat /\
  Z.of_nat BackupSupabase.default_keep_count * 5 = 24 * 60.
Proof.
  intros Hnd. repeat apply conj; try reflexivity.
  - intros Hlen. unfold BackupSupabase.cleanup_old_backups.
    apply Nat.ltb_lt in Hlen as Hlt. rewrite Hlt.
    apply (prune_spec BackupSupabase.is_backup_name BackupSupabase.summary_name
                      keep_count d Hnd Hlen).
  - intros Hlen. unfold SupabaseBackup.cleanup_old_backups.
    apply Nat.ltb_lt in Hlen as Hlt. rewrite Hlt.
    apply (prune_spec SupabaseBackup.is_backup_name SupabaseBackup.summary_name
                      keep_count d Hnd Hlen).
Qed.

Lemma retention_keeps_newest_witness :
  BackupSupabase.backup_files (BackupSupabase.cleanup_old_backups 2 Example.disk3)
  = firstn 2 (BackupSupabase.backup_files Example.disk3).
Proof.
  apply (proj1 (retention_keeps_newest Example.disk3 2
                  ltac:(vm_compute; repeat constructor; simpl; intuition discriminate))).
  vm_compute. lia.
Defined.

(** C9, as stated, fails: with two backups and a count of one, the newer
    backup survives with a marker for [users] that refers to the deleted
    one, and its rows can no longer be obtained. *)
Lemma pruning_breaks_reference :
  let d' := BackupSupabase.cleanup_old_backups 1 Example.disk2 in
  map name (backups d') = [Example.backup2] /\
  Example.stored_entry d' Example.backup2 "users"
  = Ok (Example.marker "20240101_000000" "eb65096318cde043d01691ec03e3f24b") /\
  Fs.find (backups d') Example.backup1 = None /\
  Common.entry_of (SupabaseBackup.restore_entries Example.disk2 Example.backup2) "users"
  = JList Example.users /\
  Common.entry_of (SupabaseBackup.restore_entries d' Example.backup2) "users"
  = Example.marker "20240101_000000" "eb65096318cde043d01691ec03e3f24b".
Proof. vm_compute. repeat split. Qed.

(** ** Incremental references *)

Section References.

Import Common.

Lemma merge_unchanged_ok (prev : json) (pd entries : list (string * json)) :
  Py.subscript prev "data" = Ok (JDict pd) ->
  merge_unchanged prev entries = Ok (map (merged_item pd) entries).
Proof.
  intros Hpd. unfold merge_unchanged. apply mapM_ok.
  intros [t v] _. unfold merged_item. simpl.
  destruct (Py.has_flag v "_unchanged"); [|reflexivity].
  rewrite Hpd. reflexivity.
Qed.

Lemma assoc_merged (pd entries : list (string * json)) (table : string) :
  Py.assoc (map (merged_item pd) entries) table
  = option_map (fun v => snd (merged_item pd (table, v))) (Py.assoc entries table).
Proof.
  induction entries as [|[t v] entries IH]; simpl; [reflexivity|].
  assert (Hfst : fst (merged_item pd (t, v)) = t).
  { unfold merged_item. simpl. now destruct (Py.has_flag v "_unchanged"). }
  destruct (merged_item pd (t, v)) as [t' v'] eqn:E. simpl in Hfst. subst t'.
  destruct (String.eqb t table) eqn:Et; [|exact IH].
  apply String.eqb_eq in Et. subst t. simpl. now rewrite E.
Qed.

Lemma has_flag_assoc (entries : list (string * json)) (table flag : string) :
  Py.has_flag (entry_of entries table) flag = true ->
  exists v, Py.assoc entries table = Some v /\ Py.has_flag v flag = true.
Proof.
  unfold entry_of, Py.dict_get. destruct (Py.assoc entries table) as [v|]; [|discriminate].
  intros H. now exists v.
Qed.

Lemma In_assoc_NoDup {A} (d : list (string * A)) (k : string) (v : A) :
  NoDup (map fst d) -> In (k, v) d -> Py.assoc d k = Some v.
Proof.
  induction d as [|[k' v'] d IH]; simpl; [tauto|].
  intros Hnd [[= -> ->]|Hin]; [now rewrite String.eqb_refl|].
  inversion Hnd as [|? ? Hnotin Hnd']; subst.
  destruct (String.eqb k' k) eqn:E; [|now apply IH].
  apply String.eqb_eq in E. subst k'. exfalso. apply Hnotin.
  apply in_map_iff. now exists (k, v).
Qed.

Lemma merged_names (pd entries : list (string * json)) :
  map fst (map (merged_item pd) entries) = map fst entries.
Proof.
  rewrite map_map. apply map_ext. intros [t v]. unfold merged_item. simpl.
  now destruct (Py.has_flag v "_unchanged").
Qed.

Lemma table_tasks_failed (data : json) (t : string) (fl : list (string * string))
      (tk : list (string * list json * list string)) (x : string * string) :
  SupabaseBackup.table_tasks data t = Ok (fl, tk) -> In x fl -> fst x = t.
Proof.
  unfold SupabaseBackup.table_tasks.
  destruct (Py.get data t) as [entry|]; simpl; [|discriminate].
  destruct (classify entry); simpl; try (intros [= <- <-]; simpl; tauto).
  - intros [= <- <-] [<-|[]]. reflexivity.
  - destruct (len entry); simpl; [|discriminate]. intros [= <- <-] [].
Qed.

Lemma restore_tasks_failed (data : json) (tables : list string)
      (failed : list (string * string))
      (tasks : list (string * list json * list string)) (x : string * string) :
  SupabaseBackup.restore_tasks data tables = Ok (failed, tasks) -> In x failed ->
  exists fl tk, SupabaseBackup.table_tasks data (fst x) = Ok (fl, tk) /\ In x fl.
Proof.
  unfold SupabaseBackup.restore_tasks. intros H.
  apply bind_Ok in H as (l & Hl & H). injection H as <- _.
  apply mapM_result_Forall2 in Hl.
  induction Hl as [|t [fl tk] tables l Ht Hl IH]; simpl; [tauto|].
  intros Hin. apply in_app_or in Hin as [Hin|Hin]; [|now apply IH].
  exists fl, tk. now rewrite (table_tasks_failed data t fl tk x Ht Hin).
Qed.

Section Succeeds.

Context {St : Type} (exec : op -> St -> result json * St).

(** A restore whose backup is valid and whose tasks can be prepared runs
    to its end and returns success with the log. *)
Lemma restore_steps_succeeds (e : env) (backup_file : string) (f : file)
      (safety : option string) (w : world St)
      (b m entries : list (string * json)) (date : json) (data : json)
      (tables : list string) (failed : list (string * string))
      (tasks : list (string * list json * list string)) :
  credentials e = true -> writable e = true ->
  Fs.load f = Ok (JDict b) ->
  Py.assoc b "metadata" = Some (JDict m) ->
  Py.assoc m "backup_date" = Some date ->
  Py.assoc b "data" = Some (JDict entries) -> entries <> [] ->
  (l ← Py.subscript (JDict m) "tables"; table_names l) = Ok tables ->
  SupabaseBackup.effective_data (files w) (JDict b) = Ok data ->
  SupabaseBackup.restore_tasks data tables = Ok (failed, tasks) ->
  exists log w',
    SupabaseBackup.restore_steps exec e backup_file f safety w = (true, Logged log, w') /\
    tables_failed log = failed.
Proof.
  intros Hc Hw Hl Hm Hd He Hne Ht Heff Htasks.
  unfold SupabaseBackup.restore_steps. rewrite Hc, Hl. simpl.
  rewrite Hm. simpl. rewrite Hd. simpl.
  unfold validate_backup_data. simpl. unfold Py.dict_get. rewrite Hm, He.
  assert (Hmt : Py.truthy (JDict m) = true) by (destruct m; [discriminate|reflexivity]).
  assert (Het : Py.truthy (JDict entries) = true) by (destruct entries; [congruence|reflexivity]).
  rewrite Hmt, Het. simpl. rewrite Hm. simpl.
  simpl in Ht. rewrite Ht.
  destruct (get_table_row_counts_sends exec tables w) as [_ Hf].
  destruct (get_table_row_counts exec tables w) as [before w1]. simpl in Hf.
  rewrite Hf, Heff. simpl. rewrite Htasks.
  destruct (fold_left (SupabaseBackup.run_task exec) tasks ([], w1)) as [results w2].
  destruct (get_table_row_counts exec tables w2) as [after w3].
  rewrite Hw. simpl. eexists _, _. split; reflexivity.
Qed.

Lemma effective_data_backups (d d' : disk) (backup_data : json) :
  backups d' = backups d ->
  SupabaseBackup.effective_data d' backup_data = SupabaseBackup.effective_data d backup_data.
Proof.
  intros H. unfold SupabaseBackup.effective_data, SupabaseBackup.find_backup.
  now rewrite H.
Qed.

End Succeeds.

End References.




(** C1: the code at the chain of the claim.  Three runs of [create_backup]
    leave a full backup, a backup whose marker for [users] refers to the
    first, and a backup whose marker refers to the second.  Restoring the
    third replaces its marker by the marker of the second, and [users] is
    skipped: the rows of the first backup are not written. *)
Lemma chain_of_three_not_resolved :
  Example.stored_entry Example.disk3 Example.backup1 "users" = Ok (JList Example.users) /\
  Example.stored_entry Example.disk3 Example.backup2 "users"
  = Ok (Example.marker "20240101_000000" "eb65096318cde043d01691ec03e3f24b") /\
  Example.stored_entry Example.disk3 Example.backup3 "users"
  = Ok (Example.marker "20240101_000500" "eb65096318cde043d01691ec03e3f24b") /\
  Common.entry_of (SupabaseBackup.restore_entries Example.disk3 Example.backup3) "users"
  = Example.marker "20240101_000000" "eb65096318cde043d01691ec03e3f24b" /\
  Common.entry_of (BackupSupabase.restore_entries Example.disk3 Example.backup3) "users"
  = Example.marker "20240101_000000" "eb65096318cde043d01691ec03e3f24b" /\
  (exists r w',
     SupabaseBackup.restore_backup Example.exec 0 Example.run3 Example.backup3 true
                                   (Example.clean [] Example.disk3)
     = Some (true, None, r, w') /\
     Store.rows_of (remote w') "users" = [] /\
     Store.rows_of (remote w') "orders" = [Example.order]) /\
  Store.rows_of
    (remote (snd (BackupSupabase.restore_backup Example.exec Example.run3 Example.backup3
                                                (Example.clean [] Example.disk3))))
    "users" = [].
Proof.
  repeat split; try (vm_compute; reflexivity).
  eexists _, _. vm_compute. repeat split.
Qed.

(** ** A table that cannot be read *)

(** C5: the code when the fetch of a table raises.  The error is caught
    inside [fetch_table_data]; the run goes on, the other table is stored in
    full, and the table that could not be read is stored as an empty table
    and counted as successful, not marked as failed. *)
Lemma fetch_error_stored_as_empty :
  exists w',
    BackupSupabase.create_backup (Store.exec Example.users_down) 5 Example.run1 false
                                 (Example.clean Example.store1 (Disk [] [] []))
    = Some (true, w') /\
    Example.stored_entry (files w') Example.backup1 "users" = Ok (JList []) /\
    Example.stored_entry (files w') Example.backup1 "orders" = Ok (JList [Example.order]) /\
    (v ← Example.stored_entry (files w') Example.backup1 "users";
     Ok (Py.has_flag v "_backup_failed")) = Ok false.
Proof. eexists. vm_compute. repeat split. Qed.

(** * Further properties of the engine *)

(** ** The paginated fetch *)

Lemma page_requests_select (table : string) (page_size start : Z) (n : nat) (o : op) :
  In o (Common.page_requests table page_size start n) ->
  exists first, o = Select table first (first + page_size - 1).
Proof.
  revert start. induction n as [|n IH]; intros start; simpl; [tauto|].
  intros [<-|H]; [now exists start|]. now apply IH in H.
Qed.

Section Pagination.

Import Common.

Context {St : Type} (exec : op -> St -> result json * St).

Lemma fetch_pages_trace (fuel : nat) (table : string) (page_size start : Z)
      (data data' : list json) (w w' : world St) :
  fetch_pages exec fuel table page_size start data w = Some (data', w') ->
  exists n more,
    trace w' = trace w ++ page_requests table page_size start (S n) /\
    remote w' = run exec (page_requests table page_size start (S n)) (remote w) /\
    data' = data ++ more /\
    files w' = files w.
Proof.
  revert start data w. induction fuel as [|fuel IH]; intros start data w; simpl;
    [discriminate|].
  rewrite request_eq.
  set (o := Select table start (start + page_size - 1)).
  set (w1 := World (snd (exec o (remote w))) (trace w ++ [o]) (files w)).
  assert (Hone : forall d d', d' = data ++ d -> exists n more,
             trace w1 = trace w ++ page_requests table page_size start (S n) /\
             remote w1 = run exec (page_requests table page_size start (S n)) (remote w) /\
             d' = data ++ more /\ files w1 = files w).
  { intros d d' ->. exists 0%nat, d. now repeat split. }
  assert (Hnone : exists n more,
             trace w1 = trace w ++ page_requests table page_size start (S n) /\
             remote w1 = run exec (page_requests table page_size start (S n)) (remote w) /\
             data = data ++ more /\ files w1 = files w).
  { apply (Hone []). now rewrite app_nil_r. }
  destruct (fst (exec o (remote w))) as [rows|msg].
  - destruct (negb (Py.truthy rows)); [intros [= <- <-]; exact Hnone|].
    destruct (len rows) as [n|]; [|intros [= <- <-]; exact Hnone].
    destruct (iter rows) as [items|]; [|intros [= <- <-]; exact Hnone].
    destruct (n =? 0); [intros [= <- <-]; exact Hnone|].
    destruct (n <? page_size); [intros [= <- <-]; now apply (Hone items)|].
    intros H. apply IH in H as (k & more & Ht & Hr & Hd & Hf).
    exists (S k), (items ++ more). repeat split.
    + rewrite Ht. unfold w1. simpl. now rewrite <- app_assoc.
    + rewrite Hr. reflexivity.
    + rewrite Hd. now rewrite <- app_assoc.
    + rewrite Hf. reflexivity.
  - intros [= <- <-]. exact Hnone.
Qed.

Lemma fetch_pages_served (fuel : nat) (table : string) (page_size : Z)
      (pages : list (list json)) :
  0 < page_size ->
  Forall (fun page => Z.of_nat (length page) = page_size) pages ->
  (length pages < fuel)%nat ->
  forall (start : Z) (data : list json) (w : world St) (s : St),
    serves exec table page_size start pages (remote w) s ->
    let next := Select table (start + Z.of_nat (length pages) * page_size)
                       (start + Z.of_nat (length pages) * page_size + page_size - 1) in
    let w' := World (snd (exec next s))
                    (trace w ++ page_requests table page_size start (S (length pages)))
                    (files w) in
    (forall msg, fst (exec next s) = Raise msg ->
       fetch_pages exec fuel table page_size start data w
       = Some (data ++ concat pages, w')) /\
    (forall last, fst (exec next s) = Ok (JList last) ->
       Z.of_nat (length last) < page_size ->
       fetch_pages exec fuel table page_size start data w
       = Some (data ++ concat pages ++ last, w')).
Proof.
  intros Hps Hfull. revert fuel.
  induction Hfull as [|page pages Hpage Hfull IH]; intros fuel Hfuel start data w s Hs.
  - simpl in Hs. subst s. destruct fuel as [|fuel]; [simpl in Hfuel; lia|].
    cbn zeta. simpl length. simpl Z.of_nat. rewrite Z.mul_0_l, Z.add_0_r.
    simpl page_requests. simpl concat.
    split.
    + intros msg Hr. simpl. rewrite request_eq, Hr. now rewrite app_nil_r.
    + intros last Hr Hlt. simpl. rewrite request_eq, Hr.
      destruct last as [|x last]; simpl negb; cbv iota.
      * now rewrite app_nil_r.
      * unfold len, iter.
        replace (Z.of_nat (length (x :: last)) =? 0) with false
          by (symmetry; apply Z.eqb_neq; simpl length; lia).
        apply Z.ltb_lt in Hlt. now rewrite Hlt.
  - destruct Hs as (s1 & Hex & Hs).
    destruct fuel as [|fuel]; [simpl in Hfuel; lia|].
    assert (Hfuel' : (length pages < fuel)%nat) by (simpl in Hfuel; lia).
    set (w1 := World s1 (trace w ++ [Select table start (start + page_size - 1)])
                     (files w)).
    specialize (IH fuel Hfuel' (start + page_size) (data ++ page) w1 s Hs).
    cbn zeta in IH. destruct IH as [IH1 IH2].
    assert (Hstep : fetch_pages exec (S fuel) table page_size start data w
                    = fetch_pages exec fuel table page_size (start + page_size)
                                  (data ++ page) w1).
    { simpl. rewrite request_eq, Hex. simpl fst. simpl snd. fold w1.
      destruct page as [|x page]; [simpl in Hpage; lia|].
      simpl negb. cbv iota. unfold len, iter.
      replace (Z.of_nat (length (x :: page)) =? 0) with false
        by (symmetry; apply Z.eqb_neq; lia).
      replace (Z.of_nat (length (x :: page)) <? page_size) with false
        by (symmetry; apply Z.ltb_ge; lia).
      reflexivity. }
    assert (Hnext : start + page_size + Z.of_nat (length pages) * page_size
                    = start + Z.of_nat (length (page :: pages)) * page_size)
      by (simpl length; lia).
    rewrite Hnext in IH1, IH2.
    cbn zeta. rewrite Hstep.
    assert (Htr : trace w1 ++ page_requests table page_size (start + page_size)
                                            (S (length pages))
                  = trace w ++ page_requests table page_size start
                                             (S (length (page :: pages)))).
    { unfold w1. simpl trace. rewrite <- app_assoc. reflexivity. }
    rewrite Htr in IH1, IH2. simpl files in IH1, IH2.
    split.
    + intros msg Hr. rewrite (IH1 msg Hr). simpl concat. now rewrite <- !app_assoc.
    + intros last Hr Hlt. rewrite (IH2 last Hr Hlt). simpl concat.
      now rewrite <- !app_assoc.
Qed.

End Pagination.

(** X1.  Whatever the store answers, a fetch that ends has sent the
    requests for the first pages of the table, one after the other and
    without a gap, and nothing else; the rows it returns extend the rows it
    started from, and no file is touched. *)
Theorem fetch_requests_consecutive_pages {St : Type}
        (exec : op -> St -> result json * St)
        (fuel : nat) (table : string) (page_size start : Z)
        (data data' : list json) (w w' : world St) :
  Common.fetch_pages exec fuel table page_size start data w = Some (data', w') ->
  exists n more,
    trace w' = trace w ++ Common.page_requests table page_size start (S n) /\
    remote w' = Common.run exec (Common.page_requests table page_size start (S n)) (remote w) /\
    (forall o, In o (Common.page_requests table page_size start (S n)) ->
               exists first, o = Select table first (first + page_size - 1)) /\
    data' = data ++ more /\
    files w' = files w.
Proof.
  intros H. apply fetch_pages_trace in H as (n & more & Ht & Hr & Hd & Hf).
  exists n, more. repeat split; try assumption.
  intros o. apply page_requests_select.
Qed.

Lemma fetch_requests_consecutive_pages_witness :
  exists n more,
    trace (World Example.store1
                 [Select "users" 0 1; Select "users" 2 3] (Disk [] [] []))
    = [] ++ Common.page_requests "users" 2 0 (S n) /\
    Example.store1
    = Common.run Example.exec (Common.page_requests "users" 2 0 (S n)) Example.store1 /\
    (forall o, In o (Common.page_requests "users" 2 0 (S n)) ->
               exists first, o = Select "users" first (first + 2 - 1)) /\
    Example.users = [] ++ more /\
    Disk [] [] [] = Disk [] [] [].
Proof.
  apply (fetch_requests_consecutive_pages
           Example.exec 3 "users" 2 0 [] Example.users
           (Example.clean Example.store1 (Disk [] [] []))
           (World Example.store1 [Select "users" 0 1; Select "users" 2 3] (Disk [] [] []))).
  reflexivity.
Defined.

(** X2.  When the store serves full pages and then a short page, the fetch
    returns the rows of all of them in order; when it serves full pages and
    then raises, the fetch returns the rows of the full pages alone and no
    error: the caller cannot tell a table cut short from a complete one. *)
Theorem fetch_returns_pages_served {St : Type} (exec : op -> St -> result json * St)
        (fuel : nat) (table : string) (page_size start : Z)
        (pages : list (list json)) (data : list json) (w : world St) (s : St) :
  0 < page_size ->
  Forall (fun page => Z.of_nat (length page) = page_size) pages ->
  (length pages < fuel)%nat ->
  Common.serves exec table page_size start pages (remote w) s ->
  let next := Select table (start + Z.of_nat (length pages) * page_size)
                     (start + Z.of_nat (length pages) * page_size + page_size - 1) in
  let w' := World (snd (exec next s))
                  (trace w ++ Common.page_requests table page_size start (S (length pages)))
                  (files w) in
  (forall msg, fst (exec next s) = Raise msg ->
     Common.fetch_pages exec fuel table page_size start data w
     = Some (data ++ concat pages, w')) /\
  (forall last, fst (exec next s) = Ok (JList last) ->
     Z.of_nat (length last) < page_size ->
     Common.fetch_pages exec fuel table page_size start data w
     = Some (data ++ concat pages ++ last, w')).
Proof.
  intros Hps Hfull Hfuel Hs. now apply fetch_pages_served.
Qed.

Lemma fetch_returns_pages_served_witness :
  Common.fetch_pages (Store.exec Example.second_page_down) 2 "users" 2 0 []
                     (Example.clean Example.store1 (Disk [] [] []))
  = Some ([Example.user 1 "ani"; Example.user 2 "budi"],
          World Example.store1 [Select "users" 0 1; Select "users" 2 3] (Disk [] [] [])).
Proof.
  apply (proj1 (fetch_returns_pages_served
                  (Store.exec Example.second_page_down) 2 "users" 2 0
                  [[Example.user 1 "ani"; Example.user 2 "budi"]] []
                  (Example.clean Example.store1 (Disk [] [] [])) Example.store1
                  ltac:(lia)
                  ltac:(repeat constructor)
                  ltac:(simpl; lia)
                  ltac:(simpl; eexists; split; reflexivity))
               "connection reset").
  reflexivity.
Defined.

(** ** The backup run *)

Lemma assoc_dict_set {A} (d : list (string * A)) (k x : string) (v : A) :
  Py.assoc (Py.dict_set d k v) x = if String.eqb k x then Some v else Py.assoc d x.
Proof.
  induction d as [|[k' v'] d IH]; simpl; [reflexivity|].
  destruct (String.eqb k' k) eqn:E; simpl.
  - apply String.eqb_eq in E. subst k'. now destruct (String.eqb k x).
  - destruct (String.eqb k' x) eqn:E'; [|exact IH].
    apply String.eqb_eq in E'. subst k'.
    now rewrite String.eqb_sym, E.
Qed.

Lemma has_key_dict_set {A} (d : list (string * A)) (k x : string) (v : A) :
  Py.has_key (Py.dict_set d k v) x = String.eqb k x || Py.has_key d x.
Proof.
  unfold Py.has_key. rewrite assoc_dict_set. now destruct (String.eqb k x).
Qed.

Section Backup.

Import Common.

Context {St : Type} (exec : op -> St -> result json * St).

Lemma fetch_table_data_selects (fuel : nat) (table : string) (tables : list string)
      (data : list json) (w w' : world St) :
  In table tables ->
  fetch_table_data exec fuel table w = Some (data, w') ->
  sends exec (selects_from tables) w w' /\ files w' = files w.
Proof.
  intros Hin H. apply fetch_pages_trace in H as (n & more & Ht & Hr & _ & Hf).
  split; [|exact Hf].
  exists (page_requests table 1000 0 (S n)). repeat split; try assumption.
  apply Forall_forall. intros o Ho.
  apply page_requests_select in Ho as [first ->]. exact Hin.
Qed.

(** The proofs about the loop over the tables are the same for the two
    scripts, whose loops differ in the lookup of a referenced backup only. *)
Ltac loop_sends IH t tables :=
  match goal with
  | |- context [fetch_table_data exec ?fuel t ?w] =>
      let E := fresh "E" in
      let H := fresh "H" in
      let Ha := fresh "Ha" in
      let Hb := fresh "Hb" in
      let Hc := fresh "Hc" in
      let Hd := fresh "Hd" in
      destruct (fetch_table_data exec fuel t w) as [[? ?]|] eqn:E; [|discriminate];
      intros H; destruct (IH _ _ H) as [Ha Hb];
      destruct (fetch_table_data_selects _ _ (t :: tables) _ _ _ (or_introl eq_refl) E)
        as [Hc Hd];
      split; [|congruence];
      eapply sends_trans; [exact Hc|];
      eapply sends_weaken; [|exact Ha];
      intros [] Ho; simpl in *; tauto
  end.

Lemma backup_tables_sends (fuel : nat) (pb ts : json) (ff : bool) (tables : list string)
      (p p' : BackupSupabase.progress) (w w' : world St) :
  BackupSupabase.backup_tables exec fuel pb ts ff tables p w = Some (p', w') ->
  sends exec (selects_from tables) w w' /\ files w' = files w.
Proof.
  revert p w. induction tables as [|t tables IH]; intros p w; simpl.
  - intros [= <- <-]. split; [apply sends_refl|reflexivity].
  - loop_sends IH t tables.
Qed.

Lemma backup_tables_seq_sends (fuel : nat) (pb ts : json) (ff : bool)
      (tables : list string) (p p' : BackupSupabase.progress) (w w' : world St) :
  SupabaseBackup.backup_tables exec fuel pb ts ff tables p w = Some (p', w') ->
  sends exec (selects_from tables) w w' /\ files w' = files w.
Proof.
  revert p w. induction tables as [|t tables IH]; intros p w; simpl.
  - intros [= <- <-]. split; [apply sends_refl|reflexivity].
  - loop_sends IH t tables.
Qed.

Lemma compare_same (current previous : json) (h : string) :
  compare_table_data current previous = Ok (Same h) ->
  h = calculate_table_hash current /\ previous <> JNull.
Proof.
  unfold compare_table_data.
  destruct previous; [discriminate|..];
    (destruct (String.eqb _ _);
     [intros [= <-]; split; [reflexivity|discriminate]
     |intros H; repeat (apply bind_Ok in H as (? & _ & H)); discriminate]).
Qed.

(** What one turn of the loop makes of the progress: the table is recorded
    as unchanged, as stored in full, or as failed; the first and the last
    only in an incremental run. *)
Ltac step_cases table_step previous_data_of d pb ff t cur :=
  intros p1; unfold table_step in p1;
  assert (Hmode : forall pd, previous_data_of d pb ff t = Ok pd ->
                             pd <> JNull -> ff = false /\ Py.truthy pb = true);
  [intros pd Epd Hpd; unfold previous_data_of in Epd;
   destruct (Py.truthy pb && negb ff) eqn:Ec;
   [apply andb_true_iff in Ec as [Ec1 Ec2]; apply negb_true_iff in Ec2; now split
   |injection Epd as <-; now contradiction Hpd]
  |];
  assert (Hfail : previous_data_of d pb ff t = Ok JNull \/
                  (ff = false /\ Py.truthy pb = true));
  [unfold previous_data_of; destruct (Py.truthy pb) eqn:E1, ff eqn:E2; simpl; auto|];
  subst p1;
  destruct (previous_data_of d pb ff t) as [pd|msg] eqn:Epd; simpl;
  [|right; right; exists msg; split; [reflexivity|];
    destruct Hfail as [Hf|Hf]; [discriminate|exact Hf]];
  destruct (compare_table_data (JList cur) pd) as [cmp|msg] eqn:Ecmp; simpl;
  [|right; right; exists msg; split; [reflexivity|];
    apply (Hmode pd eq_refl); intros ->; discriminate];
  destruct cmp as [|h|h a r cc pc]; simpl;
  [right; left; destruct cur; simpl; f_equal; try lia; now rewrite app_nil_r
  |destruct ff; simpl;
   [right; left; destruct cur; simpl; f_equal; try lia; now rewrite app_nil_r
   |left; apply compare_same in Ecmp as [-> Hpd]; split; [reflexivity|];
    now apply (Hmode pd)]
  |right; left; destruct cur; simpl; f_equal; try lia; now rewrite app_nil_r].

Lemma step_result_cases (d : disk) (pb ts : json) (ff : bool) (t : string)
      (cur : list json) (p : BackupSupabase.progress) :
  let p1 := match BackupSupabase.table_step d pb ts ff t cur p with
            | Ok p' => p'
            | Raise error_msg => BackupSupabase.table_failed t error_msg p
            end in
  (p1 = BackupSupabase.Progress
          (Py.dict_set (BackupSupabase.data p) t
             (BackupSupabase.unchanged_entry ts (JStr (calculate_table_hash (JList cur)))))
          (BackupSupabase.total_rows p) (BackupSupabase.successful_tables p)
          (BackupSupabase.failed_tables p) (BackupSupabase.unchanged_tables p ++ [t])
          (BackupSupabase.changed_tables p) /\
   ff = false /\ Py.truthy pb = true) \/
  p1 = BackupSupabase.Progress
         (Py.dict_set (BackupSupabase.data p) t (JList cur))
         (BackupSupabase.total_rows p + Z.of_nat (length cur))
         (BackupSupabase.successful_tables p + 1)
         (BackupSupabase.failed_tables p) (BackupSupabase.unchanged_tables p)
         (BackupSupabase.changed_tables p ++ (if 0 <? Z.of_nat (length cur) then [t] else [])) \/
  (exists msg, p1 = BackupSupabase.table_failed t msg p /\ ff = false /\ Py.truthy pb = true).
Proof.
  step_cases BackupSupabase.table_step BackupSupabase.previous_data_of d pb ff t cur.
Qed.

Lemma step_result_seq_cases (d : disk) (pb ts : json) (ff : bool) (t : string)
      (cur : list json) (p : BackupSupabase.progress) :
  let p1 := match SupabaseBackup.table_step d pb ts ff t cur p with
            | Ok p' => p'
            | Raise error_msg => BackupSupabase.table_failed t error_msg p
            end in
  (p1 = BackupSupabase.Progress
          (Py.dict_set (BackupSupabase.data p) t
             (BackupSupabase.unchanged_entry ts (JStr (calculate_table_hash (JList cur)))))
          (BackupSupabase.total_rows p) (BackupSupabase.successful_tables p)
          (BackupSupabase.failed_tables p) (BackupSupabase.unchanged_tables p ++ [t])
          (BackupSupabase.changed_tables p) /\
   ff = false /\ Py.truthy pb = true) \/
  p1 = BackupSupabase.Progress
         (Py.dict_set (BackupSupabase.data p) t (JList cur))
         (BackupSupabase.total_rows p + Z.of_nat (length cur))
         (BackupSupabase.successful_tables p + 1)
         (BackupSupabase.failed_tables p) (BackupSupabase.unchanged_tables p)
         (BackupSupabase.changed_tables p ++ (if 0 <? Z.of_nat (length cur) then [t] else [])) \/
  (exists msg, p1 = BackupSupabase.table_failed t msg p /\ ff = false /\ Py.truthy pb = true).
Proof.
  step_cases SupabaseBackup.table_step SupabaseBackup.previous_data_of d pb ff t cur.
Qed.

(** A property of the progress that every kind of turn keeps holds at the
    end of the loop. *)
Section Invariant.

Context (Q : BackupSupabase.progress -> list string -> Prop) (pb ts : json) (ff : bool).

Hypothesis stored : forall t cur p done,
  Q p done ->
  Q (BackupSupabase.Progress
       (Py.dict_set (BackupSupabase.data p) t (JList cur))
       (BackupSupabase.total_rows p + Z.of_nat (length cur))
       (BackupSupabase.successful_tables p + 1)
       (BackupSupabase.failed_tables p) (BackupSupabase.unchanged_tables p)
       (BackupSupabase.changed_tables p ++ (if 0 <? Z.of_nat (length cur) then [t] else [])))
    (done ++ [t]).

Hypothesis unchanged : forall t cur p done,
  ff = false -> Py.truthy pb = true -> Q p done ->
  Q (BackupSupabase.Progress
       (Py.dict_set (BackupSupabase.data p) t
          (BackupSupabase.unchanged_entry ts (JStr (calculate_table_hash (JList cur)))))
       (BackupSupabase.total_rows p) (BackupSupabase.successful_tables p)
       (BackupSupabase.failed_tables p) (BackupSupabase.unchanged_tables p ++ [t])
       (BackupSupabase.changed_tables p))
    (done ++ [t]).

Hypothesis failed : forall t msg p done,
  ff = false -> Py.truthy pb = true -> Q p done ->
  Q (BackupSupabase.table_failed t msg p) (done ++ [t]).

Ltac loop_invariant IH cases done t p HQ :=
  match goal with
  | |- context [fetch_table_data exec ?fuel t ?w] =>
      let H := fresh "H" in
      destruct (fetch_table_data exec fuel t w) as [[cur w1]|]; [|discriminate];
      intros H; apply (IH (done ++ [t])) in H;
      [now rewrite <- app_assoc in H|];
      destruct (cases (files w1) pb ts ff t cur p)
        as [(-> & ? & ?)|[->|(msg & -> & ? & ?)]];
      [now apply unchanged|now apply stored|now apply failed]
  end.

Lemma backup_tables_invariant (fuel : nat) (tables done : list string)
      (p p' : BackupSupabase.progress) (w w' : world St) :
  Q p done ->
  BackupSupabase.backup_tables exec fuel pb ts ff tables p w = Some (p', w') ->
  Q p' (done ++ tables).
Proof.
  revert done p w. induction tables as [|t tables IH]; intros done p w HQ; simpl.
  - intros [= <- <-]. now rewrite app_nil_r.
  - loop_invariant IH step_result_cases done t p HQ.
Qed.

Lemma backup_tables_seq_invariant (fuel : nat) (tables done : list string)
      (p p' : BackupSupabase.progress) (w w' : world St) :
  Q p done ->
  SupabaseBackup.backup_tables exec fuel pb ts ff tables p w = Some (p', w') ->
  Q p' (done ++ tables).
Proof.
  revert done p w. induction tables as [|t tables IH]; intros done p w HQ; simpl.
  - intros [= <- <-]. now rewrite app_nil_r.
  - loop_invariant IH step_result_seq_cases done t p HQ.
Qed.

End Invariant.

End Backup.


Lemma cleanup_safety_backups (keep_count : nat) (d : disk) :
  safety_backups (BackupSupabase.cleanup_old_backups keep_count d) = safety_backups d /\
  safety_backups (SupabaseBackup.cleanup_old_backups keep_count d) = safety_backups d.
Proof.
  unfold BackupSupabase.cleanup_old_backups, SupabaseBackup.cleanup_old_backups,
    BackupSupabase.delete_backup, SupabaseBackup.delete_backup.
  split; (destruct (_ <? _)%nat; [now rewrite fold_delete|reflexivity]).
Qed.




Section Accounting.

Import Common.

Lemma accounted_stored (t : string) (cur : list json) (p : BackupSupabase.progress)
      (done : list string) :
  BackupSupabase.accounted done p ->
  BackupSupabase.accounted (done ++ [t])
    (BackupSupabase.Progress
       (Py.dict_set (BackupSupabase.data p) t (JList cur))
       (BackupSupabase.total_rows p + Z.of_nat (length cur))
       (BackupSupabase.successful_tables p + 1)
       (BackupSupabase.failed_tables p) (BackupSupabase.unchanged_tables p)
       (BackupSupabase.changed_tables p ++ (if 0 <? Z.of_nat (length cur) then [t] else []))).
Proof.
  intros (Hn & Hk & Hf & Hu & Hc & Hle & Hr). unfold BackupSupabase.accounted. simpl.
  rewrite !length_app. simpl. repeat split; try lia.
  - rewrite has_key_dict_set, in_app_iff. intros H.
    apply orb_true_iff in H as [H|H]; [apply String.eqb_eq in H; subst; simpl; tauto|].
    left. now apply Hk.
  - rewrite has_key_dict_set, in_app_iff. intros [H|[->|[]]]; apply orb_true_iff.
    + right. now apply Hk.
    + left. apply String.eqb_refl.
  - now apply incl_appl.
  - now apply incl_appl.
  - apply incl_app; [now apply incl_appl|].
    destruct (0 <? Z.of_nat (length cur)); [|apply incl_nil_l].
    apply incl_appr, incl_refl.
  - destruct (0 <? Z.of_nat (length cur)); simpl; lia.
Qed.

Lemma accounted_unchanged (t : string) (entry : json) (p : BackupSupabase.progress)
      (done : list string) :
  BackupSupabase.accounted done p ->
  BackupSupabase.accounted (done ++ [t])
    (BackupSupabase.Progress
       (Py.dict_set (BackupSupabase.data p) t entry)
       (BackupSupabase.total_rows p) (BackupSupabase.successful_tables p)
       (BackupSupabase.failed_tables p) (BackupSupabase.unchanged_tables p ++ [t])
       (BackupSupabase.changed_tables p)).
Proof.
  intros (Hn & Hk & Hf & Hu & Hc & Hle & Hr). unfold BackupSupabase.accounted. simpl.
  rewrite !length_app. simpl. repeat split; try lia.
  - rewrite has_key_dict_set, in_app_iff. intros H.
    apply orb_true_iff in H as [H|H]; [apply String.eqb_eq in H; subst; simpl; tauto|].
    left. now apply Hk.
  - rewrite has_key_dict_set, in_app_iff. intros [H|[->|[]]]; apply orb_true_iff.
    + right. now apply Hk.
    + left. apply String.eqb_refl.
  - now apply incl_appl.
  - apply incl_app; [now apply incl_appl|apply incl_appr, incl_refl].
  - now apply incl_appl.
Qed.

Lemma accounted_failed (t msg : string) (p : BackupSupabase.progress)
      (done : list string) :
  BackupSupabase.accounted done p ->
  BackupSupabase.accounted (done ++ [t]) (BackupSupabase.table_failed t msg p).
Proof.
  intros (Hn & Hk & Hf & Hu & Hc & Hle & Hr).
  unfold BackupSupabase.accounted, BackupSupabase.table_failed. simpl.
  rewrite !length_app. simpl. repeat split; try lia.
  - rewrite has_key_dict_set, in_app_iff. intros H.
    apply orb_true_iff in H as [H|H]; [apply String.eqb_eq in H; subst; simpl; tauto|].
    left. now apply Hk.
  - rewrite has_key_dict_set, in_app_iff. intros [H|[->|[]]]; apply orb_true_iff.
    + right. now apply Hk.
    + left. apply String.eqb_refl.
  - apply incl_app; [now apply incl_appl|apply incl_appr, incl_refl].
  - now apply incl_appl.
  - now apply incl_appl.
Qed.

Lemma accounted_nothing : BackupSupabase.accounted [] BackupSupabase.no_progress.
Proof.
  unfold BackupSupabase.accounted. simpl. repeat split; try lia; try easy.
  all: apply incl_nil_l.
Qed.

End Accounting.

(** X4.  At the end of the loop over the tables the counters of the run add
    up: every table of the list has been counted once, as successful, as
    failed or as unchanged; exactly the tables of the list have an entry in
    the data; the tables named as failed, unchanged or changed are tables of
    the list; the changed tables are among the successful ones. *)
Theorem backup_accounts_for_every_table {St : Type} (exec : op -> St -> result json * St)
        (fuel : nat) (previous_backup prev_timestamp : json) (force_full : bool)
        (tables : list string) (p : BackupSupabase.progress) (w w' : world St) :
  (BackupSupabase.backup_tables exec fuel previous_backup prev_timestamp force_full
                                tables BackupSupabase.no_progress w = Some (p, w') ->
   BackupSupabase.accounted tables p) /\
  (SupabaseBackup.backup_tables exec fuel previous_backup prev_timestamp force_full
                                tables BackupSupabase.no_progress w = Some (p, w') ->
   BackupSupabase.accounted tables p).
Proof.
  split; intros H.
  - apply (backup_tables_invariant exec (fun p done => BackupSupabase.accounted done p)
             previous_backup prev_timestamp force_full) with (done := []) in H;
      [exact H|intros; now apply accounted_stored|intros; now apply accounted_unchanged
      |intros; now apply accounted_failed|apply accounted_nothing].
  - apply (backup_tables_seq_invariant exec
             (fun p done => BackupSupabase.accounted done p)
             previous_backup prev_timestamp force_full) with (done := []) in H;
      [exact H|intros; now apply accounted_stored|intros; now apply accounted_unchanged
      |intros; now apply accounted_failed|apply accounted_nothing].
Qed.

Lemma backup_accounts_for_every_table_witness :
  BackupSupabase.accounted ["users"; "orders"]
    (BackupSupabase.Progress
       [("users", Example.marker "20240101_000000" "eb65096318cde043d01691ec03e3f24b");
        ("orders", JList [Example.order])]
       1 1 [] ["users"] ["orders"]).
Proof.
  apply (proj1 (backup_accounts_for_every_table
                  Example.exec 5
                  (BackupSupabase.get_latest_backup Example.disk1)
                  (JStr "20240101_000000") false ["users"; "orders"] _
                  (Example.clean Example.store1 Example.disk1)
                  (World Example.store1 [Select "users" 0 999; Select "orders" 0 999]
                         Example.disk1))).
  vm_compute. reflexivity.
Defined.

(** X5.  In a full run, forced or for want of a previous backup, every
    table of the list is stored as a list of rows: none is recorded as
    unchanged and none as failed, and all are counted as successful. *)
Theorem full_backup_stores_every_table {St : Type} (exec : op -> St -> result json * St)
        (fuel : nat) (previous_backup prev_timestamp : json) (force_full : bool)
        (tables : list string) (p : BackupSupabase.progress) (w w' : world St) :
  Py.truthy previous_backup = false \/ force_full = true ->
  BackupSupabase.backup_tables exec fuel previous_backup prev_timestamp force_full
                               tables BackupSupabase.no_progress w = Some (p, w') \/
  SupabaseBackup.backup_tables exec fuel previous_backup prev_timestamp force_full
                               tables BackupSupabase.no_progress w = Some (p, w') ->
  BackupSupabase.failed_tables p = [] /\ BackupSupabase.unchanged_tables p = [] /\
  BackupSupabase.successful_tables p = Z.of_nat (length tables) /\
  forall t, In t tables ->
            exists rows, Py.assoc (BackupSupabase.data p) t = Some (JList rows).
Proof.
  intros Hfull Hrun.
  set (full := fun (p : BackupSupabase.progress) (done : list string) =>
    BackupSupabase.failed_tables p = [] /\ BackupSupabase.unchanged_tables p = [] /\
    BackupSupabase.successful_tables p = Z.of_nat (length done) /\
    forall t, In t done ->
              exists rows, Py.assoc (BackupSupabase.data p) t = Some (JList rows)).
  assert (Hnot : force_full = false -> Py.truthy previous_backup = true -> False).
  { intros -> Ht. destruct Hfull as [H|H]; congruence. }
  assert (Hstored : forall t cur q done, full q done ->
            full (BackupSupabase.Progress
                    (Py.dict_set (BackupSupabase.data q) t (JList cur))
                    (BackupSupabase.total_rows q + Z.of_nat (length cur))
                    (BackupSupabase.successful_tables q + 1)
                    (BackupSupabase.failed_tables q) (BackupSupabase.unchanged_tables q)
                    (BackupSupabase.changed_tables q
                     ++ (if 0 <? Z.of_nat (length cur) then [t] else [])))
                 (done ++ [t])).
  { intros t cur q done (Hf & Hu & Hs & Hin). unfold full. simpl.
    rewrite length_app. simpl. repeat split; try assumption; try lia.
    intros x Hx. rewrite assoc_dict_set.
    destruct (String.eqb t x) eqn:E; [now exists cur|].
    apply in_app_iff in Hx as [Hx|[->|[]]]; [now apply Hin|].
    now rewrite String.eqb_refl in E. }
  assert (Hstart : full BackupSupabase.no_progress []).
  { unfold full. simpl. repeat split; easy. }
  destruct Hrun as [H|H].
  - apply (backup_tables_invariant exec full previous_backup prev_timestamp force_full)
      with (done := []) in H;
      [exact H|exact Hstored|intros; exfalso; auto|intros; exfalso; auto|exact Hstart].
  - apply (backup_tables_seq_invariant exec full previous_backup prev_timestamp force_full)
      with (done := []) in H;
      [exact H|exact Hstored|intros; exfalso; auto|intros; exfalso; auto|exact Hstart].
Qed.

Lemma full_backup_stores_every_table_witness :
  let p := BackupSupabase.Progress
             [("users", JList Example.users); ("orders", JList [])] 3 2 [] [] ["users"] in
  BackupSupabase.failed_tables p = [] /\ BackupSupabase.unchanged_tables p = [] /\
  BackupSupabase.successful_tables p = Z.of_nat (length ["users"; "orders"]) /\
  forall t, In t ["users"; "orders"] ->
            exists rows, Py.assoc (BackupSupabase.data p) t = Some (JList rows).
Proof.
  intros p.
  apply (full_backup_stores_every_table
           Example.exec 5 JNull JNull false ["users"; "orders"] p
           (Example.clean Example.store0 (Disk [] [] []))
           (World Example.store0 [Select "users" 0 999; Select "orders" 0 999]
                  (Disk [] [] []))).
  - left. reflexivity.
  - left. vm_compute. reflexivity.
Defined.

(** X6.  Every entry a run stores is a list of rows, a failure marker or an
    unchanged marker; an unchanged marker is written in an incremental run
    only, and the backup it names as its reference is the one the metadata
    of the same document names as the previous backup, whether or not that
    backup holds the rows. *)
Theorem markers_refer_to_previous_backup {St : Type}
        (exec : op -> St -> result json * St)
        (fuel : nat) (e : env) (previous_backup prev_timestamp : json)
        (force_full compress : bool)
        (tables : list string) (p : BackupSupabase.progress) (w w' : world St) :
  BackupSupabase.backup_tables exec fuel previous_backup prev_timestamp force_full
                               tables BackupSupabase.no_progress w = Some (p, w') \/
  SupabaseBackup.backup_tables exec fuel previous_backup prev_timestamp force_full
                               tables BackupSupabase.no_progress w = Some (p, w') ->
  (forall t entry, Py.assoc (BackupSupabase.data p) t = Some entry ->
     (exists rows, entry = JList rows) \/
     (exists msg, entry = BackupSupabase.failed_entry msg) \/
     (exists h, entry = BackupSupabase.unchanged_entry prev_timestamp (JStr h) /\
                force_full = false /\ Py.truthy previous_backup = true)) /\
  (forall t entry, Py.assoc (BackupSupabase.data p) t = Some entry ->
     Py.has_flag entry "_unchanged" = true ->
     Py.get entry "_reference_backup" = Ok prev_timestamp) /\
  (m ← Py.subscript (BackupSupabase.backup_document e previous_backup prev_timestamp p)
                    "metadata";
   Py.subscript m "previous_backup") = Ok prev_timestamp /\
  (m ← Py.subscript (SupabaseBackup.backup_document e compress previous_backup
                                                    prev_timestamp p) "metadata";
   Py.subscript m "previous_backup") = Ok prev_timestamp.
Proof.
  intros Hrun.
  set (kinds := fun (p : BackupSupabase.progress) (done : list string) =>
    forall t entry, Py.assoc (BackupSupabase.data p) t = Some entry ->
      (exists rows, entry = JList rows) \/
      (exists msg, entry = BackupSupabase.failed_entry msg) \/
      (exists h, entry = BackupSupabase.unchanged_entry prev_timestamp (JStr h) /\
                 force_full = false /\ Py.truthy previous_backup = true)).
  assert (Hset : forall t v q (done : list string),
            ((exists rows, v = JList rows) \/
             (exists msg, v = BackupSupabase.failed_entry msg) \/
             (exists h, v = BackupSupabase.unchanged_entry prev_timestamp (JStr h) /\
                        force_full = false /\ Py.truthy previous_backup = true)) ->
            (forall x entry, Py.assoc (BackupSupabase.data q) x = Some entry ->
               (exists rows, entry = JList rows) \/
               (exists msg, entry = BackupSupabase.failed_entry msg) \/
               (exists h, entry = BackupSupabase.unchanged_entry prev_timestamp (JStr h) /\
                          force_full = false /\ Py.truthy previous_backup = true)) ->
            forall x entry,
              Py.assoc (Py.dict_set (BackupSupabase.data q) t v) x = Some entry ->
              (exists rows, entry = JList rows) \/
              (exists msg, entry = BackupSupabase.failed_entry msg) \/
              (exists h, entry = BackupSupabase.unchanged_entry prev_timestamp (JStr h) /\
                         force_full = false /\ Py.truthy previous_backup = true)).
  { intros t v q done Hv Hq x entry. rewrite assoc_dict_set.
    destruct (String.eqb t x); [now intros [= <-]|apply Hq]. }
  assert (Hstored : forall t cur q done, kinds q done ->
            kinds (BackupSupabase.Progress
                     (Py.dict_set (BackupSupabase.data q) t (JList cur))
                     (BackupSupabase.total_rows q + Z.of_nat (length cur))
                     (BackupSupabase.successful_tables q + 1)
                     (BackupSupabase.failed_tables q) (BackupSupabase.unchanged_tables q)
                     (BackupSupabase.changed_tables q
                      ++ (if 0 <? Z.of_nat (length cur) then [t] else [])))
                  (done ++ [t])).
  { intros t cur q done Hq x entry Hx. simpl in Hx. revert x entry Hx.
    apply (Hset t (JList cur) q done); [eauto|exact Hq]. }
  assert (Hunch : forall t cur q done,
            force_full = false -> Py.truthy previous_backup = true -> kinds q done ->
            kinds (BackupSupabase.Progress
                     (Py.dict_set (BackupSupabase.data q) t
                        (BackupSupabase.unchanged_entry prev_timestamp
                           (JStr (Common.calculate_table_hash (JList cur)))))
                     (BackupSupabase.total_rows q) (BackupSupabase.successful_tables q)
                     (BackupSupabase.failed_tables q)
                     (BackupSupabase.unchanged_tables q ++ [t])
                     (BackupSupabase.changed_tables q))
                  (done ++ [t])).
  { intros t cur q done Hff Hpb Hq x entry Hx. simpl in Hx. revert x entry Hx.
    apply (Hset t _ q done); [|exact Hq]. right. right. eauto. }
  assert (Hfailed : forall t msg q done,
            force_full = false -> Py.truthy previous_backup = true -> kinds q done ->
            kinds (BackupSupabase.table_failed t msg q) (done ++ [t])).
  { intros t msg q done _ _ Hq x entry Hx. simpl in Hx. revert x entry Hx.
    apply (Hset t _ q done); [|exact Hq]. right. left. eauto. }
  assert (Hstart : kinds BackupSupabase.no_progress []).
  { intros x entry. simpl. discriminate. }
  assert (Hk : kinds p ([] ++ tables)).
  { destruct Hrun as [H|H].
    - now apply (backup_tables_invariant exec kinds previous_backup prev_timestamp
                   force_full Hstored Hunch Hfailed) with (done := []) in H.
    - now apply (backup_tables_seq_invariant exec kinds previous_backup prev_timestamp
                   force_full Hstored Hunch Hfailed) with (done := []) in H. }
  split; [exact Hk|]. split; [|split; reflexivity].
  intros t entry Hentry Hflag.
  destruct (Hk t entry Hentry) as [[rows ->]|[[msg ->]|(h & -> & _)]];
    [discriminate|discriminate|reflexivity].
Qed.

Lemma markers_refer_to_previous_backup_witness :
  Py.get (Example.marker "20240101_000000" "eb65096318cde043d01691ec03e3f24b")
         "_reference_backup"
  = Ok (JStr "20240101_000000").
Proof.
  refine (proj1 (proj2 (markers_refer_to_previous_backup
                  Example.exec 5 Example.run2
                  (BackupSupabase.get_latest_backup Example.disk1)
                  (JStr "20240101_000000") false false ["users"; "orders"]
                  (BackupSupabase.Progress
                     [("users",
                       Example.marker "20240101_000000" "eb65096318cde043d01691ec03e3f24b");
                      ("orders", JList [Example.order])]
                     1 1 [] ["users"] ["orders"])
                  (Example.clean Example.store1 Example.disk1)
                  (World Example.store1 [Select "users" 0 999; Select "orders" 0 999]
                         Example.disk1)
                  (or_introl _)))
               "users" _ _ _).
  - vm_compute. reflexivity.
  - reflexivity.
  - reflexivity.
Defined.


(** ** The backup just written *)

Lemma strip_prefix_app (p s : string) : PyStr.strip_prefix p (p +:+ s) = Some s.
Proof.
  induction p as [|c p IH]; simpl; [now destruct s|].
  now rewrite Ascii.eqb_refl.
Qed.

Lemma ends_with_app (p s : string) : PyStr.ends_with p (s +:+ p) = true.
Proof.
  induction s as [|c s IH].
  - simpl. destruct p; simpl; [reflexivity|].
    now rewrite Ascii.eqb_refl, String.eqb_refl.
  - change ((String c s) +:+ p) with (String c (s +:+ p)).
    simpl. rewrite IH. now destruct (String.eqb p (String c (s +:+ p))).
Qed.

Lemma contains_app (sub a b : string) : PyStr.contains sub (a +:+ sub +:+ b) = true.
Proof.
  induction a as [|c a IH].
  - change (EmptyString +:+ sub +:+ b) with (sub +:+ b).
    destruct (sub +:+ b) eqn:E; simpl; rewrite <- E, strip_prefix_app; reflexivity.
  - change ((String c a) +:+ sub +:+ b) with (String c (a +:+ sub +:+ b)).
    simpl. rewrite IH.
    now destruct (PyStr.strip_prefix sub (String c (a +:+ sub +:+ b))).
Qed.

Section Written.

Lemma write_In (fs : list file) (n : string) (t : Z) (v : json) (f : file) :
  In f (Fs.write fs n t v) -> f = File n t (Ok v) \/ In f fs.
Proof.
  induction fs as [|g fs IH]; simpl; [intuition|].
  destruct (String.eqb (name g) n); simpl; intuition.
Qed.

Lemma write_has (fs : list file) (n : string) (t : Z) (v : json) :
  In (File n t (Ok v)) (Fs.write fs n t v).
Proof.
  induction fs as [|g fs IH]; simpl; [now left|].
  destruct (String.eqb (name g) n); simpl; auto.
Qed.

Lemma write_names (fs : list file) (n : string) (t : Z) (v : json) :
  map name (Fs.write fs n t v)
  = if Fs.named (map name fs) n then map name fs else map name fs ++ [n].
Proof.
  unfold Fs.named. induction fs as [|g fs IH]; simpl; [reflexivity|].
  rewrite (String.eqb_sym n (name g)).
  destruct (String.eqb (name g) n) eqn:E; simpl.
  - apply String.eqb_eq in E. now rewrite E.
  - rewrite IH. now destruct (existsb (String.eqb n) (map name fs)).
Qed.

Lemma write_NoDup (fs : list file) (n : string) (t : Z) (v : json) :
  NoDup (map name fs) -> NoDup (map name (Fs.write fs n t v)).
Proof.
  intros H. rewrite write_names.
  destruct (Fs.named (map name fs) n) eqn:E; [exact H|].
  apply NoDup_rev in H. rewrite <- (rev_involutive (map name fs ++ [n])).
  apply NoDup_rev. rewrite rev_app_distr. simpl. constructor; [|exact H].
  rewrite <- in_rev. intros Hin. apply named_In in Hin. congruence.
Qed.

Lemma filter_names_NoDup (P : file -> bool) (fs : list file) :
  NoDup (map name fs) -> NoDup (map name (filter P fs)).
Proof.
  induction fs as [|g fs IH]; simpl; [constructor|].
  intros H. inversion H as [|? ? Hn Hnd]; subst.
  destruct (P g); simpl; [|now apply IH].
  constructor; [|now apply IH].
  intros Hin. apply Hn. apply in_map_iff in Hin as (x & Hx & Hin).
  apply filter_In in Hin as [Hin _]. apply in_map_iff. now exists x.
Qed.

Lemma find_NoDup (fs : list file) (f : file) :
  NoDup (map name fs) -> In f fs -> Fs.find fs (name f) = Some f.
Proof.
  induction fs as [|g fs IH]; simpl; [tauto|].
  intros H [->|Hin]; [now rewrite String.eqb_refl|].
  inversion H as [|? ? Hn Hnd]; subst.
  destruct (String.eqb (name g) (name f)) eqn:E; [|now apply IH].
  apply String.eqb_eq in E. exfalso. apply Hn. rewrite E. now apply in_map.
Qed.

Lemma newest_head (fs : list file) (f : file) :
  In f fs -> (forall g, In g fs -> g = f \/ mtime g < mtime f) ->
  exists rest, Fs.newest_first fs = f :: rest.
Proof.
  unfold Fs.newest_first. induction fs as [|g fs IH]; simpl; [tauto|].
  intros Hin Hall.
  assert (Hall' : forall g, In g fs -> g = f \/ mtime g < mtime f) by auto.
  destruct (Hall g (or_introl eq_refl)) as [->|Hlt].
  - rewrite insert_by_front; [eauto|].
    intros z Hz. apply Z.ltb_ge.
    apply (Permutation_in _ (Permutation_sym (sort_by_perm _ fs))) in Hz.
    destruct (Hall' z Hz) as [->|Hlt]; lia.
  - destruct Hin as [->|Hin]; [lia|].
    destruct (IH Hin Hall') as [rest Hrest]. rewrite Hrest. simpl.
    apply Z.ltb_lt in Hlt. rewrite Hlt. eauto.
Qed.

Context (is_backup : string -> bool) (summary_name : string -> string).

(** The file a run writes is newer than the files it found, so it heads
    the listing and is out of the reach of the pruning. *)
Lemma written_is_newest (d : disk) (sums : list string) (n : string) (t : Z)
      (doc : json) (keep : nat) :
  NoDup (map name (backups d)) ->
  (forall f, In f (backups d) -> mtime f < t) ->
  is_backup n = true -> (0 < keep)%nat ->
  let d1 := Disk (Fs.write (backups d) n t doc) (safety_backups d) sums in
  let d' := if (keep <? length (Fs.listed is_backup d1))%nat
            then fold_left (Fs.delete_with summary_name)
                           (skipn keep (Fs.listed is_backup d1)) d1
            else d1 in
  Fs.find (backups d') n = Some (File n t (Ok doc)) /\
  exists rest, Fs.listed is_backup d' = File n t (Ok doc) :: rest.
Proof.
  intros Hnd Hold Hname Hkeep d1 d'.
  set (F := File n t (Ok doc)).
  assert (Hnd1 : NoDup (map name (backups d1))) by now apply write_NoDup.
  assert (Hhead : exists rest, Fs.listed is_backup d1 = F :: rest).
  { unfold Fs.listed. apply newest_head.
    - apply filter_In. split; [apply write_has|exact Hname].
    - intros g Hg. apply filter_In in Hg as [Hg _].
      apply write_In in Hg as [->|Hg]; [now left|right]. now apply Hold. }
  assert (Hend : forall d2, NoDup (map name (backups d2)) ->
                            (exists rest, Fs.listed is_backup d2 = F :: rest) ->
                            Fs.find (backups d2) n = Some F /\
                            exists rest, Fs.listed is_backup d2 = F :: rest).
  { intros d2 Hnd2 [rest Hrest]. split; [|eauto].
    apply (find_NoDup (backups d2) F Hnd2).
    assert (Hin : In F (Fs.listed is_backup d2)) by (rewrite Hrest; now left).
    unfold Fs.listed, Fs.newest_first in Hin.
    apply (Permutation_in _ (Permutation_sym (sort_by_perm _ _))) in Hin.
    now apply filter_In in Hin as [Hin _]. }
  subst d'. destruct (keep <? length (Fs.listed is_backup d1))%nat eqn:E.
  - apply Nat.ltb_lt in E.
    destruct (prune_spec is_backup summary_name keep d1 Hnd1 E) as (Hl & _).
    apply Hend.
    + rewrite fold_delete. simpl. now apply filter_names_NoDup.
    + rewrite Hl. destruct Hhead as [rest ->].
      destruct keep as [|keep]; [lia|]. simpl. eauto.
  - now apply Hend.
Qed.

End Written.


(** X7.  A run that succeeds, at a time later than the files it found,
    leaves its backup file in place, pruning included, and that file is the
    latest backup the next run will compare with; the document records the
    timestamp of the run. *)
Theorem backup_is_latest {St : Type} (exec : op -> St -> result json * St)
        (fuel : nat) (e : env) (force_full compress : bool) (w w' : world St) :
  NoDup (map name (backups (files w))) ->
  (forall f, In f (backups (files w)) -> mtime f < clock e) ->
  (BackupSupabase.create_backup exec fuel e force_full w = Some (true, w') ->
   let n := "supabase_backup_" +:+ now e +:+ ".json" in
   exists doc,
     Fs.find (backups (files w')) n = Some (File n (clock e) (Ok doc)) /\
     BackupSupabase.get_latest_backup (files w') = doc /\
     (m ← Py.subscript doc "metadata"; Py.subscript m "timestamp") = Ok (JStr (now e))) /\
  (SupabaseBackup.create_backup exec fuel e force_full compress w = Some (true, w') ->
   let n := "supabase_backup_" +:+ now e +:+ ".json"
            +:+ (if compress then ".gz" else EmptyString) in
   exists doc,
     Fs.find (backups (files w')) n = Some (File n (clock e) (Ok doc)) /\
     SupabaseBackup.get_latest_backup (files w') = doc /\
     (m ← Py.subscript doc "metadata"; Py.subscript m "timestamp") = Ok (JStr (now e))).
Proof.
  intros Hnd Hold. split.
  - unfold BackupSupabase.create_backup.
    destruct (negb (dotenv e)); [intros [=]|].
    destruct (negb (credentials e)); [intros [=]|].
    match goal with
    | |- context [match ?X with Ok _ => _ | Raise _ => _ end] => destruct X as [ts|]
    end; [|intros [=]].
    match goal with
    | |- context [BackupSupabase.backup_tables exec fuel ?pb ts force_full ?l ?p w] =>
        set (previous := pb);
        destruct (BackupSupabase.backup_tables exec fuel previous ts force_full l p w)
          as [[p1 w1]|] eqn:E; [|discriminate]
    end.
    apply backup_tables_sends in E as [_ E].
    destruct (negb (writable e)); [intros [=]|].
    destruct (negb (summary_writable e)); [intros [=]|]. intros [= <-].
    set (n := "supabase_backup_" +:+ now e +:+ ".json").
    exists (BackupSupabase.backup_document e previous ts p1).
    simpl files. unfold BackupSupabase.cleanup_old_backups, BackupSupabase.backup_files,
      BackupSupabase.delete_backup, BackupSupabase.get_latest_backup,
      BackupSupabase.backup_files.
    rewrite E in *.
    destruct (written_is_newest BackupSupabase.is_backup_name BackupSupabase.summary_name
                (files w)
                (Fs.add_name (summaries (files w)) ("backup_summary_" +:+ now e +:+ ".json"))
                n (clock e) (BackupSupabase.backup_document e previous ts p1) 288
                Hnd Hold) as (Hfind & rest & Hrest).
    { unfold BackupSupabase.is_backup_name, n. rewrite strip_prefix_app.
      apply ends_with_app. }
    { lia. }
    cbv zeta in Hfind, Hrest.
    split; [exact Hfind|]. split; [|reflexivity].
    now rewrite Hrest.
  - unfold SupabaseBackup.create_backup.
    destruct (negb (dotenv e)); [intros [=]|].
    destruct (negb (credentials e)); [intros [=]|].
    match goal with
    | |- context [match ?X with Ok _ => _ | Raise _ => _ end] => destruct X as [ts|]
    end; [|intros [=]].
    match goal with
    | |- context [SupabaseBackup.backup_tables exec fuel ?pb ts force_full ?l ?p w] =>
        set (previous := pb);
        destruct (SupabaseBackup.backup_tables exec fuel previous ts force_full l p w)
          as [[p1 w1]|] eqn:E; [|discriminate]
    end.
    apply backup_tables_seq_sends in E as [_ E].
    destruct (negb (writable e)); [intros [=]|].
    destruct (negb (summary_writable e)); [intros [=]|]. intros [= <-].
    set (n := "supabase_backup_" +:+ now e +:+ ".json"
              +:+ (if compress then ".gz" else EmptyString)).
    exists (SupabaseBackup.backup_document e compress previous ts p1).
    simpl files. unfold SupabaseBackup.cleanup_old_backups, SupabaseBackup.backup_files,
      SupabaseBackup.delete_backup, SupabaseBackup.get_latest_backup,
      SupabaseBackup.backup_files.
    rewrite E in *.
    destruct (written_is_newest SupabaseBackup.is_backup_name SupabaseBackup.summary_name
                (files w)
                (Fs.add_name (summaries (files w)) ("backup_summary_" +:+ now e +:+ ".json"))
                n (clock e) (SupabaseBackup.backup_document e compress previous ts p1) 288
                Hnd Hold) as (Hfind & rest & Hrest).
    { unfold SupabaseBackup.is_backup_name, n. rewrite strip_prefix_app.
      apply contains_app. }
    { lia. }
    cbv zeta in Hfind, Hrest.
    split; [exact Hfind|]. split; [|reflexivity].
    now rewrite Hrest.
Qed.

Lemma backup_is_latest_witness :
  exists doc,
    Fs.find (backups Example.disk2) Example.backup2
    = Some (File Example.backup2 400 (Ok doc)) /\
    BackupSupabase.get_latest_backup Example.disk2 = doc /\
    (m ← Py.subscript doc "metadata"; Py.subscript m "timestamp")
    = Ok (JStr "20240101_000500").
Proof.
  refine (proj1 (backup_is_latest Example.exec 5 Example.run2 false false
                   (Example.clean Example.store1 Example.disk1)
                   (World Example.store1 [Select "users" 0 999; Select "orders" 0 999]
                          Example.disk2) _ _) _).
  - vm_compute. repeat constructor; simpl; tauto.
  - vm_compute. intros f [<-|[]]. reflexivity.
  - vm_compute. reflexivity.
Defined.


(** ** Columns left out of the write-back *)

Section Excluded.

Import Common.

Lemma assoc_filter_out (P : string * json -> bool) (d : list (string * json)) (k : string) :
  (forall v, P (k, v) = false) -> Py.assoc (filter P d) k = None.
Proof.
  intros HP. induction d as [|[k' v'] d IH]; simpl; [reflexivity|].
  destruct (P (k', v')) eqn:E; simpl; [|exact IH].
  destruct (String.eqb k' k) eqn:Ek; [|exact IH].
  apply String.eqb_eq in Ek. subst k'. now rewrite HP in E.
Qed.

Lemma filter_row_drops (cols : list string) (col : string) (row : json) :
  In col cols -> has_column col (filter_row cols row) = false.
Proof.
  intros Hin. destruct row; try reflexivity. simpl. unfold Py.has_key.
  rewrite assoc_filter_out; [reflexivity|].
  intros v. simpl. apply negb_false_iff, existsb_exists.
  exists col. split; [exact Hin|apply String.eqb_refl].
Qed.

Lemma filter_row_dict (cols : list string) (row : json) :
  Py.is_dict row = true -> Py.is_dict (filter_row cols row) = true.
Proof. now destruct row. Qed.

Lemma filter_row_no_id (cols : list string) (row id : json) :
  In "id" cols -> Py.get (filter_row cols row) "id" = Ok id -> Py.truthy id = false.
Proof.
  intros Hin. destruct row; try discriminate. simpl. unfold Py.dict_get.
  rewrite assoc_filter_out; [now intros [= <-]|].
  intros v. simpl. apply negb_false_iff, existsb_exists.
  exists "id". split; [exact Hin|reflexivity].
Qed.

End Excluded.

(** X8.  The rows of a table being dicts, no request of its write-back
    carries a column excluded for the table: [booking_number] never goes to
    [booking_hajj], nor [id] to [room_allotments], in a batch, in a single
    upsert or in an update. *)
Theorem excluded_columns_never_sent {St : Type} (exec : op -> St -> result json * St)
        (table : string) (rows : list json) (w : world St) :
  Forall (fun row => Py.is_dict row = true) rows ->
  exists ops,
    trace (snd (Common.restore_rows exec table 100 rows w)) = trace w ++ ops /\
    forall o row col,
      In o ops -> In row (Common.payload_rows o) ->
      In col (Common.columns_to_exclude table) ->
      Common.has_column col row = false.
Proof.
  intros Hdict.
  destruct (restore_rows_sends exec table 100 rows w ltac:(lia)) as [Hs _].
  apply sends_ops in Hs as (ops & Ht & _ & Hops).
  exists ops. split; [exact Ht|].
  intros o row col Ho Hrow Hcol. specialize (Hops o Ho).
  assert (Hfiltered : forall r,
            In r (map (Common.filter_row (Common.columns_to_exclude table)) rows) ->
            Py.is_dict r = true /\ Common.has_column col r = false).
  { intros r Hr. apply in_map_iff in Hr as (r0 & <- & Hr0). split.
    - apply filter_row_dict. rewrite Forall_forall in Hdict. now apply Hdict.
    - now apply filter_row_drops. }
  destruct o as [| |t payload|t urow id| |]; simpl in Hops; try contradiction.
  - destruct Hops as [_ [(batch & -> & Hincl)|Hin]].
    + simpl in Hrow. now apply Hfiltered, Hincl.
    + destruct (Hfiltered payload Hin) as [Hd Hc].
      destruct payload; try discriminate. simpl in Hrow.
      destruct Hrow as [<-|[]]. exact Hc.
  - destruct Hops as (_ & r & Hr & -> & _). simpl in Hrow.
    destruct Hrow as [<-|[]]. now apply filter_row_drops.
Qed.

Lemma excluded_columns_never_sent_witness :
  exists ops,
    trace (snd (Common.restore_rows
                  Example.exec "booking_hajj" 100
                  [JDict [("id", JInt 1); ("booking_number", JStr "B-1")]]
                  (Example.clean [] (Disk [] [] []))))
    = [] ++ ops /\
    forall o row col,
      In o ops -> In row (Common.payload_rows o) ->
      In col (Common.columns_to_exclude "booking_hajj") ->
      Common.has_column col row = false.
Proof.
  apply (excluded_columns_never_sent
           Example.exec "booking_hajj"
           [JDict [("id", JInt 1); ("booking_number", JStr "B-1")]]
           (Example.clean [] (Disk [] [] []))).
  repeat constructor.
Defined.

(** X9.  The write-back of a table whose ['id'] is excluded, as it is for
    [room_allotments], sends upserts only: the update that answers a
    duplicate-key error is never sent, the row having lost its id, so a
    row the store refuses as a duplicate is never written. *)
Theorem excluded_id_is_never_updated {St : Type} (exec : op -> St -> result json * St)
        (rows : list json) (w : world St) :
  Common.columns_to_exclude "room_allotments" = ["id"] /\
  exists ops,
    trace (snd (Common.restore_rows exec "room_allotments" 100 rows w)) = trace w ++ ops /\
    forall o, In o ops -> exists payload, o = Upsert "room_allotments" payload.
Proof.
  split; [reflexivity|].
  destruct (restore_rows_sends exec "room_allotments" 100 rows w ltac:(lia)) as [Hs _].
  apply sends_ops in Hs as (ops & Ht & _ & Hops).
  exists ops. split; [exact Ht|].
  intros o Ho. specialize (Hops o Ho).
  destruct o as [| |t payload|t urow id| |]; simpl in Hops; try contradiction.
  - destruct Hops as [-> _]. now exists payload.
  - destruct Hops as (_ & r & Hr & _ & Hget & Htruthy). exfalso.
    apply in_map_iff in Hr as (r0 & <- & _).
    apply filter_row_no_id in Hget; [congruence|now left].
Qed.


(** ** Rollback *)

(** X10.  [backup_supabase_safe.py]: a rollback looks for the safety backup
    in the directory of the safety backups, then restores a file of that
    name from the directory of the regular backups.  When no file of that
    name is there, the confirmed rollback takes one more safety backup and
    returns failure: only reads have been sent, and the store has not been
    rolled back. *)
Theorem rollback_needs_a_copy_in_backups {St : Type} (exec : op -> St -> result json * St)
        (fuel : nat) (e : env) (safety_backup_file : string) (f : file)
        (pre : option string) (w w1 : world St) :
  Fs.find (safety_backups (files w)) safety_backup_file = Some f ->
  Fs.find (backups (files w)) safety_backup_file = None ->
  BackupSupabaseSafe.create_safety_backup exec fuel e w = Some (pre, w1) ->
  BackupSupabaseSafe.rollback_from_safety_backup exec fuel e safety_backup_file
                                                 "ROLLBACK" w
  = Some (false, w1) /\
  Common.sends exec Common.is_read w w1 /\
  backups (files w1) = backups (files w).
Proof.
  intros Hs Hb Hc. unfold BackupSupabaseSafe.rollback_from_safety_backup.
  rewrite Hs, Hc. simpl.
  apply create_safety_backup_safe_sends in Hc as [Hr Hf].
  unfold BackupSupabaseSafe.restore_backup_safe. rewrite Hf, Hb. now repeat split.
Qed.

Lemma rollback_needs_a_copy_in_backups_witness :
  exists w1,
    BackupSupabaseSafe.rollback_from_safety_backup
      Example.exec 5 Example.run2 Example.safety_file "ROLLBACK"
      (Example.clean Example.store1 Example.rescue)
    = Some (false, w1) /\
    Common.sends Example.exec Common.is_read (Example.clean Example.store1 Example.rescue) w1 /\
    backups (files w1) = backups Example.rescue.
Proof.
  eexists.
  eapply (rollback_needs_a_copy_in_backups
            Example.exec 5 Example.run2 Example.safety_file _ _
            (Example.clean Example.store1 Example.rescue)).
  - reflexivity.
  - reflexivity.
  - reflexivity.
Defined.

(** X11.  [supabase_backup.py]: the same holds of its rollback, which looks
    in the directory of the regular backups for the name of the safety
    backup, and for that name followed by [.gz], before any worker of the
    restore is started. *)
Theorem rollback_looks_in_backups_dir {St : Type}
        (exec : op -> St -> result json * St)
        (fuel : nat) (e : env) (safety_backup_file : string) (f : file)
        (pre : option string) (w w1 : world St) :
  Fs.find (safety_backups (files w)) safety_backup_file = Some f ->
  SupabaseBackup.find_backup (files w) safety_backup_file = None ->
  SupabaseBackup.create_safety_backup exec fuel e w = Some (pre, w1) ->
  SupabaseBackup.rollback_from_safety_backup exec fuel e safety_backup_file "ROLLBACK" w
  = Some (false, w1) /\
  Common.sends exec Common.is_read w w1 /\
  backups (files w1) = backups (files w).
Proof.
  intros Hs Hb Hc. unfold SupabaseBackup.rollback_from_safety_backup.
  rewrite Hs, Hc. simpl.
  apply create_safety_backup_sends in Hc as [Hr Hf].
  unfold SupabaseBackup.restore_backup, SupabaseBackup.find_backup in *.
  rewrite Hf, Hb. now repeat split.
Qed.

Lemma rollback_looks_in_backups_dir_witness :
  exists w1,
    SupabaseBackup.rollback_from_safety_backup
      Example.exec 5 Example.run2 Example.safety_file "ROLLBACK"
      (Example.clean Example.store1 Example.rescue)
    = Some (false, w1) /\
    Common.sends Example.exec Common.is_read (Example.clean Example.store1 Example.rescue) w1 /\
    backups (files w1) = backups Example.rescue.
Proof.
  eexists.
  eapply (rollback_looks_in_backups_dir
            Example.exec 5 Example.run2 Example.safety_file _ _
            (Example.clean Example.store1 Example.rescue)).
  - reflexivity.
  - reflexivity.
  - reflexivity.
Defined.


(** ** The list of tables *)

Section Tables.

Import Common.

Lemma add_table_NoDup (l : list string) (n : string) :
  NoDup l -> NoDup (add_table l n).
Proof.
  intros H. unfold add_table. destruct (existsb (String.eqb n) l) eqn:E; [exact H|].
  apply NoDup_rev in H. rewrite <- (rev_involutive (l ++ [n])).
  apply NoDup_rev. rewrite rev_app_distr. simpl. constructor; [|exact H].
  rewrite <- in_rev. intros Hin. apply named_In in Hin. unfold Fs.named in Hin. congruence.
Qed.

Lemma schema_tables_NoDup (schema_text : string) : NoDup (schema_tables schema_text).
Proof.
  unfold schema_tables.
  assert (H : forall names acc, NoDup acc -> NoDup (fold_left add_table names acc)).
  { induction names as [|n names IH]; intros acc Hacc; simpl; [exact Hacc|].
    now apply IH, add_table_NoDup. }
  apply H. constructor.
Qed.

Lemma contains_false (sub : string) (c : ascii) (s : string) :
  PyStr.contains sub (String c s) = false ->
  PyStr.strip_prefix sub (String c s) = None /\ PyStr.contains sub s = false.
Proof.
  simpl. destruct (PyStr.strip_prefix sub (String c s)); [discriminate|]. now split.
Qed.

Lemma create_tables_none (fuel : nat) (s : string) :
  PyStr.contains "CREATE TABLE public." s = false -> create_tables_fuel fuel s = [].
Proof.
  revert s. induction fuel as [|fuel IH]; intros s H; [reflexivity|].
  destruct s as [|c s]; [reflexivity|].
  apply contains_false in H as [H1 H2].
  cbn [create_tables_fuel]. rewrite H1. now apply IH.
Qed.

End Tables.

(** X12.  Whatever the schema file holds, the list of tables names no table
    twice, in either script: a table is fetched and stored once in a run. *)
Theorem tables_are_listed_once (query_sql parent_query_sql : option string) :
  NoDup (BackupSupabase.get_all_tables query_sql parent_query_sql) /\
  NoDup (SupabaseBackup.get_all_tables query_sql parent_query_sql).
Proof.
  assert (H1 : NoDup BackupSupabase.default_tables).
  { unfold BackupSupabase.default_tables.
    repeat (constructor; [simpl; intuition discriminate|]). constructor. }
  assert (H2 : NoDup SupabaseBackup.default_tables).
  { unfold SupabaseBackup.default_tables.
    repeat (constructor; [simpl; intuition discriminate|]). constructor. }
  unfold BackupSupabase.get_all_tables, SupabaseBackup.get_all_tables.
  destruct (match query_sql with Some _ => query_sql | None => parent_query_sql end)
    as [schema_text|]; [|now split].
  split; [apply schema_tables_NoDup|].
  pose proof (schema_tables_NoDup schema_text) as H.
  now destruct (Common.schema_tables schema_text).
Qed.

(** X13.  A schema file that defines no table of the [public] schema gives
    [backup_supabase.py] an empty list of tables, so that its run backs up
    nothing, while [supabase_backup.py] falls back to its default list; the
    file beside the script hides the one a directory up. *)
Theorem schema_without_tables (schema_text : string) (parent_query_sql : option string) :
  PyStr.contains "CREATE TABLE public." schema_text = false ->
  BackupSupabase.get_all_tables (Some schema_text) parent_query_sql = [] /\
  SupabaseBackup.get_all_tables (Some schema_text) parent_query_sql
  = SupabaseBackup.default_tables.
Proof.
  intros H. unfold BackupSupabase.get_all_tables, SupabaseBackup.get_all_tables,
    Common.schema_tables, Common.create_tables.
  now rewrite (create_tables_none _ _ H).
Qed.

Lemma schema_without_tables_witness :
  BackupSupabase.get_all_tables (Some "CREATE TABLE auth.users (id uuid);")
    (Some "CREATE TABLE public.users (id uuid);") = [] /\
  SupabaseBackup.get_all_tables (Some "CREATE TABLE auth.users (id uuid);")
    (Some "CREATE TABLE public.users (id uuid);") = SupabaseBackup.default_tables.
Proof.
  apply (schema_without_tables "CREATE TABLE auth.users (id uuid);"
           (Some "CREATE TABLE public.users (id uuid);")).
  reflexivity.
Defined.


(** ** The fingerprint and the order of the columns *)

Section Columns.

Import Common.

Lemma assoc_perm {A} (d d' : list (string * A)) (k : string) :
  Permutation d d' -> NoDup (map fst d) -> Py.assoc d k = Py.assoc d' k.
Proof.
  induction 1 as [|[k0 v0] l l' Hp IH|[k1 v1] [k2 v2] l|l l' l'' Hp1 IH1 Hp2 IH2];
    intros Hnd; simpl in *.
  - reflexivity.
  - inversion Hnd; subst. destruct (String.eqb k0 k); [reflexivity|now apply IH].
  - inversion Hnd as [|? ? Hn _]; subst.
    destruct (String.eqb k1 k) eqn:E1, (String.eqb k2 k) eqn:E2; try reflexivity.
    apply String.eqb_eq in E1, E2. subst. exfalso. apply Hn. now left.
  - rewrite IH1 by assumption. apply IH2.
    eapply Permutation_NoDup; [|exact Hnd]. now apply Permutation_map.
Qed.

Lemma NoDup_fst_inj {A B} (d : list (A * B)) (a b : A * B) :
  NoDup (map fst d) -> In a d -> In b d -> fst a = fst b -> a = b.
Proof.
  induction d as [|x d IH]; simpl; [tauto|].
  intros Hnd. inversion Hnd as [|? ? Hn Hnd']; subst.
  intros [->|Ha] [->|Hb] Hab; try reflexivity.
  - exfalso. apply Hn. rewrite Hab. now apply in_map.
  - exfalso. apply Hn. rewrite <- Hab. now apply in_map.
  - now apply IH.
Qed.

Lemma dumps_reordered (x y : json) : reordered x y -> Py.dumps x = Py.dumps y.
Proof.
  intros (d & d' & -> & -> & Hp & Hnd). cbn [Py.dumps]. do 4 f_equal.
  apply sort_by_permutation.
  - intros a b. apply string_ltb_asym.
  - intros a b c. apply string_le_trans.
  - now apply Permutation_map.
  - intros a b Ha Hb H1 H2.
    apply in_map_iff in Ha as (kv1 & <- & Hin1), Hb as (kv2 & <- & Hin2).
    simpl in H1, H2.
    assert (kv1 = kv2) as ->; [|reflexivity].
    apply (NoDup_fst_inj d); try assumption. now apply string_tie.
Qed.

Lemma reordered_key (x y : json) :
  reordered x y -> has_column "id" x = true ->
  exists k, sort_key x = Ok k /\ sort_key y = Ok k.
Proof.
  intros (d & d' & -> & -> & Hp & Hnd) Hid. simpl in *. unfold Py.has_key in Hid.
  unfold Py.dict_get. rewrite <- (assoc_perm d d' "id" Hp Hnd).
  destruct (Py.assoc d "id") as [v|]; [eauto|discriminate].
Qed.

Lemma insert_by_related {A B} (R : A -> B -> Prop)
      (ltb : A -> A -> bool) (ltb' : B -> B -> bool) (x : A) (y : B)
      (l : list A) (l' : list B) :
  (forall a a' b b', R a a' -> R b b' -> ltb a b = ltb' a' b') ->
  R x y -> Forall2 R l l' ->
  Forall2 R (Py.insert_by ltb x l) (Py.insert_by ltb' y l').
Proof.
  intros Hltb Hxy H. induction H as [|a b l l' Hab H IH]; simpl.
  - now repeat constructor.
  - rewrite <- (Hltb a b x y Hab Hxy). destruct (ltb a x); now repeat constructor.
Qed.

Lemma sort_by_related {A B} (R : A -> B -> Prop)
      (ltb : A -> A -> bool) (ltb' : B -> B -> bool) (l : list A) (l' : list B) :
  (forall a a' b b', R a a' -> R b b' -> ltb a b = ltb' a' b') ->
  Forall2 R l l' -> Forall2 R (Py.sort_by ltb l) (Py.sort_by ltb' l').
Proof.
  intros Hltb H. induction H as [|a b l l' Hab H IH]; simpl; [constructor|].
  now apply insert_by_related.
Qed.

Lemma all_pairs_related {A B} (R : A -> B -> Prop)
      (p : A -> A -> bool) (p' : B -> B -> bool) (l : list A) (l' : list B) :
  (forall a a' b b', R a a' -> R b b' -> p a b = p' a' b') ->
  Forall2 R l l' -> Py.all_pairs p l = Py.all_pairs p' l'.
Proof.
  intros Hp H. induction H as [|a b l l' Hab H IH]; simpl; [reflexivity|].
  rewrite IH. f_equal. clear IH. induction H as [|c e l l' Hce H IH]; simpl; [reflexivity|].
  rewrite IH. f_equal. now apply Hp.
Qed.

Lemma keyed_reordered (rows rows' : list json) :
  Forall2 reordered rows rows' ->
  Forall (fun x => has_column "id" x = true) rows ->
  exists keyed keyed',
    mapM (fun x => k ← sort_key x; mret (k, x)) rows = Ok keyed /\
    mapM (fun x => k ← sort_key x; mret (k, x)) rows' = Ok keyed' /\
    Forall2 (fun a b : json * json => fst a = fst b /\ reordered (snd a) (snd b))
            keyed keyed'.
Proof.
  intros H. induction H as [|x y rows rows' Hxy H IH]; intros Hid.
  - exists [], []. repeat split. constructor.
  - inversion Hid as [|? ? Hx Hid']; subst.
    destruct (IH Hid') as (keyed & keyed' & E & E' & HF).
    destruct (reordered_key x y Hxy Hx) as (k & Ek & Ek').
    exists ((k, x) :: keyed), ((k, y) :: keyed'). repeat split.
    + cbn [mapM]. rewrite Ek. simpl. rewrite E. reflexivity.
    + cbn [mapM]. rewrite Ek'. simpl. rewrite E'. reflexivity.
    + constructor; [now split|exact HF].
Qed.

Lemma sorted_data_reordered (rows rows' : list json) :
  Forall2 reordered rows rows' ->
  Forall (fun x => has_column "id" x = true) rows ->
  exists l l', sorted_data (JList rows) = JList l /\ sorted_data (JList rows') = JList l' /\
               Forall2 reordered l l'.
Proof.
  intros H Hid. destruct (keyed_reordered rows rows' H Hid) as (keyed & keyed' & E & E' & HF).
  unfold sorted_data, Py.sorted. simpl. rewrite E, E'. simpl.
  rewrite (all_pairs_related (fun a b : json * json => fst a = fst b /\ reordered (snd a) (snd b)) _ (fun a b => Py.comparable (fst a) (fst b))
             keyed keyed'); [|intros a a' b b' [-> _] [-> _]; reflexivity|exact HF].
  destruct (Py.all_pairs _ keyed'); [|now exists rows, rows'].
  eexists _, _. repeat split.
  assert (Hs : Forall2 (fun a b : json * json => fst a = fst b /\ reordered (snd a) (snd b))
                      (Py.sort_by Py.key_ltb keyed) (Py.sort_by Py.key_ltb keyed')).
  { apply sort_by_related; [|exact HF].
    intros a a' b b' [Ha _] [Hb _]. unfold Py.key_ltb. now rewrite Ha, Hb. }
  clear - Hs. induction Hs as [|a b l l' [_ Hab] Hs IH]; simpl; now constructor.
Qed.

Lemma fingerprint_reordered (rows rows' : list json) :
  Forall2 reordered rows rows' ->
  Forall (fun x => has_column "id" x = true) rows ->
  calculate_table_hash (JList rows) = calculate_table_hash (JList rows').
Proof.
  intros H Hid. unfold calculate_table_hash, json_str.
  destruct (sorted_data_reordered rows rows' H Hid) as (l & l' & -> & -> & HF).
  assert (Ht : Py.truthy (JList rows) = Py.truthy (JList rows')) by now destruct H.
  rewrite Ht. destruct (negb (Py.truthy (JList rows'))); [reflexivity|].
  f_equal. cbn [Py.dumps]. do 3 f_equal.
  clear - HF. induction HF as [|a b l l' Hab HF IH]; simpl; [reflexivity|].
  now rewrite IH, (dumps_reordered a b Hab).
Qed.

End Columns.

(** X14.  The fingerprint of a table does not depend on the order of the
    columns inside its rows, as long as the rows carry an ['id']: a table
    fetched with its columns in another order compares as unchanged. *)
Theorem fingerprint_ignores_column_order (rows rows' : list json) :
  Forall2 Common.reordered rows rows' ->
  Forall (fun x => Common.has_column "id" x = true) rows ->
  Common.calculate_table_hash (JList rows) = Common.calculate_table_hash (JList rows') /\
  Common.compare_table_data (JList rows') (JList rows)
  = Ok (Common.Same (Common.calculate_table_hash (JList rows'))).
Proof.
  intros H Hid. pose proof (fingerprint_reordered rows rows' H Hid) as E.
  split; [exact E|].
  unfold Common.compare_table_data. now rewrite E, String.eqb_refl.
Qed.

Lemma fingerprint_ignores_column_order_witness :
  Common.calculate_table_hash (JList [JDict [("id", JInt 1); ("name", JStr "ani")]])
  = Common.calculate_table_hash (JList [JDict [("name", JStr "ani"); ("id", JInt 1)]]) /\
  Common.compare_table_data (JList [JDict [("name", JStr "ani"); ("id", JInt 1)]])
                            (JList [JDict [("id", JInt 1); ("name", JStr "ani")]])
  = Ok (Common.Same (Common.calculate_table_hash
                       (JList [JDict [("name", JStr "ani"); ("id", JInt 1)]]))).
Proof.
  apply (fingerprint_ignores_column_order
           [JDict [("id", JInt 1); ("name", JStr "ani")]]
           [JDict [("name", JStr "ani"); ("id", JInt 1)]]).
  - constructor; [|constructor].
    exists [("id", JInt 1); ("name", JStr "ani")], [("name", JStr "ani"); ("id", JInt 1)].
    repeat split; [apply perm_swap|].
    repeat constructor; simpl; intuition discriminate.
  - repeat constructor.
Defined.


(** ** What pruning leaves alone *)

(** X15.  Pruning only deletes backup files that match the pattern of its
    script, and summaries: it leaves the safety backups as they are, keeps
    every file of another name, adds no file, and deletes nothing when no
    more than the count of backups exist. *)
Theorem pruning_spares_other_files (keep_count : nat) (d : disk) :
  let spares (is_backup_name : string -> bool) (d' : disk) :=
    safety_backups d' = safety_backups d /\
    (forall f, In f (backups d') -> In f (backups d)) /\
    (forall f, In f (backups d) -> is_backup_name (name f) = false -> In f (backups d')) /\
    (forall n, In n (summaries d') -> In n (summaries d)) in
  spares BackupSupabase.is_backup_name (BackupSupabase.cleanup_old_backups keep_count d) /\
  spares SupabaseBackup.is_backup_name (SupabaseBackup.cleanup_old_backups keep_count d) /\
  ((length (BackupSupabase.backup_files d) <= keep_count)%nat ->
   BackupSupabase.cleanup_old_backups keep_count d = d) /\
  ((length (SupabaseBackup.backup_files d) <= keep_count)%nat ->
   SupabaseBackup.cleanup_old_backups keep_count d = d).
Proof.
  intros spares.
  assert (H : forall (is_backup : string -> bool) (summary_name : string -> string)
                     (l : list file),
             (forall g, In g l -> is_backup (name g) = true) ->
             spares is_backup (fold_left (Fs.delete_with summary_name) l d)).
  { intros is_backup summary_name l Hl. rewrite fold_delete. unfold spares. simpl.
    repeat split.
    - intros f Hf. now apply filter_In in Hf.
    - intros f Hf Hn. apply filter_In. split; [exact Hf|].
      apply negb_true_iff. destruct (Fs.named (map name l) (name f)) eqn:E; [|reflexivity].
      apply named_In, in_map_iff in E as (g & Hg & Hin).
      apply Hl in Hin. congruence.
    - intros n Hn. now apply filter_In in Hn. }
  assert (Hsame : forall is_backup, spares is_backup d).
  { intros is_backup. unfold spares. now repeat split. }
  assert (Hlisted : forall (is_backup : string -> bool) g,
             In g (skipn keep_count (Fs.listed is_backup d)) -> is_backup (name g) = true).
  { intros is_backup g Hg.
    assert (Hin : In g (Fs.listed is_backup d))
      by (rewrite <- (firstn_skipn keep_count); apply in_or_app; now right).
    clear Hg. rename Hin into Hg.
    unfold Fs.listed, Fs.newest_first in Hg.
    apply (Permutation_in _ (Permutation_sym (sort_by_perm _ _))) in Hg.
    now apply filter_In in Hg. }
  unfold BackupSupabase.cleanup_old_backups, SupabaseBackup.cleanup_old_backups,
    BackupSupabase.backup_files, SupabaseBackup.backup_files,
    BackupSupabase.delete_backup, SupabaseBackup.delete_backup.
  split; [|split; [|split]].
  - destruct (_ <? _)%nat; [apply H, Hlisted|apply Hsame].
  - destruct (_ <? _)%nat; [apply H, Hlisted|apply Hsame].
  - intros Hle. apply Nat.ltb_ge in Hle. now rewrite Hle.
  - intros Hle. apply Nat.ltb_ge in Hle. now rewrite Hle.
Qed.


(** ** The reports and the files of a restore *)

(** X16.  [supabase_backup.py] reads [metadata['backup_date']] of the backup
    before it validates it.  So its restore never reports the validation
    error for a missing metadata section: a backup without metadata makes
    the restore fail on the lookup itself, and the only validation error
    left is the missing data section, reported before any request is
    sent. *)
Theorem invalid_report_is_missing_data {St : Type} (exec : op -> St -> result json * St)
        (e : env) (backup_file : string) (f : file) (safety : option string)
        (w : world St) :
  (forall errs warns,
     snd (fst (SupabaseBackup.restore_steps exec e backup_file f safety w))
     = Common.Invalid errs warns ->
     SupabaseBackup.restore_steps exec e backup_file f safety w
     = (false, Common.Invalid ["Missing data in backup"] [], w)) /\
  (forall d,
     credentials e = true -> Fs.load f = Ok (JDict d) -> Py.assoc d "metadata" = None ->
     SupabaseBackup.restore_steps exec e backup_file f safety w
     = (false, Common.Crashed "'metadata'", w)).
Proof.
  split.
  - intros errs warns H.
    destruct (SupabaseBackup.restore_steps exec e backup_file f safety w)
      as [[ok r] w'] eqn:E.
    simpl in H. subst r.
    enough (ok = false /\ errs = ["Missing data in backup"] /\ warns = [] /\ w' = w)
      as (-> & -> & -> & ->) by reflexivity.
    revert E. unfold SupabaseBackup.restore_steps.
    destruct (negb (credentials e)); [discriminate|].
    destruct (Fs.load f) as [bd|]; simpl; [|discriminate].
    destruct (Py.subscript bd "metadata") as [m|] eqn:Em; simpl; [|discriminate].
    destruct (Py.subscript m "backup_date") as [bdate|] eqn:Ed; simpl; [|discriminate].
    destruct (Py.get m "backup_type") as [bt|]; simpl; [|discriminate].
    assert (Hv : Common.validate_backup_data bd
                 = (data ← Py.get bd "data";
                    if negb (Py.truthy data)
                    then Ok (false, ["Missing data in backup"], [])
                    else match data with
                         | JDict d =>
                             Ok (true, [],
                                 map (fun t => "Critical table '" +:+ t
                                               +:+ "' not found in backup")
                                     (filter (fun t => negb (Py.has_key d t))
                                             Common.critical_tables)
                                 ++ concat (map Common.table_warnings d))
                         | _ => Raise "object has no attribute 'items'"
                         end)).
    { unfold Common.validate_backup_data.
      destruct bd as [| | | | |d]; try discriminate. simpl in Em |- *.
      unfold Py.dict_get. destruct (Py.assoc d "metadata") as [m0|]; [|discriminate].
      injection Em as ->.
      destruct m as [| | | | |md]; try discriminate. simpl in Ed.
      destruct md; [discriminate|reflexivity]. }
    rewrite Hv. clear Hv.
    destruct (Py.get bd "data") as [data|]; simpl; [|discriminate].
    destruct (negb (Py.truthy data)); simpl; [now intros [= <- <- <- <-]|].
    destruct data; simpl; try discriminate.
    repeat match goal with
           | |- context [match ?X with _ => _ end] => destruct X; try discriminate
           end.
  - intros d Hc Hl Hm. unfold SupabaseBackup.restore_steps.
    rewrite Hc, Hl. simpl. now rewrite Hm.
Qed.

Lemma invalid_report_is_missing_data_witness :
  SupabaseBackup.restore_steps
    Example.exec Example.run1 "supabase_backup_empty.json"
    (File "supabase_backup_empty.json" 50 (Ok Example.no_data)) None
    (Example.clean Example.store1 (Disk [] [] []))
  = (false, Common.Invalid ["Missing data in backup"] [],
     Example.clean Example.store1 (Disk [] [] [])).
Proof.
  apply (proj1 (invalid_report_is_missing_data
                  Example.exec Example.run1 "supabase_backup_empty.json"
                  (File "supabase_backup_empty.json" 50 (Ok Example.no_data)) None
                  (Example.clean Example.store1 (Disk [] [] [])))
               ["Missing data in backup"] []).
  reflexivity.
Defined.

Section RestoreFiles.

Import Common.

Context {St : Type} (exec : op -> St -> result json * St).

Lemma restore_row_files (table : string) (cols : list string)
      (acc : counters * world St) (row : json) :
  files (snd (restore_row exec table cols acc row)) = files (snd acc).
Proof.
  destruct acc as [c w]. unfold restore_row. rewrite !request_eq.
  destruct (fst (exec (Upsert table row) (remote w))); [reflexivity|].
  destruct (is_duplicate msg); [|now destruct (is_generated msg)].
  destruct (Py.get row "id") as [id|]; [|reflexivity].
  destruct (Py.truthy id); [|reflexivity].
  rewrite request_eq. now destruct (fst (exec _ _)).
Qed.

Lemma restore_batch_files (table : string) (cols : list string)
      (acc : counters * world St) (batch : list json) :
  files (snd (restore_batch exec table cols acc batch)) = files (snd acc).
Proof.
  destruct acc as [c w]. unfold restore_batch. rewrite request_eq.
  destruct (fst (exec _ _)); [reflexivity|].
  rewrite files_fold; [reflexivity|]. intros a x. apply restore_row_files.
Qed.

Lemma restore_rows_files (table : string) (n : nat) (rows : list json) (w : world St) :
  files (snd (restore_rows exec table n rows w)) = files w.
Proof.
  unfold restore_rows. rewrite files_fold; [reflexivity|].
  intros a x. apply restore_batch_files.
Qed.

Lemma restore_entry_files (acc : Z * list string * world St) (item : string * json) :
  files (snd (BackupSupabase.restore_entry exec acc item)) = files (snd acc).
Proof.
  destruct acc as [[n failed] w], item as [table entry].
  unfold BackupSupabase.restore_entry.
  destruct (classify entry); try reflexivity.
  pose proof (restore_rows_files table 100 rows w) as H.
  now destruct (restore_rows exec table 100 rows w).
Qed.

Lemma restore_tables_files (data : json) (tables : list string)
      (acc : restore_log * world St) :
  files (snd (BackupSupabaseSafe.restore_tables exec data tables acc)) = files (snd acc) /\
  forall acc', fst (BackupSupabaseSafe.restore_tables exec data tables acc) = Ok acc' ->
               snd acc' = snd (BackupSupabaseSafe.restore_tables exec data tables acc).
Proof.
  revert acc. induction tables as [|t tables IH]; intros acc; simpl.
  - split; [reflexivity|]. now intros acc' [= <-].
  - destruct (BackupSupabaseSafe.restore_table exec data acc t) as [acc1|] eqn:E; simpl;
      [|split; [reflexivity|discriminate]].
    destruct (IH acc1) as [IH1 IH2]. split; [|exact IH2].
    rewrite IH1. clear IH1 IH2.
    destruct acc as [log w]. unfold BackupSupabaseSafe.restore_table in E.
    destruct (Py.get data t) as [entry|]; simpl in E; [|discriminate].
    destruct (classify entry); try (injection E as <-; reflexivity).
    pose proof (restore_rows_files t 100 rows w) as H.
    destruct (restore_rows exec t 100 rows w). now injection E as <-.
Qed.

Lemma run_task_files (acc : list (string * counters) * world St)
      (task : string * list json * list string) :
  files (snd (SupabaseBackup.run_task exec acc task)) = files (snd acc).
Proof.
  destruct acc as [results w], task as [[table batch] cols].
  unfold SupabaseBackup.run_task, SupabaseBackup.restore_table_batch.
  pose proof (restore_batch_files table cols (no_counts, w) batch) as H.
  now destruct (restore_batch exec table cols (no_counts, w) batch).
Qed.

Lemma safe_restore_steps_files (e : env) (f : file) (safety : option string)
      (w : world St) :
  let w' := snd (BackupSupabaseSafe.restore_steps exec e f safety w) in
  backups (files w') = backups (files w) /\
  safety_backups (files w') = safety_backups (files w).
Proof.
  unfold BackupSupabaseSafe.restore_steps.
  destruct (negb (credentials e)); [now split|].
  match goal with
  | |- context [match ?X with Ok _ => _ | Raise _ => _ end] =>
      destruct X as [[bd [[valid errs] warns]]|]
  end; [|now split].
  destruct valid; [|now split].
  match goal with
  | |- context [match ?X with Ok _ => _ | Raise _ => _ end] => destruct X as [tables|]
  end; [|now split].
  destruct (get_table_row_counts_sends exec tables w) as [_ Hb].
  destruct (get_table_row_counts exec tables w) as [before w1]. simpl in Hb.
  destruct (BackupSupabaseSafe.effective_data (files w1) bd) as [data|];
    [|simpl; now rewrite Hb].
  match goal with
  | |- context [BackupSupabaseSafe.restore_tables exec data tables ?acc] =>
      destruct (restore_tables_files data tables acc) as [Ht _];
      destruct (BackupSupabaseSafe.restore_tables exec data tables acc) as [[[log wl]|] w2]
  end; simpl in Ht; [|simpl; now rewrite Ht, Hb].
  destruct (get_table_row_counts_sends exec tables w2) as [_ Ha].
  destruct (get_table_row_counts exec tables w2) as [after w3]. simpl in Ha.
  destruct (negb _); [simpl; now rewrite Ha, Ht, Hb|].
  destruct (negb _); simpl; now rewrite Ha, Ht, Hb.
Qed.

Lemma restore_steps_files (e : env) (backup_file : string) (f : file)
      (safety : option string) (w : world St) :
  let w' := snd (SupabaseBackup.restore_steps exec e backup_file f safety w) in
  backups (files w') = backups (files w) /\
  safety_backups (files w') = safety_backups (files w).
Proof.
  unfold SupabaseBackup.restore_steps.
  destruct (negb (credentials e)); [now split|].
  match goal with
  | |- context [match ?X with Ok _ => _ | Raise _ => _ end] =>
      destruct X as [[bd [[valid errs] warns]]|]
  end; [|now split].
  destruct valid; [|now split].
  match goal with
  | |- context [match ?X with Ok _ => _ | Raise _ => _ end] => destruct X as [tables|]
  end; [|now split].
  destruct (get_table_row_counts_sends exec tables w) as [_ Hb].
  destruct (get_table_row_counts exec tables w) as [before w1]. simpl in Hb.
  match goal with
  | |- context [match ?X with Ok _ => _ | Raise _ => _ end] =>
      destruct X as [[failed tasks]|]
  end; [|simpl; now rewrite Hb].
  pose proof (files_fold (SupabaseBackup.run_task exec) tasks ([], w1)
                (fun a x => run_task_files a x)) as Ht.
  destruct (fold_left (SupabaseBackup.run_task exec) tasks ([], w1)) as [results w2].
  simpl in Ht.
  destruct (get_table_row_counts_sends exec tables w2) as [_ Ha].
  destruct (get_table_row_counts exec tables w2) as [after w3]. simpl in Ha.
  destruct (negb _); simpl; now rewrite Ha, Ht, Hb.
Qed.

End RestoreFiles.

(** X17.  None of the three restores modifies, deletes or adds a backup
    file.  The restore of [backup_supabase.py] touches no file at all; the
    other two leave the regular backups as they are and, when the safety
    backup is skipped, the safety backups too. *)
Theorem restore_keeps_backup_files {St : Type} (exec : op -> St -> result json * St)
        (fuel : nat) (e : env) (backup_file : string) (skip_safety_backup : bool)
        (w : world St) :
  files (snd (BackupSupabase.restore_backup exec e backup_file w)) = files w /\
  (forall ok safety r w',
     BackupSupabaseSafe.restore_backup_safe exec fuel e backup_file skip_safety_backup w
     = Some (ok, safety, r, w') ->
     backups (files w') = backups (files w) /\
     (skip_safety_backup = true -> safety_backups (files w') = safety_backups (files w))) /\
  (forall ok safety r w',
     SupabaseBackup.restore_backup exec fuel e backup_file skip_safety_backup w
     = Some (ok, safety, r, w') ->
     backups (files w') = backups (files w) /\
     (skip_safety_backup = true -> safety_backups (files w') = safety_backups (files w))).
Proof.
  split; [|split].
  - unfold BackupSupabase.restore_backup.
    destruct (Fs.find _ _); [|reflexivity].
    destruct (negb (dotenv e)); [reflexivity|].
    destruct (negb (credentials e)); [reflexivity|].
    match goal with
    | |- context [match ?X with Ok _ => _ | Raise _ => _ end] => destruct X as [entries|]
    end; [|reflexivity].
    pose proof (files_fold (BackupSupabase.restore_entry exec) entries (0, [], w)
                  (fun a x => restore_entry_files exec a x)) as H.
    destruct (fold_left _ entries _) as [[n failed] w1]. exact H.
  - intros ok safety r w'. unfold BackupSupabaseSafe.restore_backup_safe.
    destruct (Fs.find _ _) as [f|]; [|now intros [= <- <- <- <-]].
    destruct (negb (dotenv e)); [now intros [= <- <- <- <-]|].
    destruct skip_safety_backup.
    + pose proof (safe_restore_steps_files exec e f None w) as [H1 H2].
      destruct (BackupSupabaseSafe.restore_steps exec e f None w) as [[ok1 r1] w1].
      now intros [= <- <- <- <-].
    + destruct (BackupSupabaseSafe.create_safety_backup exec fuel e w)
        as [[[name|] w1]|] eqn:E; [| |discriminate].
      * apply create_safety_backup_safe_sends in E as [_ E].
        pose proof (safe_restore_steps_files exec e f (Some name) w1) as [H1 H2].
        destruct (BackupSupabaseSafe.restore_steps exec e f (Some name) w1)
          as [[ok1 r1] w2].
        intros [= <- <- <- <-]. simpl in H1. split; [congruence|discriminate].
      * apply create_safety_backup_safe_sends in E as [_ E].
        intros [= <- <- <- <-]. split; [exact E|discriminate].
  - intros ok safety r w'. unfold SupabaseBackup.restore_backup.
    destruct (SupabaseBackup.find_backup _ _) as [f|]; [|now intros [= <- <- <- <-]].
    destruct (negb (dotenv e)); [now intros [= <- <- <- <-]|].
    destruct skip_safety_backup.
    + pose proof (restore_steps_files exec e backup_file f None w) as [H1 H2].
      destruct (SupabaseBackup.restore_steps exec e backup_file f None w) as [[ok1 r1] w1].
      now intros [= <- <- <- <-].
    + destruct (SupabaseBackup.create_safety_backup exec fuel e w)
        as [[[name|] w1]|] eqn:E; [| |discriminate].
      * apply create_safety_backup_sends in E as [_ E].
        pose proof (restore_steps_files exec e backup_file f (Some name) w1) as [H1 H2].
        destruct (SupabaseBackup.restore_steps exec e backup_file f (Some name) w1)
          as [[ok1 r1] w2].
        intros [= <- <- <- <-]. simpl in H1. split; [congruence|discriminate].
      * apply create_safety_backup_sends in E as [_ E].
        intros [= <- <- <- <-]. split; [exact E|discriminate].
Qed.


(** ** A run without a previous backup *)

Section NoPrevious.

Import Common.

Context {St : Type} (exec : op -> St -> result json * St).

Lemma table_step_without_previous (d : disk) (pb ts : json) (t : string)
      (cur : list json) (p : BackupSupabase.progress) :
  Py.truthy pb = false ->
  BackupSupabase.table_step d pb ts false t cur p
  = BackupSupabase.table_step d pb ts true t cur p /\
  SupabaseBackup.table_step d pb ts false t cur p
  = SupabaseBackup.table_step d pb ts true t cur p.
Proof.
  intros H. unfold BackupSupabase.table_step, SupabaseBackup.table_step,
    BackupSupabase.previous_data_of, SupabaseBackup.previous_data_of.
  rewrite H. now split.
Qed.

Lemma backup_tables_without_previous (fuel : nat) (pb ts : json) (tables : list string)
      (p : BackupSupabase.progress) (w : world St) :
  Py.truthy pb = false ->
  BackupSupabase.backup_tables exec fuel pb ts false tables p w
  = BackupSupabase.backup_tables exec fuel pb ts true tables p w.
Proof.
  intros H. revert p w. induction tables as [|t tables IH]; intros p w; simpl;
    [reflexivity|].
  destruct (fetch_table_data exec fuel t w) as [[cur w1]|]; [|reflexivity].
  destruct (table_step_without_previous (files w1) pb ts t cur p H) as [-> _].
  apply IH.
Qed.

Lemma backup_tables_seq_without_previous (fuel : nat) (pb ts : json)
      (tables : list string) (p : BackupSupabase.progress) (w : world St) :
  Py.truthy pb = false ->
  SupabaseBackup.backup_tables exec fuel pb ts false tables p w
  = SupabaseBackup.backup_tables exec fuel pb ts true tables p w.
Proof.
  intros H. revert p w. induction tables as [|t tables IH]; intros p w; simpl;
    [reflexivity|].
  destruct (fetch_table_data exec fuel t w) as [[cur w1]|]; [|reflexivity].
  destruct (table_step_without_previous (files w1) pb ts t cur p H) as [_ ->].
  apply IH.
Qed.

End NoPrevious.

(** X18.  When the newest backup file cannot be read, or no backup file
    exists, an ordinary run does exactly what a forced full run does: the
    same requests, the same document and the same files, older readable
    backups notwithstanding. *)
Theorem unreadable_latest_means_full_run {St : Type} (exec : op -> St -> result json * St)
        (fuel : nat) (e : env) (compress : bool) (w : world St) :
  (BackupSupabase.get_latest_backup (files w) = JNull ->
   BackupSupabase.create_backup exec fuel e false w
   = BackupSupabase.create_backup exec fuel e true w) /\
  (SupabaseBackup.get_latest_backup (files w) = JNull ->
   SupabaseBackup.create_backup exec fuel e false compress w
   = SupabaseBackup.create_backup exec fuel e true compress w) /\
  (forall f rest msg,
     BackupSupabase.backup_files (files w) = f :: rest -> Fs.load f = Raise msg ->
     BackupSupabase.get_latest_backup (files w) = JNull) /\
  (forall f rest msg,
     SupabaseBackup.backup_files (files w) = f :: rest -> Fs.load f = Raise msg ->
     SupabaseBackup.get_latest_backup (files w) = JNull).
Proof.
  split; [|split; [|split]].
  - intros H. unfold BackupSupabase.create_backup. rewrite H. simpl.
    now rewrite (backup_tables_without_previous exec fuel JNull JNull
                   (all_tables e) BackupSupabase.no_progress w eq_refl).
  - intros H. unfold SupabaseBackup.create_backup. rewrite H. simpl.
    now rewrite (backup_tables_seq_without_previous exec fuel JNull JNull
                   (all_tables e) BackupSupabase.no_progress w eq_refl).
  - intros f rest msg Hf Hl. unfold BackupSupabase.get_latest_backup. now rewrite Hf, Hl.
  - intros f rest msg Hf Hl. unfold SupabaseBackup.get_latest_backup. now rewrite Hf, Hl.
Qed.

Lemma unreadable_latest_means_full_run_witness :
  BackupSupabase.create_backup Example.exec 5 Example.run3 false
                               (Example.clean Example.store1 Example.torn)
  = BackupSupabase.create_backup Example.exec 5 Example.run3 true
                                 (Example.clean Example.store1 Example.torn).
Proof.
  apply (proj1 (unreadable_latest_means_full_run
                  Example.exec 5 Example.run3 false
                  (Example.clean Example.store1 Example.torn))).
  apply (proj1 (proj2 (proj2 (unreadable_latest_means_full_run
                  Example.exec 5 Example.run3 false
                  (Example.clean Example.store1 Example.torn))))
           (File "supabase_backup_20240101_000500.json" 400 (Raise "Expecting value"))
           (backups Example.disk1) "Expecting value"); reflexivity.
Defined.


(** ** The safety backup *)

Section Safety.

Import Common.

Context {St : Type} (exec : op -> St -> result json * St).

Lemma find_write (fs : list file) (n : string) (t : Z) (v : json) :
  Fs.find (Fs.write fs n t v) n = Some (File n t (Ok v)).
Proof.
  induction fs as [|g fs IH]; simpl; [now rewrite String.eqb_refl|].
  destruct (String.eqb (name g) n) eqn:E; simpl; [now rewrite String.eqb_refl|].
  now rewrite E.
Qed.

Lemma safety_tables_entries (fuel : nat) (tables : list string)
      (data data' : list (string * json)) (n n' : Z) (w w' : world St) :
  BackupSupabaseSafe.safety_tables exec fuel tables data n w = Some (data', n', w') ->
  forall t, In t tables \/ (exists rows, Py.assoc data t = Some (JList rows)) ->
            exists rows, Py.assoc data' t = Some (JList rows).
Proof.
  revert data n w. induction tables as [|x tables IH]; intros data n w; simpl.
  - intros [= <- <- <-] t [[]|H]. exact H.
  - destruct (fetch_table_data exec fuel x w) as [[rows w1]|]; [|discriminate].
    intros H t Ht. apply (IH _ _ _ H t).
    destruct (String.eqb x t) eqn:E.
    + right. exists rows. now rewrite assoc_dict_set, E.
    + destruct Ht as [[->|Ht]|[rows' Ht]].
      * now rewrite String.eqb_refl in E.
      * now left.
      * right. exists rows'. now rewrite assoc_dict_set, E.
Qed.

End Safety.

(** X19.  A safety backup that is created lies in the directory of the
    safety backups under the name returned, and holds every table of the
    list as a list of rows: it is always a full snapshot, never an
    incremental one.  Taking it sends only reads and leaves the regular
    backups as they are. *)
Theorem safety_backup_is_full {St : Type} (exec : op -> St -> result json * St)
        (fuel : nat) (e : env) (safety_backup_file : string) (w w' : world St) :
  let full (suffix : string) :=
    safety_backup_file = "safety_backup_" +:+ now e +:+ suffix /\
    (exists data total_rows,
       Fs.find (safety_backups (files w')) safety_backup_file
       = Some (File safety_backup_file (clock e)
                    (Ok (BackupSupabaseSafe.safety_document e data total_rows))) /\
       forall t, In t (all_tables e) -> exists rows, Py.assoc data t = Some (JList rows)) /\
    Common.sends exec Common.is_read w w' /\
    backups (files w') = backups (files w) in
  (BackupSupabaseSafe.create_safety_backup exec fuel e w = Some (Some safety_backup_file, w') ->
   full ".json") /\
  (SupabaseBackup.create_safety_backup exec fuel e w = Some (Some safety_backup_file, w') ->
   full ".json.gz").
Proof.
  intros full. split; intros H.
  - pose proof (create_safety_backup_safe_sends exec fuel e w w' _ H) as [Hs Hb].
    unfold BackupSupabaseSafe.create_safety_backup in H.
    destruct (negb (dotenv e)); [discriminate|].
    destruct (negb (credentials e)); [discriminate|].
    destruct (BackupSupabaseSafe.safety_tables exec fuel (all_tables e) [] 0 w)
      as [[[data total] w1]|] eqn:E; [|discriminate].
    destruct (negb (writable e)); [discriminate|].
    injection H as <- <-. unfold full. repeat split; try assumption.
    exists data, total. split; [simpl; apply find_write|].
    intros t Ht. apply (safety_tables_entries exec _ _ _ _ _ _ _ _ E). now left.
  - pose proof (create_safety_backup_sends exec fuel e w w' _ H) as [Hs Hb].
    unfold SupabaseBackup.create_safety_backup in H.
    destruct (negb (dotenv e)); [discriminate|].
    destruct (negb (credentials e)); [discriminate|].
    destruct (BackupSupabaseSafe.safety_tables exec fuel (all_tables e) [] 0 w)
      as [[[data total] w1]|] eqn:E; [|discriminate].
    destruct (negb (writable e)); [discriminate|].
    injection H as <- <-. unfold full. repeat split; try assumption.
    exists data, total. split; [simpl; apply find_write|].
    intros t Ht. apply (safety_tables_entries exec _ _ _ _ _ _ _ _ E). now left.
Qed.

Lemma safety_backup_is_full_witness :
  exists w',
    BackupSupabaseSafe.create_safety_backup Example.exec 5 Example.run2
                                            (Example.clean Example.store1 Example.disk1)
    = Some (Some "safety_backup_20240101_000500.json", w') /\
    exists data total_rows,
      Fs.find (safety_backups (files w')) "safety_backup_20240101_000500.json"
      = Some (File "safety_backup_20240101_000500.json" 400
                   (Ok (BackupSupabaseSafe.safety_document Example.run2 data total_rows))) /\
      forall t, In t ["users"; "orders"] -> exists rows, Py.assoc data t = Some (JList rows).
Proof.
  eexists. split; [reflexivity|].
  refine (proj1 (proj2 (proj1 (safety_backup_is_full
                   Example.exec 5 Example.run2 "safety_backup_20240101_000500.json"
                   (Example.clean Example.store1 Example.disk1) _) _))).
  reflexivity.
Defined.


(** ** Row counts *)

Section Counts.

Import Common.

Context {St : Type} (exec : op -> St -> result json * St).

Lemma row_counts_fold (tables : list string) (counts : list (string * json))
      (w : world St) :
  let step := fun (acc : list (string * json) * world St) table =>
                let '(r, w1) := request exec (Count table) (snd acc) in
                let count := match r with Ok n => n | Raise _ => JInt 0 end in
                (Py.dict_set (fst acc) table count, w1) in
  let r := fold_left step tables (counts, w) in
  trace (snd r) = trace w ++ map Count tables /\
  (forall t, Py.has_key (fst r) t = true <-> Py.has_key counts t = true \/ In t tables) /\
  ((forall t s, exists msg, fst (exec (Count t) s) = Raise msg) ->
   forall t, In t tables -> Py.assoc (fst r) t = Some (JInt 0)) /\
  (forall t, ~ In t tables -> Py.assoc (fst r) t = Py.assoc counts t).
Proof.
  intros step. revert counts w. induction tables as [|x tables IH]; intros counts w r.
  - subst r. simpl. rewrite app_nil_r. repeat split; tauto.
  - subst r. simpl fold_left.
    assert (Hstep : step (counts, w) x
                    = (Py.dict_set counts x
                         (match fst (exec (Count x) (remote w)) with
                          | Ok n => n
                          | Raise _ => JInt 0
                          end),
                       World (snd (exec (Count x) (remote w))) (trace w ++ [Count x])
                             (files w))).
    { unfold step. simpl. rewrite request_eq. reflexivity. }
    rewrite Hstep. clear Hstep.
    match goal with
    | |- context [fold_left step tables (?c, ?w1)] =>
        destruct (IH c w1) as (Ht & Hk & Hz & Hn)
    end.
    cbv zeta in Ht, Hk, Hz, Hn. repeat split.
    + rewrite Ht. simpl. now rewrite <- app_assoc.
    + intros H. apply Hk in H as [H|H]; [|right; now right].
      rewrite has_key_dict_set in H. apply orb_true_iff in H as [H|H]; [|now left].
      apply String.eqb_eq in H. right. now left.
    + intros [H|[->|H]]; apply Hk.
      * left. rewrite has_key_dict_set, H. apply orb_true_r.
      * left. now rewrite has_key_dict_set, String.eqb_refl.
      * now right.
    + intros Hdown t [->|Hin].
      * destruct (in_dec string_dec t tables) as [Hin|Hnin]; [now apply Hz|].
        rewrite (Hn t Hnin), assoc_dict_set, String.eqb_refl.
        destruct (Hdown t (remote w)) as [msg ->]. reflexivity.
      * now apply Hz.
    + intros t Hnin. rewrite Hn by (intros H; apply Hnin; now right).
      rewrite assoc_dict_set.
      destruct (String.eqb x t) eqn:E; [|reflexivity].
      apply String.eqb_eq in E. exfalso. apply Hnin. now left.
Qed.

End Counts.

(** X20.  Counting the rows sends one count for each table of the list, in
    order, and nothing else; the result has an entry for exactly the tables
    of the list; and a count that fails is recorded as 0, so a store that
    cannot be counted looks empty. *)
Theorem row_counts_hide_failures {St : Type} (exec : op -> St -> result json * St)
        (tables : list string) (w : world St) :
  let r := Common.get_table_row_counts exec tables w in
  trace (snd r) = trace w ++ map Count tables /\
  (forall t, Py.has_key (fst r) t = true <-> In t tables) /\
  ((forall t s, exists msg, fst (exec (Count t) s) = Raise msg) ->
   forall t, In t tables -> Py.assoc (fst r) t = Some (JInt 0)).
Proof.
  intros r. destruct (row_counts_fold exec tables [] w) as (Ht & Hk & Hz & _).
  cbv zeta in Ht, Hk, Hz. repeat split.
  - exact Ht.
  - intros H. apply Hk in H as [H|H]; [discriminate|exact H].
  - intros H. apply Hk. now right.
  - exact Hz.
Qed.

Lemma row_counts_hide_failures_witness :
  Py.assoc (fst (Common.get_table_row_counts (Store.exec Example.counts_down)
                   ["users"; "orders"] (Example.clean Example.store1 (Disk [] [] []))))
           "orders"
  = Some (JInt 0).
Proof.
  apply (proj2 (proj2 (row_counts_hide_failures
                  (Store.exec Example.counts_down) ["users"; "orders"]
                  (Example.clean Example.store1 (Disk [] [] []))))).
  - intros t s. exists "timeout". reflexivity.
  - simpl. tauto.
Defined.


(** ** The totals of the restore log *)

Section LogTotals.

Import Common.

Context {St : Type} (exec : op -> St -> result json * St).

Lemma restore_table_totals (data : json) (log log' : restore_log) (w w' : world St)
      (t : string) :
  BackupSupabaseSafe.restore_table exec data (log, w) t = Ok (log', w') ->
  total_inserted log' + total_updated log' + total_errors log'
  = total_inserted log + total_updated log + total_errors log + rows_to_write data t.
Proof.
  unfold BackupSupabaseSafe.restore_table, rows_to_write.
  destruct (Py.get data t) as [entry|]; simpl; [|discriminate].
  destruct (classify entry) eqn:E; try (intros [= <- <-]; simpl; lia).
  pose proof (restore_rows_total exec t 100 rows w ltac:(lia)) as H.
  unfold total in H.
  destruct (restore_rows exec t 100 rows w) as [c w1]. simpl in H.
  intros [= <- <-]. simpl. lia.
Qed.

Lemma restore_tables_totals (data : json) (tables : list string)
      (acc acc' : restore_log * world St) (w2 : world St) :
  BackupSupabaseSafe.restore_tables exec data tables acc = (Ok acc', w2) ->
  total_inserted (fst acc') + total_updated (fst acc') + total_errors (fst acc')
  = total_inserted (fst acc) + total_updated (fst acc) + total_errors (fst acc)
    + fold_right (fun t n => rows_to_write data t + n) 0 tables.
Proof.
  revert acc. induction tables as [|t tables IH]; intros acc; simpl.
  - intros [= <- <-]. lia.
  - destruct (BackupSupabaseSafe.restore_table exec data acc t) as [[log1 w1]|] eqn:E;
      [|discriminate].
    intros H. apply IH in H. rewrite H. simpl.
    destruct acc as [log w]. apply restore_table_totals in E. simpl. lia.
Qed.

Lemma sum_counts_shift (f : counters -> Z) (l : list (string * counters)) (a : Z) :
  fold_left (fun n r => n + f (snd r)) l a = a + SupabaseBackup.sum_counts f l.
Proof.
  unfold SupabaseBackup.sum_counts. revert a.
  induction l as [|x l IH]; intros a; simpl; [lia|].
  rewrite (IH (a + f (snd x))), (IH (0 + f (snd x))). lia.
Qed.

Lemma sum_counts_cons (f : counters -> Z) (x : string * counters)
      (l : list (string * counters)) :
  SupabaseBackup.sum_counts f (x :: l) = f (snd x) + SupabaseBackup.sum_counts f l.
Proof.
  unfold SupabaseBackup.sum_counts at 1. simpl. now rewrite sum_counts_shift.
Qed.

Lemma sum_counts_dict_set (f : counters -> Z) (results : list (string * counters))
      (t : string) (c : counters) :
  f no_counts = 0 -> (forall a b, f (add_counts a b) = f a + f b) ->
  SupabaseBackup.sum_counts f
    (Py.dict_set results t
       (add_counts (match Py.assoc results t with Some c0 => c0 | None => no_counts end) c))
  = SupabaseBackup.sum_counts f results + f c.
Proof.
  intros H0 Hadd. induction results as [|[k v] results IH].
  - simpl. rewrite sum_counts_cons. simpl. rewrite Hadd, H0.
    unfold SupabaseBackup.sum_counts. simpl. lia.
  - simpl. destruct (String.eqb k t).
    + rewrite !sum_counts_cons. simpl. rewrite Hadd. lia.
    + rewrite !sum_counts_cons, IH. simpl. lia.
Qed.

Lemma run_task_totals (acc : list (string * counters) * world St)
      (task : string * list json * list string) :
  let sum results := SupabaseBackup.sum_counts inserted results
                     + SupabaseBackup.sum_counts updated results
                     + SupabaseBackup.sum_counts errors results in
  sum (fst (SupabaseBackup.run_task exec acc task))
  = sum (fst acc) + Z.of_nat (length (snd (fst task))).
Proof.
  intros sum. destruct acc as [results w], task as [[table batch] cols].
  unfold SupabaseBackup.run_task, SupabaseBackup.restore_table_batch.
  pose proof (restore_batch_total exec table cols (no_counts, w) batch) as H.
  unfold total in H.
  destruct (restore_batch exec table cols (no_counts, w) batch) as [c w1].
  simpl in H. simpl fst. simpl snd. unfold sum.
  rewrite !sum_counts_dict_set; try reflexivity; simpl; lia.
Qed.

Lemma run_tasks_totals (tasks : list (string * list json * list string))
      (acc : list (string * counters) * world St) :
  let sum results := SupabaseBackup.sum_counts inserted results
                     + SupabaseBackup.sum_counts updated results
                     + SupabaseBackup.sum_counts errors results in
  sum (fst (fold_left (SupabaseBackup.run_task exec) tasks acc))
  = sum (fst acc)
    + fold_right (fun task n => Z.of_nat (length (snd (fst task))) + n) 0 tasks.
Proof.
  intros sum. revert acc. induction tasks as [|task tasks IH]; intros acc; simpl; [lia|].
  rewrite IH. pose proof (run_task_totals acc task) as H. cbv zeta in H.
  unfold sum. rewrite H. lia.
Qed.

Lemma table_tasks_rows (data : json) (t : string) (failed : list (string * string))
      (tasks : list (string * list json * list string)) :
  SupabaseBackup.table_tasks data t = Ok (failed, tasks) ->
  fold_right (fun task n => Z.of_nat (length (snd (fst task))) + n) 0 tasks
  = rows_to_write data t.
Proof.
  unfold SupabaseBackup.table_tasks, rows_to_write.
  destruct (Py.get data t) as [entry|]; simpl; [|discriminate].
  destruct (classify entry) eqn:E; simpl; try (intros [= <- <-]; reflexivity).
  - destruct (len entry); simpl; [intros [= <- <-]; reflexivity|discriminate].
  - intros [= <- <-].
    destruct (batches_spec SupabaseBackup.DEFAULT_BATCH_SIZE rows) as [Hc _];
      [unfold SupabaseBackup.DEFAULT_BATCH_SIZE; lia|].
    rewrite <- Hc at 2. clear Hc.
    induction (batches SupabaseBackup.DEFAULT_BATCH_SIZE rows) as [|b bs IH]; simpl;
      [reflexivity|].
    rewrite IH, length_app. lia.
Qed.

Lemma restore_tasks_rows (data : json) (tables : list string)
      (failed : list (string * string))
      (tasks : list (string * list json * list string)) :
  SupabaseBackup.restore_tasks data tables = Ok (failed, tasks) ->
  fold_right (fun task n => Z.of_nat (length (snd (fst task))) + n) 0 tasks
  = fold_right (fun t n => rows_to_write data t + n) 0 tables.
Proof.
  unfold SupabaseBackup.restore_tasks. intros H.
  apply bind_Ok in H as (l & Hl & H). injection H as _ <-.
  apply mapM_result_Forall2 in Hl.
  induction Hl as [|t [f ts] tables l Ht Hl IH]; simpl; [reflexivity|].
  rewrite <- IH, <- (table_tasks_rows data t f ts Ht). clear.
  induction ts as [|x ts IH]; simpl; [reflexivity|]. rewrite IH. lia.
Qed.

End LogTotals.

(** X21.  The totals of the restore log account for every row the restore
    had to write: over the tables of the list, the rows inserted, updated
    and counted as errors add up to the rows of the entries that are
    non-empty lists.  No row is left out of the log. *)
Theorem restore_log_accounts_for_every_row {St : Type}
        (exec : op -> St -> result json * St) (data : json) (tables : list string) :
  let rows := fold_right (fun t n => Common.rows_to_write data t + n) 0 tables in
  (forall log0 w log w1 w2,
     BackupSupabaseSafe.restore_tables exec data tables (log0, w) = (Ok (log, w1), w2) ->
     Common.total_inserted log + Common.total_updated log + Common.total_errors log
     = Common.total_inserted log0 + Common.total_updated log0 + Common.total_errors log0
       + rows) /\
  (forall failed tasks w,
     SupabaseBackup.restore_tasks data tables = Ok (failed, tasks) ->
     let results := fst (fold_left (SupabaseBackup.run_task exec) tasks ([], w)) in
     SupabaseBackup.sum_counts Common.inserted results
     + SupabaseBackup.sum_counts Common.updated results
     + SupabaseBackup.sum_counts Common.errors results = rows).
Proof.
  intros rows. split.
  - intros log0 w log w1 w2 H. now apply restore_tables_totals in H.
  - intros failed tasks w H results.
    pose proof (run_tasks_totals exec tasks ([], w)) as Hr. cbv zeta in Hr.
    subst results. rewrite Hr. apply restore_tasks_rows in H. rewrite H.
    reflexivity.
Qed.

Lemma restore_log_accounts_for_every_row_witness :
  let data := JDict [("users", JList Example.users); ("orders", JList [])] in
  let results :=
    fst (fold_left (SupabaseBackup.run_task (Store.exec Example.duplicates))
                   [("users", Example.users, [])]
                   ([], Example.clean Example.store0 (Disk [] [] []))) in
  SupabaseBackup.sum_counts Common.inserted results
  + SupabaseBackup.sum_counts Common.updated results
  + SupabaseBackup.sum_counts Common.errors results
  = fold_right (fun t n => Common.rows_to_write data t + n) 0 ["users"; "orders"].
Proof.
  intros data results.
  apply (proj2 (restore_log_accounts_for_every_row
                  (Store.exec Example.duplicates) data ["users"; "orders"])
               [] [("users", Example.users, [])]
               (Example.clean Example.store0 (Disk [] [] []))).
  reflexivity.
Defined.


(** ** The multithreaded mode of the backup *)

Section Workers.

Import Common.

Lemma collect_effect (pb : json) (ff : bool) (t : string) (r : SupabaseBackup.fetched) :
  SupabaseBackup.result_table r = t ->
  exists e dr ds lf lu lc,
    forall p,
      let p' := SupabaseBackup.collect pb ff p (t, r) in
      BackupSupabase.data p' = Py.dict_set (BackupSupabase.data p) t e /\
      BackupSupabase.total_rows p' = BackupSupabase.total_rows p + dr /\
      BackupSupabase.successful_tables p' = BackupSupabase.successful_tables p + ds /\
      BackupSupabase.failed_tables p' = BackupSupabase.failed_tables p ++ lf /\
      BackupSupabase.unchanged_tables p' = BackupSupabase.unchanged_tables p ++ lu /\
      BackupSupabase.changed_tables p' = BackupSupabase.changed_tables p ++ lc.
Proof.
  intros Ht. unfold SupabaseBackup.collect. rewrite Ht.
  assert (Hgo : forall e dr ds lf lu lc (p' : BackupSupabase.progress -> BackupSupabase.progress),
             (forall p, p' p = BackupSupabase.Progress
                                 (Py.dict_set (BackupSupabase.data p) t e)
                                 (BackupSupabase.total_rows p + dr)
                                 (BackupSupabase.successful_tables p + ds)
                                 (BackupSupabase.failed_tables p ++ lf)
                                 (BackupSupabase.unchanged_tables p ++ lu)
                                 (BackupSupabase.changed_tables p ++ lc)) ->
             exists e dr ds lf lu lc,
               forall p,
                 BackupSupabase.data (p' p) = Py.dict_set (BackupSupabase.data p) t e /\
                 BackupSupabase.total_rows (p' p) = BackupSupabase.total_rows p + dr /\
                 BackupSupabase.successful_tables (p' p)
                 = BackupSupabase.successful_tables p + ds /\
                 BackupSupabase.failed_tables (p' p) = BackupSupabase.failed_tables p ++ lf /\
                 BackupSupabase.unchanged_tables (p' p)
                 = BackupSupabase.unchanged_tables p ++ lu /\
                 BackupSupabase.changed_tables (p' p) = BackupSupabase.changed_tables p ++ lc).
  { intros e dr ds lf lu lc p' H. exists e, dr, ds, lf, lu, lc. intros p.
    rewrite H. now repeat split. }
  destruct (negb (SupabaseBackup.result_success r)).
  { eapply (Hgo _ 0 0 [t] [] []). intros p. simpl.
    now rewrite ?Z.add_0_r, ?app_nil_r. }
  destruct (SupabaseBackup.result_comparison r) as [c|].
  2: { eapply (Hgo _ 0 0 [t] [] []). intros p. unfold BackupSupabase.table_failed.
       now rewrite ?Z.add_0_r, ?app_nil_r. }
  destruct (negb (changed c) && negb ff).
  - destruct (m ← Py.subscript pb "metadata";
              reference ← Py.subscript m "timestamp";
              hash ← hash_of c;
              mret (BackupSupabase.unchanged_entry reference (JStr hash))) as [e|msg].
    + eapply (Hgo e 0 0 [] [t] []). intros p. simpl.
      now rewrite ?Z.add_0_r, ?app_nil_r.
    + eapply (Hgo _ 0 0 [t] [t] []). intros p. unfold BackupSupabase.table_failed. simpl.
      now rewrite ?Z.add_0_r, ?app_nil_r.
  - destruct (0 <? SupabaseBackup.result_row_count r).
    + eapply (Hgo _ _ 1 [] [] [t]). intros p. now rewrite ?app_nil_r.
    + eapply (Hgo _ 0 1 [] [] []). intros p. now rewrite ?Z.add_0_r, ?app_nil_r.
Qed.

Lemma same_backup_refl (p : BackupSupabase.progress) : SupabaseBackup.same_backup p p.
Proof. now repeat split. Qed.

Lemma same_backup_trans (p q r : BackupSupabase.progress) :
  SupabaseBackup.same_backup p q -> SupabaseBackup.same_backup q r ->
  SupabaseBackup.same_backup p r.
Proof.
  intros (H1 & H2 & H3 & H4 & H5 & H6) (K1 & K2 & K3 & K4 & K5 & K6).
  repeat split; try congruence; eapply Permutation_trans; eassumption.
Qed.

Lemma collect_same (pb : json) (ff : bool) (future : string * SupabaseBackup.fetched)
      (p p' : BackupSupabase.progress) :
  SupabaseBackup.result_table (snd future) = fst future ->
  SupabaseBackup.same_backup p p' ->
  SupabaseBackup.same_backup (SupabaseBackup.collect pb ff p future)
                             (SupabaseBackup.collect pb ff p' future).
Proof.
  destruct future as [t r]. intros Ht (H1 & H2 & H3 & H4 & H5 & H6). simpl in Ht.
  destruct (collect_effect pb ff t r Ht) as (e & dr & ds & lf & lu & lc & H).
  destruct (H p) as (E1 & E2 & E3 & E4 & E5 & E6).
  destruct (H p') as (F1 & F2 & F3 & F4 & F5 & F6).
  unfold SupabaseBackup.same_backup.
  rewrite E1, E2, E3, E4, E5, E6, F1, F2, F3, F4, F5, F6.
  repeat split; try lia; try (now apply Permutation_app_tail).
  intros x. rewrite !assoc_dict_set. now rewrite H6.
Qed.

Lemma collect_swap (pb : json) (ff : bool) (f1 f2 : string * SupabaseBackup.fetched)
      (p : BackupSupabase.progress) :
  SupabaseBackup.result_table (snd f1) = fst f1 ->
  SupabaseBackup.result_table (snd f2) = fst f2 ->
  fst f1 <> fst f2 ->
  SupabaseBackup.same_backup
    (SupabaseBackup.collect pb ff (SupabaseBackup.collect pb ff p f1) f2)
    (SupabaseBackup.collect pb ff (SupabaseBackup.collect pb ff p f2) f1).
Proof.
  destruct f1 as [t1 r1], f2 as [t2 r2]. intros Ht1 Ht2 Hne.
  simpl in Ht1, Ht2, Hne.
  destruct (collect_effect pb ff t1 r1 Ht1) as (e1 & dr1 & ds1 & lf1 & lu1 & lc1 & H1).
  destruct (collect_effect pb ff t2 r2 Ht2) as (e2 & dr2 & ds2 & lf2 & lu2 & lc2 & H2).
  assert (Hperm : forall (l a b : list string),
             Permutation ((l ++ a) ++ b) ((l ++ b) ++ a)).
  { intros l a b. rewrite <- !app_assoc. apply Permutation_app_head,
      Permutation_app_comm. }
  destruct (H1 p) as (A1 & A2 & A3 & A4 & A5 & A6).
  destruct (H2 p) as (B1 & B2 & B3 & B4 & B5 & B6).
  destruct (H2 (SupabaseBackup.collect pb ff p (t1, r1))) as (C1 & C2 & C3 & C4 & C5 & C6).
  destruct (H1 (SupabaseBackup.collect pb ff p (t2, r2))) as (D1 & D2 & D3 & D4 & D5 & D6).
  unfold SupabaseBackup.same_backup.
  rewrite C1, C2, C3, C4, C5, C6, D1, D2, D3, D4, D5, D6.
  rewrite A1, A2, A3, A4, A5, A6, B1, B2, B3, B4, B5, B6.
  repeat split; try lia; try apply Hperm.
  intros x. rewrite !assoc_dict_set.
  destruct (String.eqb t2 x) eqn:E2; [|reflexivity].
  destruct (String.eqb t1 x) eqn:E1; [|reflexivity].
  apply String.eqb_eq in E1, E2. congruence.
Qed.

Lemma collect_all_same (pb : json) (ff : bool)
      (futures : list (string * SupabaseBackup.fetched)) (p p' : BackupSupabase.progress) :
  Forall (fun future => SupabaseBackup.result_table (snd future) = fst future) futures ->
  SupabaseBackup.same_backup p p' ->
  SupabaseBackup.same_backup (fold_left (SupabaseBackup.collect pb ff) futures p)
                             (fold_left (SupabaseBackup.collect pb ff) futures p').
Proof.
  intros Hall. revert p p'. induction Hall as [|f futures Hf Hall IH]; intros p p' H;
    simpl; [exact H|].
  apply IH. now apply collect_same.
Qed.

Lemma collect_all_permutation (pb : json) (ff : bool)
      (futures futures' : list (string * SupabaseBackup.fetched)) :
  Permutation futures futures' ->
  NoDup (map fst futures) ->
  Forall (fun future => SupabaseBackup.result_table (snd future) = fst future) futures ->
  forall p,
    SupabaseBackup.same_backup (fold_left (SupabaseBackup.collect pb ff) futures p)
                               (fold_left (SupabaseBackup.collect pb ff) futures' p).
Proof.
  induction 1 as [|f l l' Hp IH|f1 f2 l|l l' l'' Hp1 IH1 Hp2 IH2]; intros Hnd Hall p.
  - apply same_backup_refl.
  - simpl. inversion Hnd; subst. inversion Hall; subst. now apply IH.
  - simpl. inversion Hall as [|? ? Hf2 Hall']; subst.
    inversion Hall' as [|? ? Hf1 Hall'']; subst.
    apply collect_all_same; [exact Hall''|].
    apply collect_swap; try assumption.
    simpl in Hnd. inversion Hnd as [|? ? Hnotin _]; subst.
    intros E. apply Hnotin. left. now symmetry.
  - eapply same_backup_trans; [now apply IH1|].
    apply IH2.
    + eapply Permutation_NoDup; [|exact Hnd]. now apply Permutation_map.
    + eapply Permutation_Forall; eassumption.
Qed.

End Workers.

(** X22.  [supabase_backup.py]: for one table, the worker of the
    multithreaded mode followed by the handling of its result does what the
    turn of the sequential loop does: the same requests, the same entry
    and the same counters. *)
Theorem worker_agrees_with_sequential_loop {St : Type}
        (exec : op -> St -> result json * St)
        (fuel : nat) (previous_backup prev_timestamp : json) (force_full : bool)
        (table : string) (p : BackupSupabase.progress) (w : world St) :
  (if Py.truthy previous_backup
   then m ← Py.subscript previous_backup "metadata"; Py.subscript m "timestamp"
   else mret JNull) = Ok prev_timestamp ->
  SupabaseBackup.backup_tables exec fuel previous_backup prev_timestamp force_full
                               [table] p w
  = match SupabaseBackup.fetch_table_with_progress exec fuel previous_backup force_full
                                                   table w with
    | Some (r, w1) =>
        Some (SupabaseBackup.collect previous_backup force_full p (table, r), w1)
    | None => None
    end.
Proof.
  intros Hts. simpl. unfold SupabaseBackup.fetch_table_with_progress.
  destruct (Common.fetch_table_data exec fuel table w) as [[cur w1]|]; [|reflexivity].
  unfold SupabaseBackup.table_step.
  destruct (SupabaseBackup.previous_data_of (files w1) previous_backup force_full table)
    as [previous|msg] eqn:Eprev; simpl; [|reflexivity].
  destruct (Common.compare_table_data (JList cur) previous) as [c|msg] eqn:Ec; simpl;
    [|reflexivity].
  destruct (negb (Common.changed c) && negb force_full) eqn:Eun.
  - destruct c as [|h|h a r cc pc]; try discriminate. simpl.
    apply compare_same in Ec as [_ Hnn].
    destruct (Py.truthy previous_backup) eqn:Etr.
    + apply bind_Ok in Hts as (m & Hm & Hts). rewrite Hm. simpl. rewrite Hts.
      reflexivity.
    + exfalso. apply Hnn. unfold SupabaseBackup.previous_data_of in Eprev.
      rewrite Etr in Eprev. simpl in Eprev. now injection Eprev as <-.
  - destruct (0 <? Z.of_nat (length cur)); reflexivity.
Qed.

Lemma worker_agrees_with_sequential_loop_witness :
  SupabaseBackup.backup_tables Example.exec 5 (SupabaseBackup.get_latest_backup Example.disk1)
                               (JStr "20240101_000000") false ["users"]
                               BackupSupabase.no_progress
                               (Example.clean Example.store1 Example.disk1)
  = match SupabaseBackup.fetch_table_with_progress
            Example.exec 5 (SupabaseBackup.get_latest_backup Example.disk1) false "users"
            (Example.clean Example.store1 Example.disk1) with
    | Some (r, w1) =>
        Some (SupabaseBackup.collect (SupabaseBackup.get_latest_backup Example.disk1) false BackupSupabase.no_progress
                                     ("users", r), w1)
    | None => None
    end.
Proof.
  apply (worker_agrees_with_sequential_loop
           Example.exec 5 (SupabaseBackup.get_latest_backup Example.disk1) (JStr "20240101_000000") false "users"
           BackupSupabase.no_progress (Example.clean Example.store1 Example.disk1)).
  reflexivity.
Defined.

(** X23.  [supabase_backup.py]: the order in which the workers of the
    multithreaded mode complete does not change what is stored.  The
    workers having been started for distinct tables, two orders of
    completion give the same counters, the same entry for every table and
    the same failed, unchanged and changed tables; only the order of the
    entries and of the names differs. *)
Theorem completion_order_is_immaterial (previous_backup : json) (force_full : bool)
        (futures futures' : list (string * SupabaseBackup.fetched))
        (p : BackupSupabase.progress) :
  NoDup (map fst futures) ->
  Forall (fun future => SupabaseBackup.result_table (snd future) = fst future) futures ->
  Permutation futures futures' ->
  SupabaseBackup.same_backup
    (fold_left (SupabaseBackup.collect previous_backup force_full) futures p)
    (fold_left (SupabaseBackup.collect previous_backup force_full) futures' p).
Proof.
  intros Hnd Hall Hp. now apply collect_all_permutation.
Qed.

Lemma completion_order_is_immaterial_witness :
  let users := SupabaseBackup.Fetched "users" true (JList Example.users) 3
                                      (Some Common.NoPrevious) JNull in
  let orders := SupabaseBackup.Fetched "orders" false JNull 0 None (JStr "timeout") in
  SupabaseBackup.same_backup
    (fold_left (SupabaseBackup.collect JNull false)
               [("users", users); ("orders", orders)] BackupSupabase.no_progress)
    (fold_left (SupabaseBackup.collect JNull false)
               [("orders", orders); ("users", users)] BackupSupabase.no_progress).
Proof.
  intros users orders.
  apply (completion_order_is_immaterial
           JNull false [("users", users); ("orders", orders)]
           [("orders", orders); ("users", users)] BackupSupabase.no_progress).
  - repeat constructor; simpl; intuition discriminate.
  - repeat constructor.
  - apply perm_swap.
Defined.
